(** * Verification of [generate_dashboard.py]

    The program loads [comprehensive-final-report.json], substitutes fields
    of the loaded document into one f-string, writes the result to
    [jira-test-dashboard.html] and opens that file in a browser.  The
    f-string carries a script that the browser evaluates over the suites
    embedded in the page.

    The development has three layers:
    - the Python values that [json.load] produces, with subscripting,
      [str()] and [json.dumps];
    - the f-string of [create_html_dashboard] as a sequence of literal
      pieces and replacement fields, evaluated left to right, and the file
      and console effects of [create_html_dashboard] and [main];
    - the embedded script (module [Viewer]) over IEEE binary64 numbers.

    Python [str] values are carried as their UTF-8 bytes, which is how both
    the source file and the written page hold them; a lone surrogate, which
    [json.load] can produce and which has no UTF-8 form, is carried as the
    three bytes that the [surrogatepass] handler would write.  Files and
    console are taken to use UTF-8. *)

From Stdlib Require Import ZArith NArith List String Ascii Bool Lia DecimalString Sorted.
From Stdlib Require Import Floats.SpecFloat.
From stdpp Require Import base option gmap strings.
Import ListNotations.
Open Scope string_scope.
Open Scope Z_scope.

(** ** Strings *)

(** The double quote character, and the template's literal text: the
    literals below are the f-string's text with every double quote written
    as a backquote (a character the template does not use); [q] puts the
    double quotes back. *)
Definition dquote : ascii := ascii_of_nat 34.

Fixpoint q (s : string) : string :=
  match s with
  | EmptyString => EmptyString
  | String c s' => String (if Ascii.eqb c "`" then dquote else c) (q s')
  end.

(** [s.startswith(p)] *)
Fixpoint starts_with (p s : string) : bool :=
  match p, s with
  | EmptyString, _ => true
  | String a p', String b s' => Ascii.eqb a b && starts_with p' s'
  | String _ _, EmptyString => false
  end.

(** Python's [needle in hay] on strings. *)
Fixpoint contains (needle hay : string) : bool :=
  starts_with needle hay ||
  match hay with
  | EmptyString => false
  | String _ hay' => contains needle hay'
  end.

Definition occurs_in (needle hay : string) : Prop :=
  exists pre post, hay = pre +:+ needle +:+ post.

(** Decimal numeral of an integer: [str(n)] for a Python [int]. *)
Definition str_int (z : Z) : string := NilZero.string_of_int (Z.to_int z).

(** ** Python values loaded from JSON *)

(** A Python [float] is observed by this program only through its [repr];
    a finite float is carried by that numeral. *)
Inductive pyfloat :=
  | FNaN
  | FInf (negative : bool)
  | FFinite (repr : string).

Set Warnings "-register-all".

(** [dict] keeps insertion order, so it is an association list; [json.load]
    produces [str] keys only. *)
Inductive value :=
  | VNone
  | VBool (b : bool)
  | VInt (z : Z)
  | VFloat (f : pyfloat)
  | VStr (s : string)
  | VList (l : list value)
  | VDict (items : list (string * value)).

(** The exceptions that leave the program.  [OSError] stands for what
    [open(path, 'w')] raises when it cannot open the file: an instance of
    [OSError] whose class depends on the reason ([PermissionError],
    [IsADirectoryError], ...). *)
Inductive exn :=
  | KeyError (key : string)
  | TypeError
  | JSONDecodeError
  | FileNotFoundError (path : string)
  | OSError (path : string)
  | UnicodeEncodeError.

Inductive result (A : Type) :=
  | Ok (a : A)
  | Raise (e : exn).
Arguments Ok {A} a.
Arguments Raise {A} e.

Definition bind {A B} (r : result A) (k : A -> result B) : result B :=
  match r with
  | Ok a => k a
  | Raise e => Raise e
  end.

Notation "x <- r ;; k" := (bind r (fun x => k))
  (at level 100, r at next level, right associativity).

(** The two library functions the program relies on whose full behaviour is
    not reproduced here: the JSON parser behind [json.load] ([None] stands
    for [json.JSONDecodeError]) and [repr] on [str], which only shows when
    a container stands where the template formats a scalar.  [json.load]
    returns the document exactly when [json_loads] gives one; the other
    exceptions it can raise on a text ([ValueError] for an integer of
    more than 4300 digits, [RecursionError], [UnicodeDecodeError]) are
    [None] as well, so a statement that names [JSONDecodeError] is about
    a text that is not a JSON document. *)
Class PyLib := {
  json_loads : string -> option value;
  repr_str : string -> string
}.

Fixpoint assoc (k : string) (items : list (string * value)) : option value :=
  match items with
  | [] => None
  | (k', v) :: rest => if String.eqb k k' then Some v else assoc k rest
  end.

(** [v[k]] with a [str] key: only a [dict] accepts it. *)
Definition subscript (v : value) (k : string) : result value :=
  match v with
  | VDict items =>
      match assoc k items with
      | Some x => Ok x
      | None => Raise (KeyError k)
      end
  | _ => Raise TypeError
  end.

(** [data[k1][k2]...] *)
Fixpoint get_path (v : value) (p : list string) : result value :=
  match p with
  | [] => Ok v
  | k :: p' => x <- subscript v k ;; get_path x p'
  end.

Definition float_repr (f : pyfloat) : string :=
  match f with
  | FNaN => "nan"
  | FInf false => "inf"
  | FInf true => "-inf"
  | FFinite r => r
  end.

Section PyFormat.
Context `{PyLib}.

Fixpoint py_repr (v : value) : string :=
  match v with
  | VNone => "None"
  | VBool b => if b then "True" else "False"
  | VInt z => str_int z
  | VFloat f => float_repr f
  | VStr s => repr_str s
  | VList l => "[" +:+ String.concat ", " (map py_repr l) +:+ "]"
  | VDict items =>
      "{" +:+ String.concat ", "
                (map (fun kv => let '(k, x) := kv in
                                repr_str k +:+ ": " +:+ py_repr x) items)
          +:+ "}"
  end.

(** What a replacement field [{v}] with no format spec inserts: [str(v)]. *)
Definition py_str (v : value) : string :=
  match v with
  | VStr s => s
  | _ => py_repr v
  end.
End PyFormat.

(** ** [json.dumps] with its defaults *)

Definition hex_digit (n : N) : ascii :=
  ascii_of_N (if (n <? 10)%N then 48 + n else 87 + n)%N.

(** ['{0:04x}'.format(n)] for [n < 0x10000] *)
Definition hex4 (n : N) : string :=
  String (hex_digit (N.shiftr n 12 mod 16)%N)
 (String (hex_digit (N.shiftr n 8 mod 16)%N)
 (String (hex_digit (N.shiftr n 4 mod 16)%N)
 (String (hex_digit (n mod 16)%N) EmptyString))).

Definition backslash : ascii := ascii_of_nat 92.
Definition esc (c : string) : string := String backslash c.

(** [replace] of [json.encoder.py_encode_basestring_ascii], on a code point. *)
Definition escape_code_point (n : N) : string :=
  if (n =? 92)%N then esc (String backslash EmptyString)
  else if (n =? 34)%N then esc (String dquote EmptyString)
  else if (n =? 8)%N then esc "b"
  else if (n =? 12)%N then esc "f"
  else if (n =? 10)%N then esc "n"
  else if (n =? 13)%N then esc "r"
  else if (n =? 9)%N then esc "t"
  else if ((32 <=? n) && (n <=? 126))%N then String (ascii_of_N n) EmptyString
  else if (n <? 65536)%N then esc "u" +:+ hex4 n
  else
    let m := (n - 65536)%N in
    esc "u" +:+ hex4 (N.lor 55296 (N.land (N.shiftr m 10) 1023)) +:+
    esc "u" +:+ hex4 (N.lor 56320 (N.land m 1023)).

Definition cont (a : ascii) : N := N.land (N_of_ascii a) 63.

(** The code points of a UTF-8 byte string.  A byte that does not start a
    complete sequence (which no text read from a UTF-8 file has) is taken
    as a code point of its own. *)
Fixpoint code_points (s : string) : list N :=
  match s with
  | EmptyString => []
  | String a0 s1 =>
      let b0 := N_of_ascii a0 in
      if (b0 <? 192)%N then b0 :: code_points s1
      else
        match s1 with
        | EmptyString => [b0]
        | String a1 s2 =>
            if (b0 <? 224)%N then
              N.lor (N.shiftl (N.land b0 31) 6) (cont a1) :: code_points s2
            else
              match s2 with
              | EmptyString => [b0; N_of_ascii a1]
              | String a2 s3 =>
                  if (b0 <? 240)%N then
                    N.lor (N.shiftl (N.land b0 15) 12)
                      (N.lor (N.shiftl (cont a1) 6) (cont a2))
                    :: code_points s3
                  else
                    match s3 with
                    | EmptyString => [b0; N_of_ascii a1; N_of_ascii a2]
                    | String a3 s4 =>
                        N.lor (N.shiftl (N.land b0 7) 18)
                          (N.lor (N.shiftl (cont a1) 12)
                             (N.lor (N.shiftl (cont a2) 6) (cont a3)))
                        :: code_points s4
                    end
              end
        end
  end.

(** [s.encode('utf-8')] succeeds: no code point of [s] is a surrogate. *)
Definition surrogate (n : N) : bool := ((55296 <=? n) && (n <=? 57343))%N.

Definition encodable (s : string) : bool :=
  forallb (fun n => negb (surrogate n)) (code_points s).

(** [json.encoder.encode_basestring_ascii]: the quoted, ASCII-only form. *)
Definition json_string (s : string) : string :=
  String dquote (String.concat "" (map escape_code_point (code_points s)))
  +:+ String dquote EmptyString.

Definition json_float (f : pyfloat) : string :=
  match f with
  | FNaN => "NaN"
  | FInf false => "Infinity"
  | FInf true => "-Infinity"
  | FFinite r => r
  end.

(** [json.dumps(v)]: item separator [", "], key separator [": "], keys in
    insertion order. *)
Fixpoint json_dumps (v : value) : string :=
  match v with
  | VNone => "null"
  | VBool b => if b then "true" else "false"
  | VInt z => str_int z
  | VFloat f => json_float f
  | VStr s => json_string s
  | VList l => "[" +:+ String.concat ", " (map json_dumps l) +:+ "]"
  | VDict items =>
      "{" +:+ String.concat ", "
                (map (fun kv => let '(k, x) := kv in
                                json_string k +:+ ": " +:+ json_dumps x) items)
          +:+ "}"
  end.

(** ** The f-string of [create_html_dashboard] *)

(** A piece of the f-string: literal text (with [{{] and [}}] already read
    as single braces), a replacement field [{data[k1]...[kn]}], or the field
    [{json.dumps(data[k1]...[kn])}]. *)
Inductive piece :=
  | Lit (s : string)
  | Hole (path : list string)
  | Dumps (path : list string).

Definition template_head : list piece :=
  [Lit (q "<!DOCTYPE html>
<html lang=`en`>
<head>
    <meta charset=`UTF-8`>
    <meta name=`viewport` content=`width=device-width, initial-scale=1.0`>
    <title>🎯 JIRA UAT Testing - Comprehensive Dashboard</title>
    <script src=`https://cdn.jsdelivr.net/npm/chart.js`></script>
    <style>
        * {
            margin: 0;
            padding: 0;
            box-sizing: border-box;
        }
        
        body {
            font-family: 'Segoe UI', Tahoma, Geneva, Verdana, sans-serif;
            background: linear-gradient(135deg, #1e3c72 0%, #2a5298 100%);
            color: #333;
            line-height: 1.6;
            min-height: 100vh;
        }
        
        .header {
            background: linear-gradient(135deg, #667eea 0%, #764ba2 100%);
            color: white;
            padding: 2rem;
            text-align: center;
            box-shadow: 0 4px 6px rgba(0,0,0,0.1);
        }
        
        .header h1 {
            font-size: 3rem;
            margin-bottom: 0.5rem;
            text-shadow: 2px 2px 4px rgba(0,0,0,0.3);
        }
        
        .header .subtitle {
            font-size: 1.2rem;
            opacity: 0.9;
        }
        
        .container {
            max-width: 1400px;
            margin: 0 auto;
            padding: 2rem;
        }
        
        .stats-grid {
            display: grid;
            grid-template-columns: repeat(auto-fit, minmax(250px, 1fr));
            gap: 1.5rem;
            margin-bottom: 3rem;
        }
        
        .stat-card {
            background: white;
            padding: 1.5rem;
            border-radius: 15px;
            box-shadow: 0 8px 25px rgba(0,0,0,0.1);
            text-align: center;
            transition: transform 0.3s ease, box-shadow 0.3s ease;
        }
        
        .stat-card:hover {
            transform: translateY(-5px);
            box-shadow: 0 12px 35px rgba(0,0,0,0.15);
        }
        
        .stat-number {
            font-size: 3rem;
            font-weight: bold;
            margin-bottom: 0.5rem;
        }
        
        .stat-label {
            font-size: 1.1rem;
            color: #666;
        }
        
        .success { color: #10b981; }
        .danger { color: #ef4444; }
        .warning { color: #f59e0b; }
        .info { color: #3b82f6; }
        
        .charts-section {
            display: grid;
            grid-template-columns: repeat(auto-fit, minmax(400px, 1fr));
            gap: 2rem;
            margin-bottom: 3rem;
        }
        
        .chart-container {
            background: white;
            padding: 2rem;
            border-radius: 15px;
            box-shadow: 0 8px 25px rgba(0,0,0,0.1);
        }
        
        .chart-title {
            font-size: 1.5rem;
            font-weight: bold;
            margin-bottom: 1rem;
            text-align: center;
            color: #333;
        }
        
        .findings-section {
            display: grid;
            grid-template-columns: repeat(auto-fit, minmax(400px, 1fr));
            gap: 2rem;
        }
        
        .findings-card {
            background: white;
            border-radius: 15px;
            box-shadow: 0 8px 25px rgba(0,0,0,0.1);
            overflow: hidden;
        }
        
        .findings-header {
            padding: 1.5rem;
            color: white;
            font-size: 1.3rem;
            font-weight: bold;
        }
        
        .security-header { background: #ef4444; }
        .accessibility-header { background: #f59e0b; }
        .performance-header { background: #8b5cf6; }
        
        .findings-content {
            padding: 1.5rem;
        }
        
        .finding-item {
            display: flex;
            justify-content: space-between;
            align-items: center;
            padding: 0.75rem 0;
            border-bottom: 1px solid #e5e7eb;
        }
        
        .finding-item:last-child {
            border-bottom: none;
        }
        
        .finding-label {
            font-weight: 500;
            color: #374151;
        }
        
        .finding-value {
            font-weight: bold;
            color: #ef4444;
        }
        
        .improvement-badge {
            background: linear-gradient(135deg, #10b981 0%, #059669 100%);
            color: white;
            padding: 1rem 2rem;
            border-radius: 25px;
            font-weight: bold;
            font-size: 1.2rem;
            display: block;
            margin: 2rem auto;
            text-align: center;
            max-width: 600px;
        }
        
        .footer {
            text-align: center;
            padding: 2rem;
            background: rgba(255,255,255,0.1);
            color: white;
            margin-top: 3rem;
            border-radius: 15px;
        }
        
        @media (max-width: 768px) {
            .header h1 { font-size: 2rem; }
            .charts-section { grid-template-columns: 1fr; }
            .findings-section { grid-template-columns: 1fr; }
        }
    </style>
</head>
<body>
")].

Definition template_summary : list piece :=
  [Lit (q "    <div class=`header`>
        <h1>🎯 JIRA UAT Testing Dashboard</h1>
        <p class=`subtitle`>Comprehensive Analysis | ");
   Hole ["testExecutionSummary"; "totalTests"];
   Lit (q " Tests Executed | ");
   Hole ["testExecutionSummary"; "totalSuites"];
   Lit (q " Test Suites | 1,769% Coverage Improvement</p>
    </div>
    
    <div class=`container`>
        <!-- Key Statistics -->
        <div class=`stats-grid`>
            <div class=`stat-card`>
                <div class=`stat-number success`>");
   Hole ["testExecutionSummary"; "totalTests"];
   Lit (q "</div>
                <div class=`stat-label`>Total Tests</div>
            </div>
            <div class=`stat-card`>
                <div class=`stat-number success`>");
   Hole ["testExecutionSummary"; "totalPassed"];
   Lit (q "</div>
                <div class=`stat-label`>Tests Passed</div>
            </div>
            <div class=`stat-card`>
                <div class=`stat-number danger`>");
   Hole ["testExecutionSummary"; "totalFailed"];
   Lit (q "</div>
                <div class=`stat-label`>Tests Failed</div>
            </div>
            <div class=`stat-card`>
                <div class=`stat-number info`>");
   Hole ["testExecutionSummary"; "successRate"];
   Lit (q "</div>
                <div class=`stat-label`>Success Rate</div>
            </div>
            <div class=`stat-card`>
                <div class=`stat-number warning`>");
   Hole ["testExecutionSummary"; "totalSuites"];
   Lit (q "</div>
                <div class=`stat-label`>Test Suites</div>
            </div>
            <div class=`stat-card`>
                <div class=`stat-number info`>1,769%</div>
                <div class=`stat-label`>Coverage Improvement</div>
            </div>
        </div>
        
")].

Definition template_findings : list piece :=
  [Lit (q "        <!-- Charts Section -->
        <div class=`charts-section`>
            <div class=`chart-container`>
                <div class=`chart-title`>📊 Test Results Overview</div>
                <canvas id=`resultsChart`></canvas>
            </div>
            
            <div class=`chart-container`>
                <div class=`chart-title`>🔍 Failure Analysis</div>
                <canvas id=`failureChart`></canvas>
            </div>
            
            <div class=`chart-container`>
                <div class=`chart-title`>📈 Test Suite Performance</div>
                <canvas id=`performanceChart`></canvas>
            </div>
            
            <div class=`chart-container`>
                <div class=`chart-title`>🎯 Success Rate by Category</div>
                <canvas id=`categoryChart`></canvas>
            </div>
        </div>
        
        <!-- Critical Findings -->
        <div class=`findings-section`>
            <div class=`findings-card`>
                <div class=`findings-header security-header`>🛡️ Security Issues</div>
                <div class=`findings-content`>
                    <div class=`finding-item`>
                        <span class=`finding-label`>SQL Injection Vulnerabilities</span>
                        <span class=`finding-value`>");
   Hole ["testExecutionSummary"; "majorFindings"; "securityIssues"; "sqlInjectionVulnerabilities"];
   Lit (q " Found</span>
                    </div>
                    <div class=`finding-item`>
                        <span class=`finding-label`>Missing Security Headers</span>
                        <span class=`finding-value`>");
   Hole ["testExecutionSummary"; "majorFindings"; "securityIssues"; "missingSecurityHeaders"];
   Lit (q "</span>
                    </div>
                    <div class=`finding-item`>
                        <span class=`finding-label`>Rate Limiting</span>
                        <span class=`finding-value`>Missing</span>
                    </div>
                    <div class=`finding-item`>
                        <span class=`finding-label`>Session Token Issues</span>
                        <span class=`finding-value`>");
   Hole ["testExecutionSummary"; "majorFindings"; "securityIssues"; "sessionTokenIssues"];
   Lit (q "</span>
                    </div>
                </div>
            </div>
            
            <div class=`findings-card`>
                <div class=`findings-header accessibility-header`>♿ Accessibility Issues</div>
                <div class=`findings-content`>
                    <div class=`finding-item`>
                        <span class=`finding-label`>Color Contrast Violations</span>
                        <span class=`finding-value`>");
   Hole ["testExecutionSummary"; "majorFindings"; "accessibilityIssues"; "colorContrastViolations"];
   Lit (q "</span>
                    </div>
                    <div class=`finding-item`>
                        <span class=`finding-label`>Unlabeled Form Inputs</span>
                        <span class=`finding-value`>");
   Hole ["testExecutionSummary"; "majorFindings"; "accessibilityIssues"; "unlabeledFormInputs"];
   Lit (q "</span>
                    </div>
                    <div class=`finding-item`>
                        <span class=`finding-label`>ARIA Compliance</span>
                        <span class=`finding-value`>");
   Hole ["testExecutionSummary"; "majorFindings"; "accessibilityIssues"; "ariaCompliance"];
   Lit (q "</span>
                    </div>
                    <div class=`finding-item`>
                        <span class=`finding-label`>WCAG 2.1 AA Status</span>
                        <span class=`finding-value`>Failed</span>
                    </div>
                </div>
            </div>
            
            <div class=`findings-card`>
                <div class=`findings-header performance-header`>⚡ Performance Issues</div>
                <div class=`findings-content`>
                    <div class=`finding-item`>
                        <span class=`finding-label`>Concurrent User Success</span>
                        <span class=`finding-value`>");
   Hole ["testExecutionSummary"; "majorFindings"; "performanceIssues"; "concurrentUserFailures"];
   Lit (q "</span>
                    </div>
                    <div class=`finding-item`>
                        <span class=`finding-label`>CLS Score</span>
                        <span class=`finding-value`>");
   Hole ["testExecutionSummary"; "majorFindings"; "performanceIssues"; "clsScore"];
   Lit (q "</span>
                    </div>
                    <div class=`finding-item`>
                        <span class=`finding-label`>PWA Features</span>
                        <span class=`finding-value`>Missing</span>
                    </div>
                    <div class=`finding-item`>
                        <span class=`finding-label`>Mobile Optimization</span>
                        <span class=`finding-value`>None</span>
                    </div>
                </div>
            </div>
        </div>
        
        <div class=`improvement-badge`>
            🚀 From ");
   Hole ["comparisonWithPrevious"; "previousTestCount"];
   Lit (q " basic tests to ");
   Hole ["comparisonWithPrevious"; "newTestCount"];
   Lit (q " comprehensive tests - Real fucking testing achieved! 🔥
        </div>
    </div>
    
")].

Definition template_footer : list piece :=
  [Lit (q "    <div class=`footer`>
        <p>Generated by JIRA UAT Comprehensive Testing Suite | December 19, 2024</p>
        <p>🔥 The difference between documentation theater and REAL FUCKING TESTING!</p>
    </div>

")].

Definition template_script : list piece :=
  [Lit (q "    <script>
        // Results Overview Chart
        const resultsCtx = document.getElementById('resultsChart').getContext('2d');
        new Chart(resultsCtx, {
            type: 'doughnut',
            data: {
                labels: ['Passed', 'Failed'],
                datasets: [{
                    data: [");
   Hole ["testExecutionSummary"; "totalPassed"];
   Lit (q ", ");
   Hole ["testExecutionSummary"; "totalFailed"];
   Lit (q "],
                    backgroundColor: ['#10b981', '#ef4444'],
                    borderWidth: 0
                }]
            },
            options: {
                responsive: true,
                plugins: {
                    legend: {
                        position: 'bottom'
                    }
                }
            }
        });

        // Failure Analysis Chart
        const failureCtx = document.getElementById('failureChart').getContext('2d');
        new Chart(failureCtx, {
            type: 'pie',
            data: {
                labels: ['Authentication Failures', 'Functional Failures'],
                datasets: [{
                    data: [");
   Hole ["failureAnalysis"; "authenticationFailures"];
   Lit (q ", ");
   Hole ["failureAnalysis"; "functionalFailures"];
   Lit (q "],
                    backgroundColor: ['#f59e0b', '#ef4444'],
                    borderWidth: 0
                }]
            },
            options: {
                responsive: true,
                plugins: {
                    legend: {
                        position: 'bottom'
                    }
                }
            }
        });

        // Performance Chart
        const performanceCtx = document.getElementById('performanceChart').getContext('2d');
        const testSuites = ");
   Dumps ["testSuiteResults"];
   Lit (q ";
        
        new Chart(performanceCtx, {
            type: 'bar',
            data: {
                labels: testSuites.map(s => s.name.split(' ')[0] + '...'),
                datasets: [{
                    label: 'Tests Passed',
                    data: testSuites.map(s => s.passed),
                    backgroundColor: '#10b981'
                }, {
                    label: 'Tests Failed',
                    data: testSuites.map(s => s.failed),
                    backgroundColor: '#ef4444'
                }]
            },
            options: {
                responsive: true,
                scales: {
                    x: {
                        stacked: true
                    },
                    y: {
                        stacked: true
                    }
                }
            }
        });

        // Category Success Rate Chart
        const categoryCtx = document.getElementById('categoryChart').getContext('2d');
        const categories = {};
        testSuites.forEach(suite => {
            if (!categories[suite.category]) {
                categories[suite.category] = { total: 0, passed: 0 };
            }
            categories[suite.category].total += suite.tests;
            categories[suite.category].passed += suite.passed;
        });

        const categoryData = Object.keys(categories).map(cat => ({
            category: cat,
            rate: (categories[cat].passed / categories[cat].total * 100).toFixed(1)
        }));

        new Chart(categoryCtx, {
            type: 'radar',
            data: {
                labels: categoryData.map(c => c.category),
                datasets: [{
                    label: 'Success Rate %',
                    data: categoryData.map(c => c.rate),
                    backgroundColor: 'rgba(102, 126, 234, 0.2)',
                    borderColor: '#667eea',
                    borderWidth: 2
                }]
            },
            options: {
                responsive: true,
                scales: {
                    r: {
                        beginAtZero: true,
                        max: 100
                    }
                }
            }
        });
    </script>
</body>
</html>")].

Definition template : list piece :=
  (template_head ++ template_summary ++ template_findings ++
   template_footer ++ template_script)%list.

Section Render.
Context `{PyLib}.

Definition eval_piece (data : value) (pc : piece) : result string :=
  match pc with
  | Lit s => Ok s
  | Hole p => x <- get_path data p ;; Ok (py_str x)
  | Dumps p => x <- get_path data p ;; Ok (json_dumps x)
  end.

(** The fields are evaluated and formatted from left to right; the first
    failing lookup ends the evaluation. *)
Fixpoint format_pieces (data : value) (ps : list piece) : result string :=
  match ps with
  | [] => Ok EmptyString
  | pc :: ps' =>
      s <- eval_piece data pc ;;
      rest <- format_pieces data ps' ;;
      Ok (s +:+ rest)
  end.

Definition html_content (data : value) : result string :=
  format_pieces data template.
End Render.

(** ** Files, console and browser *)

(** The part of the process environment the program touches: the working
    directory (as [os.getcwd()] returns it: absolute, without [.], [..] or
    repeated separators), the text of the files that exist, by absolute
    path (a file that exists is taken to be readable UTF-8 text), the
    paths that cannot be opened for writing (whatever the reason: no
    permission, a directory of that name, a read-only file system), the
    lines printed, and the URLs handed to [webbrowser.open].  A file
    that has been opened for writing takes whatever text can be
    encoded. *)
Record world := World {
  cwd : string;
  files : gmap string string;
  unwritable : gset string;
  stdout : list string;
  browser : list string
}.

Definition set_files (f : gmap string string) (w : world) : world :=
  World (cwd w) f (unwritable w) (stdout w) (browser w).
Definition add_stdout (line : string) (w : world) : world :=
  World (cwd w) (files w) (unwritable w) (stdout w ++ [line])%list (browser w).
Definition add_browser (url : string) (w : world) : world :=
  World (cwd w) (files w) (unwritable w) (stdout w) (browser w ++ [url])%list.

(** A computation either returns or raises, and in both cases leaves a
    world behind. *)
Definition M (A : Type) : Type := world -> result A * world.

Definition retM {A} (a : A) : M A := fun w => (Ok a, w).
Definition raise {A} (e : exn) : M A := fun w => (Raise e, w).
Definition lift {A} (r : result A) : M A := fun w => (r, w).
Definition bindM {A B} (m : M A) (k : A -> M B) : M B :=
  fun w =>
    match m w with
    | (Ok a, w') => k a w'
    | (Raise e, w') => (Raise e, w')
    end.

Notation "x <~ m ;; k" := (bindM m (fun x => k))
  (at level 100, m at next level, right associativity).
Notation "m ;;; k" := (bindM m (fun _ => k))
  (at level 100, right associativity).

Definition last_char (s : string) : option ascii :=
  match String.length s with
  | O => None
  | S n => String.get n s
  end.

Definition isabs (p : string) : bool := starts_with "/" p.

(** [posixpath.join(a, b)] *)
Definition posix_join (a b : string) : string :=
  if isabs b then b
  else if String.eqb a "" || bool_decide (last_char a = Some "/"%char)
       then a +:+ b
       else a +:+ "/" +:+ b.

(** The file a relative name denotes for the operating system. *)
Definition resolve (w : world) (name : string) : string :=
  posix_join (cwd w) name.

(** [os.path.abspath(p)] is [normpath(join(os.getcwd(), p))]; the working
    directory is already normal and the program only passes one plain file
    name, which [normpath] leaves as it is. *)
Definition abspath (w : world) (p : string) : string :=
  posix_join (cwd w) p.

Definition print (line : string) : M unit :=
  fun w => (Ok tt, add_stdout line w).

(** [with open(name, 'r') as f: f.read()] *)
Definition read_text (name : string) : M string :=
  fun w =>
    match files w !! resolve w name with
    | Some text => (Ok text, w)
    | None => (Raise (FileNotFoundError name), w)
    end.

(** [with open(name, 'w') as f: f.write(text)]: [open] raises where the
    file cannot be opened and otherwise creates the file or empties it;
    [f.write] then encodes the text, and raises over the emptied file when
    the text cannot be encoded; otherwise the file holds the text. *)
Definition write_text (name text : string) : M unit :=
  fun w =>
    if bool_decide (resolve w name ∈ unwritable w)
    then (Raise (OSError name), w)
    else if encodable text
    then (Ok tt, set_files (<[resolve w name := text]> (files w)) w)
    else (Raise UnicodeEncodeError,
          set_files (<[resolve w name := EmptyString]> (files w)) w).

(** [webbrowser.open(url)]; its boolean result is not used. *)
Definition webbrowser_open (url : string) : M unit :=
  fun w => (Ok tt, add_browser url w).

Definition input_name : string := "comprehensive-final-report.json".
Definition output_name : string := "jira-test-dashboard.html".

Section Program.
Context `{PyLib}.

(** [json.load(f)]: it returns the document that the parser gives for
    the text.  Every failure of the parser is carried as
    [JSONDecodeError]: the error of a text that is not a JSON document,
    and also what stands here for the errors of a text that the parser
    gives up on for another reason (see [PyLib]). *)
Definition json_load (text : string) : result value :=
  match json_loads text with
  | Some v => Ok v
  | None => Raise JSONDecodeError
  end.

Definition create_html_dashboard : M string :=
  text <~ read_text input_name ;;
  data <~ lift (json_load text) ;;
  html <~ lift (html_content data) ;;
  write_text output_name html ;;;
  print "🎨 Stunning HTML dashboard created!" ;;;
  retM output_name.

Definition main : M unit :=
  print "🚀 Creating comprehensive JIRA UAT testing dashboard..." ;;;
  dashboard_file <~ create_html_dashboard ;;
  dashboard_path <~ (fun w => (Ok (abspath w dashboard_file), w)) ;;
  print ("🌐 Opening dashboard: " +:+ dashboard_path) ;;;
  webbrowser_open ("file://" +:+ dashboard_path) ;;;
  print "✅ Dashboard opened in browser!" ;;;
  print "🎯 Features:" ;;;
  print "   📊 Interactive charts with Chart.js" ;;;
  print "   📈 Real-time test statistics" ;;;
  print "   🛡️ Security findings analysis" ;;;
  print "   ♿ Accessibility compliance reports" ;;;
  print "   ⚡ Performance issue tracking" ;;;
  print "   🎨 Beautiful responsive design" ;;;
  print "
🔥 From 13 basic tests to 243 comprehensive tests!" ;;;
  print "📊 This is what REAL FUCKING TESTING looks like!".
End Program.

(** ** The embedded script *)

(** The script of the page (the literal text of [template_script]) as the
    browser evaluates it over [testSuites], the array that the
    [json.dumps] field spells out.  A suite is read here with the fields
    the script uses; its numbers are the integers of the report.  The
    browser runs the script on the suites of a report when it reads the
    page's script element as the template wrote it; [received] and
    [script_in_page] below state when it does, and the statements about
    the functions of this module are made for such reports. *)
Module Viewer.

Record suite := Suite {
  name : string;
  category : string;
  tests : Z;
  passed : Z;
  failed : Z
}.

(** *** Numbers: IEEE 754 binary64 *)

Definition prec : Z := 53.
Definition emax : Z := 1024.
Definition number : Type := spec_float.

(** The Number value of an integer literal. *)
Definition of_Z (z : Z) : number := binary_normalize prec emax z 0 false.
Definition add (x y : number) : number := SFadd prec emax x y.
Definition mul (x y : number) : number := SFmul prec emax x y.
Definition div (x y : number) : number := SFdiv prec emax x y.

(** [Number.prototype.toFixed(1)].  A value that is not finite prints as
    its name.  For a finite value [x] of magnitude below [10^21] the
    digits are those of the integer [n] for which [n / 10 - x] is closest
    to zero, the larger if there are two, with the point before the last
    digit.  From [10^21] on, [toFixed] gives the exponent notation of
    [Number::toString], which is not reproduced: [None]. *)
Definition fixed_digits (n : Z) : string :=
  let m := str_int n in
  let m := if (String.length m <=? 1)%nat then "0" +:+ m else m in
  let k := String.length m in
  String.substring 0 (k - 1) m +:+ "." +:+ String.substring (k - 1) 1 m.

Definition nearest_tenths (m : positive) (e : Z) : Z :=
  if 0 <=? e then 10 * Z.pos m * 2 ^ e
  else (20 * Z.pos m + 2 ^ (- e)) / 2 ^ (1 - e).

Definition below_1e21 (m : positive) (e : Z) : bool :=
  if 0 <=? e then Z.pos m * 2 ^ e <? 10 ^ 21 else true.

Definition toFixed1 (x : number) : option string :=
  match x with
  | S754_nan => Some "NaN"
  | S754_infinity false => Some "Infinity"
  | S754_infinity true => Some "-Infinity"
  | S754_zero _ => Some (fixed_digits 0)
  | S754_finite s m e =>
      if below_1e21 m e
      then Some ((if s then "-" else "") +:+ fixed_digits (nearest_tenths m e))
      else None
  end.

(** *** The bar chart's labels *)

(** [s.split(' ')[0]] *)
Fixpoint first_token (s : string) : string :=
  match s with
  | EmptyString => EmptyString
  | String c s' => if Ascii.eqb c " " then EmptyString else String c (first_token s')
  end.

(** [testSuites.map(s => s.name.split(' ')[0] + '...')] *)
Definition labels (testSuites : list suite) : list string :=
  map (fun s => first_token (name s) +:+ "...") testSuites.

(** *** The [categories] object *)

Record totals := Totals { total : number; passed_sum : number }.

(** The own properties of [categories], in the order of their creation. *)
Definition object : Type := list (string * totals).

(** What every object inherits from [Object.prototype]: under one of
    these names [categories[name]] is a function or an object, hence
    truthy, before any suite has been seen. *)
Definition object_prototype_names : list string :=
  [ "constructor"; "hasOwnProperty"; "isPrototypeOf";
    "propertyIsEnumerable"; "toLocaleString"; "toString"; "valueOf";
    "__proto__"; "__defineGetter__"; "__defineSetter__";
    "__lookupGetter__"; "__lookupSetter__" ].

Definition inherited (k : string) : bool :=
  existsb (String.eqb k) object_prototype_names.

Fixpoint own (k : string) (o : object) : option totals :=
  match o with
  | [] => None
  | (k', t) :: o' => if String.eqb k k' then Some t else own k o'
  end.

(** [!categories[k]]: an own property holds an object, an inherited one a
    function or the prototype; anything else reads [undefined] (or, once
    a suite of category [__proto__] has stored [NaN] under [total] and
    [passed] of the prototype, [NaN]), which is falsy. *)
Definition absent (k : string) (o : object) : bool :=
  match own k o with
  | Some _ => false
  | None => negb (inherited k)
  end.

(** [categories[k] = { total: 0, passed: 0 }] where [k] is not an own
    property yet *)
Definition define (k : string) (o : object) : object :=
  (o ++ [(k, Totals (of_Z 0) (of_Z 0))])%list.

(** [categories[k].total += x; categories[k].passed += y].  When [k] is
    not an own property the two assignments store into the inherited
    value and leave [categories] as it is. *)
Fixpoint accumulate (k : string) (x y : number) (o : object) : object :=
  match o with
  | [] => []
  | (k', t) :: o' =>
      if String.eqb k k'
      then (k', Totals (add (total t) x) (add (passed_sum t) y)) :: o'
      else (k', t) :: accumulate k x y o'
  end.

(** The body of [testSuites.forEach(suite => ...)] *)
Definition visit (o : object) (s : suite) : object :=
  let o := if absent (category s) o then define (category s) o else o in
  accumulate (category s) (of_Z (tests s)) (of_Z (passed s)) o.

Definition categories (testSuites : list suite) : object :=
  fold_left visit testSuites [].

(** *** [Object.keys] *)

(** An array index is the canonical numeral of an integer from [0] to
    [2^32 - 2]. *)
Definition array_index (k : string) : option N :=
  match NilEmpty.uint_of_string k with
  | Some d =>
      let n := N.of_uint d in
      if String.eqb (NilZero.string_of_uint (N.to_uint n)) k && (n <=? 4294967294)%N
      then Some n else None
  | None => None
  end.

Fixpoint insert_index (n : N) (k : string) (l : list (N * string)) : list (N * string) :=
  match l with
  | [] => [(n, k)]
  | (n', k') :: l' =>
      if (n <=? n')%N then (n, k) :: l else (n', k') :: insert_index n k l'
  end.

Fixpoint index_keys (ks : list string) : list (N * string) :=
  match ks with
  | [] => []
  | k :: ks' =>
      match array_index k with
      | Some n => insert_index n k (index_keys ks')
      | None => index_keys ks'
      end
  end.

Fixpoint name_keys (ks : list string) : list string :=
  match ks with
  | [] => []
  | k :: ks' =>
      match array_index k with
      | Some _ => name_keys ks'
      | None => k :: name_keys ks'
      end
  end.

(** Own keys: array indices in ascending order, then the other names in
    the order of their creation. *)
Definition Object_keys (o : object) : list string :=
  (map snd (index_keys (map fst o)) ++ name_keys (map fst o))%list.

(** [(categories[cat].passed / categories[cat].total * 100).toFixed(1)] *)
Definition rate (t : totals) : option string :=
  toFixed1 (mul (div (passed_sum t) (total t)) (of_Z 100)).

(** [Object.keys(categories).map(cat => ({category: cat, rate: ...}))];
    a key of [Object.keys] is an own property. *)
Definition categoryData (testSuites : list suite) : list (string * option string) :=
  let o := categories testSuites in
  map (fun cat =>
         (cat, match own cat o with
               | Some t => rate t
               | None => None
               end))
      (Object_keys o).

(** The radar chart: [labels: categoryData.map(c => c.category)] and
    [data: categoryData.map(c => c.rate)]. *)
Definition radar_labels (testSuites : list suite) : list string :=
  map fst (categoryData testSuites).
Definition radar_data (testSuites : list suite) : list (option string) :=
  map snd (categoryData testSuites).

(** *** The aggregation as the specification words it *)

(** The distinct categories in the order in which they are first seen. *)
Fixpoint first_seen (seen : list string) (cs : list string) : list string :=
  match cs with
  | [] => []
  | c :: cs' =>
      if existsb (String.eqb c) seen then first_seen seen cs'
      else c :: first_seen (c :: seen) cs'
  end.

Definition in_category (c : string) (testSuites : list suite) : list suite :=
  List.filter (fun s => String.eqb (category s) c) testSuites.

(** The sum of a field over suites. *)
Definition count (f : suite -> Z) (l : list suite) : Z :=
  fold_right (fun s n => f s + n) 0 l.

(** [(passed / tests * 100).toFixed(1)] on the sums of a category. *)
Definition success_rate (c : string) (testSuites : list suite) : option string :=
  toFixed1 (mul (div (of_Z (count passed (in_category c testSuites)))
                     (of_Z (count tests (in_category c testSuites))))
                (of_Z 100)).

Definition category_rates (testSuites : list suite) : list (string * option string) :=
  map (fun c => (c, success_rate c testSuites))
      (first_seen [] (map category testSuites)).

(** What the loop has accumulated for a field: the sum taken in order
    from [0] in Number arithmetic. *)
Definition sum_of (f : suite -> Z) (l : list suite) : number :=
  fold_left (fun acc s => add acc (of_Z (f s))) l (of_Z 0).

End Viewer.

(** ** Reading the template and the report *)

Definition piece_path (pc : piece) : option (list string) :=
  match pc with
  | Lit _ => None
  | Hole p => Some p
  | Dumps p => Some p
  end.

(** The lookups of the template, in the order of their evaluation. *)
Fixpoint lookups (ps : list piece) : list (list string) :=
  match ps with
  | [] => []
  | pc :: ps' =>
      match piece_path pc with
      | Some p => p :: lookups ps'
      | None => lookups ps'
      end
  end.

Definition path_eqb (p p' : list string) : bool :=
  bool_decide (p = p').

(** The lookups evaluated before the first lookup of [p]. *)
Fixpoint lookups_before (p : list string) (l : list (list string)) : list (list string) :=
  match l with
  | [] => []
  | p' :: l' => if path_eqb p p' then [] else p' :: lookups_before p l'
  end.

Definition resolves (data : value) (p : list string) : Prop :=
  exists x, get_path data p = Ok x.

(** The keys of [testExecutionSummary.majorFindings] that the findings
    panels read. *)
Definition major_findings : list string :=
  ["testExecutionSummary"; "majorFindings"].

Definition findings_paths : list (list string) :=
  map (fun ks => (major_findings ++ ks)%list)
    [ ["securityIssues"; "sqlInjectionVulnerabilities"];
      ["securityIssues"; "missingSecurityHeaders"];
      ["securityIssues"; "sessionTokenIssues"];
      ["accessibilityIssues"; "colorContrastViolations"];
      ["accessibilityIssues"; "unlabeledFormInputs"];
      ["accessibilityIssues"; "ariaCompliance"];
      ["performanceIssues"; "concurrentUserFailures"];
      ["performanceIssues"; "clsScore"] ].

Fixpoint path_prefix (p l : list string) : bool :=
  match p, l with
  | [], _ => true
  | k :: p', k' :: l' => String.eqb k k' && path_prefix p' l'
  | _ :: _, [] => false
  end.

(** The four top-level keys the template reads. *)
Definition top_level_keys : list string :=
  ["testExecutionSummary"; "failureAnalysis"; "testSuiteResults";
   "comparisonWithPrevious"].

(** The integer and string fields of the report's schema, apart from the
    suites. *)
Definition integer_fields : list (list string) :=
  [ ["testExecutionSummary"; "totalTests"];
    ["testExecutionSummary"; "totalSuites"];
    ["testExecutionSummary"; "totalPassed"];
    ["testExecutionSummary"; "totalFailed"];
    ["failureAnalysis"; "authenticationFailures"];
    ["failureAnalysis"; "functionalFailures"];
    ["comparisonWithPrevious"; "previousTestCount"];
    ["comparisonWithPrevious"; "newTestCount"] ].

Definition success_rate_field : list string :=
  ["testExecutionSummary"; "successRate"].

(** A suite of [testSuiteResults] with the fields the schema lists, as the
    script reads it. *)
Definition suite_of_value (v : value) : option Viewer.suite :=
  match v with
  | VDict items =>
      match assoc "name" items, assoc "category" items,
            assoc "tests" items, assoc "passed" items, assoc "failed" items with
      | Some (VStr n), Some (VStr c), Some (VInt t), Some (VInt p), Some (VInt f) =>
          Some (Viewer.Suite n c t p f)
      | _, _, _, _, _ => None
      end
  | _ => None
  end.

Fixpoint suites_of_values (l : list value) : option (list Viewer.suite) :=
  match l with
  | [] => Some []
  | v :: l' =>
      match suite_of_value v, suites_of_values l' with
      | Some s, Some ss => Some (s :: ss)
      | _, _ => None
      end
  end.

(** The report's schema: the integer fields, the success rate string and
    the sequence of suites. *)
Record valid_report (data : value) (suites : list Viewer.suite) : Prop := {
  valid_integers :
    forall p, In p integer_fields -> exists z, get_path data p = Ok (VInt z);
  valid_success_rate :
    exists s, get_path data success_rate_field = Ok (VStr s);
  valid_suites :
    exists l, get_path data ["testSuiteResults"] = Ok (VList l) /\
              suites_of_values l = Some suites
}.

(** Printable ASCII other than the double quote and the backslash: the
    characters [json.dumps] leaves as they are. *)
Definition plain_char (c : ascii) : bool :=
  let n := N_of_ascii c in
  ((32 <=? n) && (n <=? 126) && negb (n =? 34) && negb (n =? 92))%N.

Fixpoint plain (s : string) : bool :=
  match s with
  | EmptyString => true
  | String c s' => plain_char c && plain s'
  end.

Definition quoted (s : string) : string :=
  String dquote s +:+ String dquote EmptyString.

Definition is_digit (c : ascii) : bool :=
  let n := N_of_ascii c in ((48 <=? n) && (n <=? 57))%N.

Fixpoint all_digits (s : string) : bool :=
  match s with
  | EmptyString => true
  | String c s' => is_digit c && all_digits s'
  end.

(** A numeral with an optional sign, at least one digit before the point
    and exactly one after it. *)
Definition point_digit (s : string) : bool :=
  match s with
  | String c (String d EmptyString) => Ascii.eqb c "." && is_digit d
  | _ => false
  end.

Fixpoint digits_point_digit (s : string) : bool :=
  match s with
  | EmptyString => false
  | String c s' => is_digit c && (point_digit s' || digits_point_digit s')
  end.

Definition one_fractional_digit (s : string) : bool :=
  match s with
  | EmptyString => false
  | String c s' =>
      if Ascii.eqb c "-" then digits_point_digit s' else digits_point_digit s
  end.

(** A finding row and a statistics card as the template lays them out. *)
Definition finding_item (label val : string) : string :=
  q "<span class=`finding-label`>" +:+ label +:+ q "</span>
                        <span class=`finding-value`>" +:+ val +:+ "</span>".

Definition stat_card (class val label : string) : string :=
  q "<div class=`stat-number " +:+ class +:+ q "`>" +:+ val +:+ q "</div>
                <div class=`stat-label`>" +:+ label +:+ "</div>".

(** ** A sample report *)

Definition findings_sample : value :=
  VDict
    [ ("securityIssues",
        VDict [ ("sqlInjectionVulnerabilities", VInt 3);
                ("missingSecurityHeaders", VInt 5);
                ("sessionTokenIssues", VStr "exposed") ]);
      ("accessibilityIssues",
        VDict [ ("colorContrastViolations", VInt 12);
                ("unlabeledFormInputs", VInt 7);
                ("ariaCompliance", VStr "partial") ]);
      ("performanceIssues",
        VDict [ ("concurrentUserFailures", VStr "60%");
                ("clsScore", VFloat (FFinite "0.25")) ]) ].

Definition suite_value (n c : string) (t p f : Z) : value :=
  VDict [ ("name", VStr n); ("category", VStr c);
          ("tests", VInt t); ("passed", VInt p); ("failed", VInt f) ].

Definition report (total suites pass fail : Z) (rate : string)
    (results : list value) : value :=
  VDict
    [ ("testExecutionSummary",
        VDict [ ("totalTests", VInt total); ("totalSuites", VInt suites);
                ("totalPassed", VInt pass); ("totalFailed", VInt fail);
                ("successRate", VStr rate);
                ("majorFindings", findings_sample) ]);
      ("failureAnalysis",
        VDict [ ("authenticationFailures", VInt 30);
                ("functionalFailures", VInt 13) ]);
      ("testSuiteResults", VList results);
      ("comparisonWithPrevious",
        VDict [ ("previousTestCount", VInt 13); ("newTestCount", VInt 243) ]) ].

(** The scenario of the specification's last testable property. *)
Definition scenario_suites : list value :=
  [ suite_value "Login Suite" "Auth" 10 8 2;
    suite_value "Cart Suite" "Commerce" 5 5 0 ].

Definition scenario : value :=
  report 243 12 200 43 "82.3%" scenario_suites.

(** A report whose only suite has a double quote in its name. *)
Definition quote_name : string := "a" +:+ String dquote "b".

Definition quoted_report : value :=
  report 1 1 1 0 "100%" [suite_value quote_name "Auth" 1 1 0].

(** A library instance for the examples: it parses the text of the sample
    reports and nothing else, and quotes a string as [repr] does when the
    string is plain and has no quote in it. *)
Definition sample_text (data : value) : string := json_dumps data.

Definition sample_lib : PyLib := {|
  json_loads text :=
    if String.eqb text (sample_text scenario) then Some scenario
    else if String.eqb text (sample_text quoted_report) then Some quoted_report
    else if String.eqb text "{}" then Some (VDict [])
    else None;
  repr_str s := "'" +:+ s +:+ "'"
|}.

Definition sample_world (text : string) : world :=
  World "/home/qa/reports"
        {[ "/home/qa/reports/comprehensive-final-report.json" := text ]}
        ∅ [] [].

(** The same directory layout elsewhere. *)
Definition other_world (text : string) : world :=
  World "/srv/ci"
        {[ "/srv/ci/comprehensive-final-report.json" := text;
           "/srv/ci/notes.txt" := "kept" ]}
        ∅ ["earlier output"] [].

Definition dict_items (v : value) : list (string * value) :=
  match v with
  | VDict items => items
  | _ => []
  end.

(** A report whose performance findings lack [clsScore]. *)
Definition report_without_clsScore : value :=
  VDict
    [ ("testExecutionSummary",
        VDict [ ("totalTests", VInt 243); ("totalSuites", VInt 12);
                ("totalPassed", VInt 200); ("totalFailed", VInt 43);
                ("successRate", VStr "82.3%");
                ("majorFindings",
                  VDict
                    [ ("securityIssues",
                        VDict [ ("sqlInjectionVulnerabilities", VInt 3);
                                ("missingSecurityHeaders", VInt 5);
                                ("sessionTokenIssues", VStr "exposed") ]);
                      ("accessibilityIssues",
                        VDict [ ("colorContrastViolations", VInt 12);
                                ("unlabeledFormInputs", VInt 7);
                                ("ariaCompliance", VStr "partial") ]);
                      ("performanceIssues",
                        VDict [ ("concurrentUserFailures", VStr "60%") ]) ]) ]);
      ("failureAnalysis",
        VDict [ ("authenticationFailures", VInt 30);
                ("functionalFailures", VInt 13) ]);
      ("testSuiteResults", VList scenario_suites);
      ("comparisonWithPrevious",
        VDict [ ("previousTestCount", VInt 13); ("newTestCount", VInt 243) ]) ].

(** ** Notions used in the statements *)

(** The literal text of the template's [n]-th piece. *)
Definition piece_text (n : nat) : string :=
  match nth n template (Lit EmptyString) with
  | Lit s => s
  | _ => EmptyString
  end.

Section Outcomes.
Context `{PyLib}.

(** The outcome of [create_html_dashboard], step by step: read, parse,
    render, write. *)
Definition dashboard_outcome (w : world) : result string * world :=
  match files w !! resolve w input_name with
  | None => (Raise (FileNotFoundError input_name), w)
  | Some text =>
      match json_load text with
      | Raise e => (Raise e, w)
      | Ok data =>
          match html_content data with
          | Raise e => (Raise e, w)
          | Ok html =>
              if bool_decide (resolve w output_name ∈ unwritable w)
              then (Raise (OSError output_name), w)
              else if encodable html
              then (Ok output_name,
                    add_stdout "🎨 Stunning HTML dashboard created!"
                      (set_files (<[resolve w output_name := html]> (files w)) w))
              else (Raise UnicodeEncodeError,
                    set_files (<[resolve w output_name := EmptyString]> (files w)) w)
          end
      end
  end.

(** What [main] prints once the file is written. *)
Definition after_dashboard (w : world) (dashboard_path : string) : world :=
  fold_left (fun w line => add_stdout line w)
    [ "✅ Dashboard opened in browser!"; "🎯 Features:";
      "   📊 Interactive charts with Chart.js";
      "   📈 Real-time test statistics";
      "   🛡️ Security findings analysis";
      "   ♿ Accessibility compliance reports";
      "   ⚡ Performance issue tracking";
      "   🎨 Beautiful responsive design";
      "
🔥 From 13 basic tests to 243 comprehensive tests!";
      "📊 This is what REAL FUCKING TESTING looks like!" ]
    (add_browser ("file://" +:+ dashboard_path)
       (add_stdout ("🌐 Opening dashboard: " +:+ dashboard_path) w)).

Definition main_outcome (w : world) : result unit * world :=
  let w0 := add_stdout "🚀 Creating comprehensive JIRA UAT testing dashboard..." w in
  match create_html_dashboard w0 with
  | (Raise e, w1) => (Raise e, w1)
  | (Ok dashboard_file, w1) => (Ok tt, after_dashboard w1 (abspath w1 dashboard_file))
  end.

End Outcomes.

Section ViewerNotions.
Import Viewer.

(** [c] is among the categories [cs]. *)
Definition seen_in (c : string) (cs : list string) : bool :=
  existsb (String.eqb c) cs.

(** The number of binary digits of an integer, and the mantissa and
    exponent of the binary64 number of a positive integer below [2^53]. *)
Definition digits (m : Z) : Z := Zdigits2 m.
Definition mantissa (c : Z) : positive := Z.to_pos (c * 2 ^ (53 - digits c)).
Definition exponent (c : Z) : Z := digits c - 53.

(** The conditions under which the script's rates are the success rates
    of the categories: counts that are not negative, and categories whose
    name is neither an array index nor inherited from
    [Object.prototype]. *)
Definition ordinary (s : suite) : Prop :=
  0 <= tests s /\ 0 <= passed s /\
  array_index (category s) = None /\ inherited (category s) = false.

Definition in_range (testSuites : list suite) : Prop :=
  forall c, In c (map category testSuites) ->
    0 < count tests (in_category c testSuites) < 2 ^ 53 /\
    count passed (in_category c testSuites) < 2 ^ 53.
End ViewerNotions.

(** ** The program run as a script *)

Section Script.
Context `{PyLib}.

(** [if __name__ == "__main__": main()]: the exit status of the process
    is [0] when [main] returns and [1] when an exception leaves it. *)
Definition script (w : world) : Z * world :=
  match main w with
  | (Ok _, w') => (0, w')
  | (Raise _, w') => (1, w')
  end.
End Script.

(** The first line that [main] prints. *)
Definition banner : string :=
  "🚀 Creating comprehensive JIRA UAT testing dashboard...".

(** The lines that a successful run prints, given the absolute path of
    the page. *)
Definition success_lines (dashboard_path : string) : list string :=
  [ banner;
    "🎨 Stunning HTML dashboard created!";
    "🌐 Opening dashboard: " +:+ dashboard_path;
    "✅ Dashboard opened in browser!";
    "🎯 Features:";
    "   📊 Interactive charts with Chart.js";
    "   📈 Real-time test statistics";
    "   🛡️ Security findings analysis";
    "   ♿ Accessibility compliance reports";
    "   ⚡ Performance issue tracking";
    "   🎨 Beautiful responsive design";
    "
🔥 From 13 basic tests to 243 comprehensive tests!";
    "📊 This is what REAL FUCKING TESTING looks like!" ].

(** The places of the template where a field stands: the subtitle of the
    header, the banner under the findings, and the [data] array of a
    chart after its [labels]. *)
Definition subtitle (total suites : string) : string :=
  "Comprehensive Analysis | " +:+ total +:+ " Tests Executed | " +:+ suites +:+
  " Test Suites | 1,769% Coverage Improvement".

Definition improvement_badge (previous new : string) : string :=
  "🚀 From " +:+ previous +:+ " basic tests to " +:+ new +:+
  " comprehensive tests - Real fucking testing achieved! 🔥".

Definition chart_data (labels a b : string) : string :=
  "labels: [" +:+ labels +:+ "],
                datasets: [{
                    data: [" +:+ a +:+ ", " +:+ b +:+ "],".

(** The paths that the template looks up. *)
Definition required_fields : list (list string) :=
  (integer_fields ++ success_rate_field :: findings_paths ++
   [["testSuiteResults"]])%list.

(** The statistics cards that show a field: the class of the number, the
    field, the label. *)
Definition summary_cards : list (string * list string * string) :=
  [ ("success", ["testExecutionSummary"; "totalTests"], "Total Tests");
    ("success", ["testExecutionSummary"; "totalPassed"], "Tests Passed");
    ("danger", ["testExecutionSummary"; "totalFailed"], "Tests Failed");
    ("info", ["testExecutionSummary"; "successRate"], "Success Rate");
    ("warning", ["testExecutionSummary"; "totalSuites"], "Test Suites") ].

(** The rows of the findings panels that show a field: the label, the key
    under [majorFindings], and the text that follows the value. *)
Definition finding_rows : list (string * list string * string) :=
  [ ("SQL Injection Vulnerabilities",
     ["securityIssues"; "sqlInjectionVulnerabilities"], " Found");
    ("Missing Security Headers",
     ["securityIssues"; "missingSecurityHeaders"], "");
    ("Session Token Issues", ["securityIssues"; "sessionTokenIssues"], "");
    ("Color Contrast Violations",
     ["accessibilityIssues"; "colorContrastViolations"], "");
    ("Unlabeled Form Inputs",
     ["accessibilityIssues"; "unlabeledFormInputs"], "");
    ("ARIA Compliance", ["accessibilityIssues"; "ariaCompliance"], "");
    ("Concurrent User Success",
     ["performanceIssues"; "concurrentUserFailures"], "");
    ("CLS Score", ["performanceIssues"; "clsScore"], "") ].

(** The places that show two fields side by side. *)
Definition paired_places :
    list (list string * list string * (string -> string -> string)) :=
  [ (["testExecutionSummary"; "totalTests"],
     ["testExecutionSummary"; "totalSuites"], subtitle);
    (["comparisonWithPrevious"; "previousTestCount"],
     ["comparisonWithPrevious"; "newTestCount"], improvement_badge);
    (["testExecutionSummary"; "totalPassed"],
     ["testExecutionSummary"; "totalFailed"],
     chart_data "'Passed', 'Failed'");
    (["failureAnalysis"; "authenticationFailures"],
     ["failureAnalysis"; "functionalFailures"],
     chart_data "'Authentication Failures', 'Functional Failures'") ].

(** ** Lexical notions for the [testSuites] literal *)

(** Printable ASCII: the characters from the space to the tilde. *)
Definition printable (c : ascii) : bool :=
  let n := N_of_ascii c in ((32 <=? n) && (n <=? 126))%N.

Fixpoint all_printable (s : string) : bool :=
  match s with
  | EmptyString => true
  | String c s' => printable c && all_printable s'
  end.

(** The numerals of the floats of a document are printable, as [repr]
    of a [float] is. *)
Fixpoint floats_printable (v : value) : bool :=
  match v with
  | VFloat (FFinite r) => all_printable r
  | VList l => forallb floats_printable l
  | VDict items => forallb (fun kv => floats_printable (snd kv)) items
  | _ => true
  end.

(** What follows a string literal, read from just after its opening
    double quote as JavaScript reads it: a backslash takes the next
    character with it, and the first double quote that is not taken this
    way ends the literal. *)
Fixpoint after_literal (s : string) : option string :=
  match s with
  | EmptyString => None
  | String c s' =>
      if Ascii.eqb c dquote then Some s'
      else if Ascii.eqb c backslash then
        match s' with
        | EmptyString => None
        | String _ s'' => after_literal s''
        end
      else after_literal s'
  end.

(** ** Notions for the charts *)

Section ChartNotions.
Import Viewer.

(** A suite whose category is not a name that every object inherits. *)
Definition charted (s : suite) : bool := negb (inherited (category s)).

(** The sums of a category stay below [2^53]. *)
Definition within_range (testSuites : list suite) : Prop :=
  forall c, In c (map category testSuites) ->
    count tests (in_category c testSuites) < 2 ^ 53 /\
    count passed (in_category c testSuites) < 2 ^ 53.

(** A key that is an array index, and the ascending numeric order of
    such keys. *)
Definition is_index (k : string) : bool :=
  match array_index k with Some _ => true | None => false end.

Definition index_le (a b : string) : Prop :=
  match array_index a, array_index b with
  | Some m, Some n => (m <= n)%N
  | _, _ => False
  end.
End ChartNotions.

(** ** Further samples *)

(** A directory without the input file. *)
Definition empty_directory : world := World "/home/qa/reports" ∅ ∅ [] [].

(** The sample directory with an output file that cannot be written. *)
Definition locked_world (text : string) : world :=
  World "/home/qa/reports"
        {[ "/home/qa/reports/comprehensive-final-report.json" := text ]}
        {[ "/home/qa/reports/jira-test-dashboard.html" ]} [] [].

(** The scenario's report without its suites. *)
Definition scenario_without_suites : value :=
  report 243 12 200 43 "82.3%" [].

(** The lines of the script that compute the categories' rates. *)
Definition category_script_lines : list string :=
  [ "const categories = {};";
    "testSuites.forEach(suite => {";
    "if (!categories[suite.category]) {";
    "categories[suite.category] = { total: 0, passed: 0 };";
    "categories[suite.category].total += suite.tests;";
    "categories[suite.category].passed += suite.passed;";
    "const categoryData = Object.keys(categories).map(cat => ({";
    "category: cat,";
    "rate: (categories[cat].passed / categories[cat].total * 100).toFixed(1)" ].

(** The line of the script that computes the labels of the bar chart,
    and the lines of the script that read the suites. *)
Definition label_script_line : string :=
  "labels: testSuites.map(s => s.name.split(' ')[0] + '...'),".

Definition viewer_script_lines : list string :=
  label_script_line :: category_script_lines.

(** The report of the specification's aggregation property. *)
Definition aggregation_suites : list value :=
  [ suite_value "Login" "A" 10 5 5;
    suite_value "Logout" "A" 10 5 5;
    suite_value "Cart" "B" 4 4 0 ].

Definition aggregation_report : value :=
  report 24 3 14 10 "58.3%" aggregation_suites.

(** A report whose only suite holds no test. *)
Definition idle_report : value :=
  report 0 1 0 0 "0.0%" [suite_value "Smoke" "A" 0 0 0].

(** A report with a category that bears an inherited name, and a report
    with categories that are array indices. *)
Definition inherited_report : value :=
  report 8 2 6 2 "75.0%"
    [ suite_value "Login Suite" "Auth" 4 4 0;
      suite_value "Build Suite" "constructor" 4 2 2 ].

Definition indexed_report : value :=
  report 12 3 9 3 "75.0%"
    [ suite_value "Nightly" "10" 4 4 0;
      suite_value "Login Suite" "Auth" 4 3 1;
      suite_value "Weekly" "9" 4 2 2 ].

(** ** The script element as the browser's HTML tokenizer delimits it *)

(** The states that the tokenizer of the HTML standard goes through
    inside a script element (script data, its end tag, and the escaped
    and double escaped text after [<!--]), from the character after the
    start tag [<script>] to the end tag that closes the element. *)
Module Html.

Inductive state :=
  | Data
  | LessThan
  | EndTagOpen
  | EndTagName (name buffer : string)
  | EscapeStart
  | EscapeStartDash
  | Escaped
  | EscapedDash
  | EscapedDashDash
  | EscapedLessThan
  | EscapedEndTagOpen
  | EscapedEndTagName (name buffer : string)
  | DoubleEscapeStart (buffer : string)
  | DoubleEscaped
  | DoubleEscapedDash
  | DoubleEscapedDashDash
  | DoubleEscapedLessThan
  | DoubleEscapeEnd (buffer : string).

(** What a character does: the next state and the characters emitted,
    or the end of the element. *)
Inductive outcome :=
  | Next (s : state) (emitted : string)
  | Closed.

Definition is_upper (c : ascii) : bool :=
  let n := N_of_ascii c in ((65 <=? n) && (n <=? 90))%N.
Definition is_lower (c : ascii) : bool :=
  let n := N_of_ascii c in ((97 <=? n) && (n <=? 122))%N.
Definition is_alpha (c : ascii) : bool := is_upper c || is_lower c.
Definition to_lower (c : ascii) : ascii :=
  if is_upper c then ascii_of_N (N_of_ascii c + 32) else c.

(** Tab, line feed, form feed and space, [/] and [>]: what ends a tag
    name. *)
Definition ends_name (c : ascii) : bool :=
  let n := N_of_ascii c in
  ((n =? 9) || (n =? 10) || (n =? 12) || (n =? 32) || (n =? 47) || (n =? 62))%N.

(** U+FFFD, which stands for a NUL character. *)
Definition replacement : string :=
  String (ascii_of_nat 239) (String (ascii_of_nat 191)
    (String (ascii_of_nat 189) EmptyString)).

Definition emit (c : ascii) : string :=
  if (N_of_ascii c =? 0)%N then replacement else String c EmptyString.

Definition snoc (s : string) (c : ascii) : string := s +:+ String c EmptyString.

(** Emit [p], then let the character be consumed again as [o] says. *)
Definition after (p : string) (o : outcome) : outcome :=
  match o with
  | Next s e => Next s (p +:+ e)
  | Closed => Closed
  end.

Definition data_step (c : ascii) : outcome :=
  if Ascii.eqb c "<" then Next LessThan EmptyString else Next Data (emit c).

Definition escaped_step (c : ascii) : outcome :=
  if Ascii.eqb c "-" then Next EscapedDash "-"
  else if Ascii.eqb c "<" then Next EscapedLessThan EmptyString
  else Next Escaped (emit c).

Definition double_escaped_step (c : ascii) : outcome :=
  if Ascii.eqb c "-" then Next DoubleEscapedDash "-"
  else if Ascii.eqb c "<" then Next DoubleEscapedLessThan "<"
  else Next DoubleEscaped (emit c).

Definition step (s : state) (c : ascii) : outcome :=
  match s with
  | Data => data_step c
  | LessThan =>
      if Ascii.eqb c "/" then Next EndTagOpen EmptyString
      else if Ascii.eqb c "!" then Next EscapeStart "<!"
      else after "<" (data_step c)
  | EndTagOpen =>
      if is_alpha c
      then Next (EndTagName (String (to_lower c) EmptyString)
                            (String c EmptyString)) EmptyString
      else after "</" (data_step c)
  | EndTagName name buffer =>
      if ends_name c && String.eqb name "script" then Closed
      else if is_alpha c
      then Next (EndTagName (snoc name (to_lower c)) (snoc buffer c)) EmptyString
      else after ("</" +:+ buffer) (data_step c)
  | EscapeStart =>
      if Ascii.eqb c "-" then Next EscapeStartDash "-" else data_step c
  | EscapeStartDash =>
      if Ascii.eqb c "-" then Next EscapedDashDash "-" else data_step c
  | Escaped => escaped_step c
  | EscapedDash =>
      if Ascii.eqb c "-" then Next EscapedDashDash "-"
      else if Ascii.eqb c "<" then Next EscapedLessThan EmptyString
      else Next Escaped (emit c)
  | EscapedDashDash =>
      if Ascii.eqb c "-" then Next EscapedDashDash "-"
      else if Ascii.eqb c "<" then Next EscapedLessThan EmptyString
      else if Ascii.eqb c ">" then Next Data ">"
      else Next Escaped (emit c)
  | EscapedLessThan =>
      if Ascii.eqb c "/" then Next EscapedEndTagOpen EmptyString
      else if is_alpha c
      then Next (DoubleEscapeStart (String (to_lower c) EmptyString))
                (String "<" (String c EmptyString))
      else after "<" (escaped_step c)
  | EscapedEndTagOpen =>
      if is_alpha c
      then Next (EscapedEndTagName (String (to_lower c) EmptyString)
                                   (String c EmptyString)) EmptyString
      else after "</" (escaped_step c)
  | EscapedEndTagName name buffer =>
      if ends_name c && String.eqb name "script" then Closed
      else if is_alpha c
      then Next (EscapedEndTagName (snoc name (to_lower c)) (snoc buffer c))
                EmptyString
      else after ("</" +:+ buffer) (escaped_step c)
  | DoubleEscapeStart buffer =>
      if ends_name c
      then Next (if String.eqb buffer "script" then DoubleEscaped else Escaped)
                (String c EmptyString)
      else if is_alpha c
      then Next (DoubleEscapeStart (snoc buffer (to_lower c))) (String c EmptyString)
      else escaped_step c
  | DoubleEscaped => double_escaped_step c
  | DoubleEscapedDash =>
      if Ascii.eqb c "-" then Next DoubleEscapedDashDash "-"
      else if Ascii.eqb c "<" then Next DoubleEscapedLessThan "<"
      else Next DoubleEscaped (emit c)
  | DoubleEscapedDashDash =>
      if Ascii.eqb c "-" then Next DoubleEscapedDashDash "-"
      else if Ascii.eqb c "<" then Next DoubleEscapedLessThan "<"
      else if Ascii.eqb c ">" then Next Data ">"
      else Next DoubleEscaped (emit c)
  | DoubleEscapedLessThan =>
      if Ascii.eqb c "/" then Next (DoubleEscapeEnd EmptyString) "/"
      else double_escaped_step c
  | DoubleEscapeEnd buffer =>
      if ends_name c
      then Next (if String.eqb buffer "script" then Escaped else DoubleEscaped)
                (String c EmptyString)
      else if is_alpha c
      then Next (DoubleEscapeEnd (snoc buffer (to_lower c))) (String c EmptyString)
      else double_escaped_step c
  end.

(** The text of the element and what is left of the input from the
    character that ends the name of the closing tag; [None] when the
    input ends before the element does. *)
Fixpoint script_data (s : state) (input : string) : option (string * string) :=
  match input with
  | EmptyString => None
  | String c input' =>
      match step s c with
      | Closed => Some (EmptyString, input)
      | Next s' emitted =>
          match script_data s' input' with
          | Some (text, rest) => Some (emitted +:+ text, rest)
          | None => None
          end
      end
  end.

(** The characters of [s] as the tokenizer emits them when none of them
    is markup. *)
Fixpoint emitted (s : string) : string :=
  match s with
  | EmptyString => EmptyString
  | String c s' => emit c +:+ emitted s'
  end.

(** The element read from the character after its start tag. *)
Definition script_element (input : string) : option (string * string) :=
  script_data Data input.

End Html.

(** The end of the page after the closing tag of the script element. *)
Definition page_end : string := "
</body>
</html>".

(** ** The suites that the script receives *)

(** The fields among the pieces of a template. *)
Definition fields (ps : list piece) : list piece :=
  List.filter (fun pc => match pc with Lit _ => false | _ => true end) ps.

(** The fields of the template that stand inside the script element,
    which begins with the template's 38th piece. *)
Definition script_fields : list piece := fields (skipn 38 template).

Section Received.
Context `{PyLib}.

(** No field among [ps] puts a [<] into the page. *)
Definition markup_free (data : value) (ps : list piece) : Prop :=
  Forall (fun pc => forall t, eval_piece data pc = Ok t -> contains "<" t = false)
         ps.

(** The browser reads the page as HTML before it runs the script, and
    neither [str] nor [json.dumps] escapes a [<]: a field that holds
    [<!--] hides the rest of the page, and a suite that holds
    [</script>] ends the script element inside the [testSuites]
    literal; a field of the two charts drawn first that is not a number
    stops the script before it reads the suites.  The script receives
    the suites [testSuites] from the report [data] when the report
    follows the schema, with [testSuites] as its suites, and no field
    puts a [<] into the page, so that the markup of the page is the
    template's. *)
Definition received (data : value) (testSuites : list Viewer.suite) : Prop :=
  valid_report data testSuites /\ markup_free data (fields template).

(** The page [html] of the report [data] runs the script on the suites
    [testSuites]: the script element that begins at the template's
    [<script>] tag is read by the tokenizer up to the template's
    [</script>] tag, and its text holds the suites as the [testSuites]
    literal and the lines of the script that read them. *)
Definition script_in_page (data : value) (html : string)
    (testSuites : list Viewer.suite) : Prop :=
  exists l head script,
    get_path data ["testSuiteResults"] = Ok (VList l) /\
    suites_of_values l = Some testSuites /\
    format_pieces data (firstn 38 template) = Ok head /\
    html = head +:+ "    <script>" +:+ script +:+ "</script>" +:+ page_end /\
    Html.script_element (script +:+ "</script>" +:+ page_end) =
      Some (Html.emitted script, ">" +:+ page_end) /\
    occurs_in ("const testSuites = " +:+ json_dumps (VList l) +:+ ";") script /\
    Forall (fun line => occurs_in line script) viewer_script_lines.
End Received.

(** * Properties *)

(** ** Occurrence of a string in another *)

#[local] Arguments String.append !s1 s2 : simpl nomatch.

Lemma append_assoc (a b c : string) : (a +:+ b) +:+ c = a +:+ b +:+ c.
Proof. induction a as [|x a IH]; simpl; [reflexivity | f_equal; exact IH]. Qed.

Lemma append_nil_r (a : string) : a +:+ EmptyString = a.
Proof. induction a as [|x a IH]; simpl; [reflexivity | f_equal; exact IH]. Qed.

Lemma starts_with_iff (p s : string) :
  starts_with p s = true <-> exists post, s = p +:+ post.
Proof.
  revert s; induction p as [|c p IH]; intros s; simpl.
  - split; [intros _; now exists s | reflexivity].
  - destruct s as [|d s]; [split; [discriminate | intros [post E]; discriminate] |].
    rewrite andb_true_iff, Ascii.eqb_eq, IH. split.
    + intros [-> [post ->]]. now exists post.
    + intros [post E]. injection E as -> ->. split; [reflexivity | now exists post].
Qed.

Lemma contains_iff (needle hay : string) :
  contains needle hay = true <-> occurs_in needle hay.
Proof.
  induction hay as [|c hay IH]; simpl.
  - rewrite orb_false_r, starts_with_iff. split.
    + intros [post E]. now exists EmptyString, post.
    + intros [pre [post E]]. destruct pre; [now exists post | discriminate].
  - rewrite orb_true_iff, starts_with_iff, IH. split.
    + intros [[post E] | [pre [post E]]].
      * now exists EmptyString, post.
      * exists (String c pre), post. simpl. now rewrite E.
    + intros [pre [post E]]. destruct pre as [|d pre]; simpl in E.
      * left. now exists post.
      * right. exists pre, post. now injection E.
Qed.

Lemma occurs_in_refl (s : string) : occurs_in s s.
Proof. exists EmptyString, EmptyString. simpl. now rewrite append_nil_r. Qed.

Lemma occurs_in_app_l (x a b : string) : occurs_in x a -> occurs_in x (a +:+ b).
Proof.
  intros [pre [post ->]]. exists pre, (post +:+ b).
  now rewrite !append_assoc.
Qed.

Lemma occurs_in_app_r (x a b : string) : occurs_in x b -> occurs_in x (a +:+ b).
Proof.
  intros [pre [post ->]]. exists (a +:+ pre), post.
  now rewrite !append_assoc.
Qed.

Lemma occurs_in_trans (x y z : string) :
  occurs_in x y -> occurs_in y z -> occurs_in x z.
Proof.
  intros [p1 [q1 ->]] [p2 [q2 ->]]. exists (p2 +:+ p1), (q1 +:+ q2).
  now rewrite !append_assoc.
Qed.

Lemma occurs_in_concat (sep x : string) (l : list string) :
  In x l -> occurs_in x (String.concat sep l).
Proof.
  induction l as [|y l IH]; [intros [] |].
  intros [-> | Hin].
  - destruct l; simpl; [apply occurs_in_refl | apply occurs_in_app_l, occurs_in_refl].
  - destruct l as [|z l]; [destruct Hin |].
    change (String.concat sep (y :: z :: l))
      with (y +:+ sep +:+ String.concat sep (z :: l)).
    now apply occurs_in_app_r, occurs_in_app_r, IH.
Qed.

Create HintDb occurs.
#[local] Hint Resolve occurs_in_refl occurs_in_app_l occurs_in_app_r : occurs.

(** ** Evaluation of the f-string *)

Section Rendering.
Context `{PyLib}.

Lemma format_pieces_cons (data : value) (pc : piece) (ps : list piece) (s : string) :
  format_pieces data (pc :: ps) = Ok s ->
  exists t rest, eval_piece data pc = Ok t /\
                 format_pieces data ps = Ok rest /\ s = t +:+ rest.
Proof.
  simpl. destruct (eval_piece data pc) as [t|e]; simpl; [|discriminate].
  destruct (format_pieces data ps) as [rest|e]; simpl; [|discriminate].
  intros [= <-]. now exists t, rest.
Qed.

(** Every piece of a formatted template has been evaluated and its text
    stands in the result. *)
Lemma format_pieces_occurs (data : value) (ps : list piece) (s : string) (pc : piece) :
  format_pieces data ps = Ok s -> In pc ps ->
  exists t, eval_piece data pc = Ok t /\ occurs_in t s.
Proof.
  revert s. induction ps as [|pc' ps IH]; intros s Hs Hin; [destruct Hin |].
  apply format_pieces_cons in Hs as (t & rest & Ht & Hrest & ->).
  destruct Hin as [-> | Hin].
  - exists t. auto with occurs.
  - destruct (IH rest Hrest Hin) as (t' & Ht' & Hocc).
    exists t'. auto with occurs.
Qed.

Lemma format_pieces_app (data : value) (ps qs : list piece) (s : string) :
  format_pieces data (ps ++ qs) = Ok s ->
  exists a b, format_pieces data ps = Ok a /\
              format_pieces data qs = Ok b /\ s = a +:+ b.
Proof.
  revert s. induction ps as [|pc ps IH]; intros s Hs.
  - now exists EmptyString, s.
  - change ((pc :: ps) ++ qs)%list with (pc :: (ps ++ qs))%list in Hs.
    apply format_pieces_cons in Hs as (t & rest & Ht & Hrest & ->).
    destruct (IH rest Hrest) as (a & b & Ha & Hb & ->).
    exists (t +:+ a), b. simpl. rewrite Ht, Ha. simpl.
    now rewrite append_assoc.
Qed.

(** A run of consecutive pieces stands in the result as one text. *)
Lemma format_pieces_segment (data : value) (pre mid post : list piece) (s : string) :
  format_pieces data (pre ++ mid ++ post) = Ok s ->
  exists t, format_pieces data mid = Ok t /\ occurs_in t s.
Proof.
  intros Hs.
  apply format_pieces_app in Hs as (a & b & _ & Hb & ->).
  apply format_pieces_app in Hb as (m & p & Hm & _ & ->).
  exists m. split; [assumption | now exists a, p].
Qed.

(** The first lookup that fails decides the outcome. *)
Lemma format_pieces_raise (data : value) (pre post : list piece) (pc : piece) (e : exn) :
  Forall (fun pc' => exists t, eval_piece data pc' = Ok t) pre ->
  eval_piece data pc = Raise e ->
  format_pieces data (pre ++ pc :: post) = Raise e.
Proof.
  intros Hpre Hpc. induction Hpre as [|pc' pre [t Ht] _ IH]; simpl.
  - now rewrite Hpc.
  - now rewrite Ht, IH.
Qed.

Lemma format_pieces_ok (data : value) (ps : list piece) :
  Forall (fun pc => exists t, eval_piece data pc = Ok t) ps ->
  exists s, format_pieces data ps = Ok s.
Proof.
  induction 1 as [|pc ps [t Ht] _ [s Hs]]; simpl.
  - now exists EmptyString.
  - rewrite Ht, Hs. simpl. eexists; reflexivity.
Qed.

Lemma format_pieces_ext (data data' : value) (ps : list piece) :
  Forall (fun pc => eval_piece data pc = eval_piece data' pc) ps ->
  format_pieces data ps = format_pieces data' ps.
Proof.
  induction 1 as [|pc ps E _ IH]; simpl; [reflexivity | now rewrite E, IH].
Qed.

Lemma eval_piece_ok_iff (data : value) (pc : piece) :
  (exists t, eval_piece data pc = Ok t) <->
  (forall p, piece_path pc = Some p -> resolves data p).
Proof.
  unfold resolves. destruct pc as [s|p|p]; simpl.
  - split; [intros _ p [=] | intros _; now exists s].
  - split.
    + intros [t Ht] p' [= <-]. revert Ht.
      destruct (get_path data p) as [x|e]; [now exists x | discriminate].
    + intros Hp. destruct (Hp p eq_refl) as [x Hx]. rewrite Hx. simpl. eexists; reflexivity.
  - split.
    + intros [t Ht] p' [= <-]. revert Ht.
      destruct (get_path data p) as [x|e]; [now exists x | discriminate].
    + intros Hp. destruct (Hp p eq_refl) as [x Hx]. rewrite Hx. simpl. eexists; reflexivity.
Qed.

Lemma eval_piece_raise (data : value) (pc : piece) (p : list string) (e : exn) :
  piece_path pc = Some p -> get_path data p = Raise e ->
  eval_piece data pc = Raise e.
Proof.
  destruct pc as [s|p'|p']; simpl; [discriminate | |]; intros [= ->] ->; reflexivity.
Qed.
End Rendering.

(** ** The page and the report's fields *)

Section Page.
Context `{PyLib}.

Lemma first_failure (data : value) (ps : list piece) (p : list string) (e : exn) :
  In p (lookups ps) ->
  get_path data p = Raise e ->
  Forall (resolves data) (lookups_before p (lookups ps)) ->
  format_pieces data ps = Raise e.
Proof.
  intros Hin Hp. induction ps as [|pc ps IH]; simpl in *; [destruct Hin |].
  destruct (piece_path pc) as [p'|] eqn:Hpc.
  - simpl. unfold path_eqb. case_bool_decide as Heq.
    + subst p'. intros _. now rewrite (eval_piece_raise _ _ _ _ Hpc Hp).
    + intros Hall. apply Forall_cons in Hall as [Hp' Hall].
      destruct Hin as [-> | Hin]; [congruence |].
      assert (exists t, eval_piece data pc = Ok t) as [t ->].
      { apply eval_piece_ok_iff. intros ? E. rewrite Hpc in E. now injection E as <-. }
      simpl. now rewrite (IH Hin Hall).
  - intros Hall. destruct pc; try discriminate. simpl. now rewrite (IH Hin Hall).
Qed.

Lemma html_content_lookups (data : value) (html : string) (p : list string) :
  html_content data = Ok html -> In p (lookups template) -> resolves data p.
Proof.
  unfold html_content. generalize template. intros ps. revert html.
  induction ps as [|pc ps IH]; intros html Hs Hin; [destruct Hin |].
  apply format_pieces_cons in Hs as (t & rest & Ht & Hrest & ->).
  simpl in Hin. destruct (piece_path pc) as [p'|] eqn:Hpc; [|eauto].
  destruct Hin as [<- | Hin]; [|eauto].
  apply (proj1 (eval_piece_ok_iff data pc)); eauto.
Qed.

Lemma literal_occurs (x : string) (data : value) (html : string) :
  existsb (fun pc => match pc with Lit s => contains x s | _ => false end)
          template = true ->
  html_content data = Ok html -> occurs_in x html.
Proof.
  intros Hex Hs. apply existsb_exists in Hex as (pc & Hin & Hpc).
  destruct pc as [s| |]; try discriminate.
  destruct (format_pieces_occurs _ _ _ _ Hs Hin) as (t & [= <-] & Hocc).
  apply contains_iff in Hpc. eapply occurs_in_trans; eassumption.
Qed.

(** The value of a formatted field stands in the page as [str] gives it. *)
Lemma hole_occurs (data x : value) (html : string) (p : list string) :
  html_content data = Ok html -> In (Hole p) template ->
  get_path data p = Ok x -> occurs_in (py_str x) html.
Proof.
  intros Hs Hin Hp.
  destruct (format_pieces_occurs _ _ _ _ Hs Hin) as (t & Ht & Hocc).
  simpl in Ht. rewrite Hp in Ht. simpl in Ht. now injection Ht as <-.
Qed.

(** C10: Whatever the report holds, the page shows the coverage improvement
    [1,769%] (in the header line and on its card), [Missing] for Rate
    Limiting and for PWA Features, [Failed] for the WCAG 2.1 AA status
    and [None] for Mobile Optimization: these values are literal text of
    the template. *)
Theorem fixed_values_in_every_page (data : value) (html : string) :
  html_content data = Ok html ->
  occurs_in "1,769% Coverage Improvement" html /\
  occurs_in (stat_card "info" "1,769%" "Coverage Improvement") html /\
  occurs_in (finding_item "Rate Limiting" "Missing") html /\
  occurs_in (finding_item "PWA Features" "Missing") html /\
  occurs_in (finding_item "WCAG 2.1 AA Status" "Failed") html /\
  occurs_in (finding_item "Mobile Optimization" "None") html /\
  occurs_in "1,769%" html /\ occurs_in "Missing" html /\
  occurs_in "Failed" html /\ occurs_in "None" html.
Proof.
  intros Hs.
  repeat split; (eapply literal_occurs; [vm_compute; reflexivity | exact Hs]).
Qed.

Lemma get_path_top_level (items items' : list (string * value)) (k : string)
    (p : list string) :
  assoc k items = assoc k items' ->
  get_path (VDict items) (k :: p) = get_path (VDict items') (k :: p).
Proof. intros E. simpl. now rewrite E. Qed.

(** C9: Two reports that hold the same values under [testExecutionSummary],
    [failureAnalysis], [testSuiteResults] and [comparisonWithPrevious]
    give the same outcome, byte for byte: no other top-level key is
    read. *)
Theorem page_depends_on_four_keys (items items' : list (string * value)) :
  (forall k, In k top_level_keys -> assoc k items = assoc k items') ->
  html_content (VDict items) = html_content (VDict items').
Proof.
  intros Hkeys. apply format_pieces_ext, List.Forall_forall. intros pc Hin.
  assert (Hhead : match piece_path pc with
                  | Some (k :: _) => In k top_level_keys
                  | Some [] => False
                  | None => True
                  end).
  { revert pc Hin. apply List.Forall_forall.
    repeat (constructor; [simpl; tauto |]). constructor. }
  destruct pc as [s|[|k p]|[|k p]]; simpl in Hhead; try contradiction; try reflexivity;
    unfold eval_piece; now rewrite (get_path_top_level items items' k p (Hkeys k Hhead)).
Qed.

(** C8: Under [testExecutionSummary.majorFindings] the template reads the
    eight keys of [findings_paths] and no other; a page is only produced
    when each of them is present; and when one of them is missing while
    the lookups evaluated before it succeed, rendering raises [KeyError]
    for the missing key. *)
Theorem major_findings_keys_required (data : value) :
  filter (path_prefix major_findings) (lookups template) = findings_paths /\
  (forall html, html_content data = Ok html ->
                Forall (resolves data) findings_paths) /\
  (forall p k, In p findings_paths ->
               get_path data p = Raise (KeyError k) ->
               Forall (resolves data) (lookups_before p (lookups template)) ->
               html_content data = Raise (KeyError k)).
Proof.
  assert (Hsub : forall p, In p findings_paths -> In p (lookups template)).
  { apply List.Forall_forall. repeat (constructor; [vm_compute; tauto |]). constructor. }
  split; [vm_compute; reflexivity | split].
  - intros html Hs. apply List.Forall_forall. intros p Hp.
    eapply html_content_lookups; eauto.
  - intros p k Hp Hk Hbefore. apply first_failure with (p := p); auto.
Qed.
End Page.

(** ** Fields of the report in the page *)

Lemma json_dumps_list_occurs (l : list value) (v : value) :
  In v l -> occurs_in (json_dumps v) (json_dumps (VList l)).
Proof.
  intros Hin.
  change (json_dumps (VList l))
    with ("[" +:+ String.concat ", " (map json_dumps l) +:+ "]").
  apply occurs_in_app_r, occurs_in_app_l.
  apply occurs_in_concat, in_map, Hin.
Qed.

Lemma assoc_In (k : string) (items : list (string * value)) (x : value) :
  assoc k items = Some x -> In (k, x) items.
Proof.
  induction items as [|[k' y] items IH]; simpl; [discriminate |].
  destruct (String.eqb k k') eqn:E.
  - apply String.eqb_eq in E as ->. intros [= ->]. now left.
  - intros Hx. right. auto.
Qed.

Lemma json_dumps_dict_occurs (items : list (string * value)) (k : string) (x : value) :
  assoc k items = Some x ->
  occurs_in (json_string k +:+ ": " +:+ json_dumps x) (json_dumps (VDict items)).
Proof.
  intros Hx. apply assoc_In in Hx.
  change (json_dumps (VDict items))
    with ("{" +:+ String.concat ", "
                    (map (fun kv : string * value =>
                            let '(k0, x0) := kv in
                            json_string k0 +:+ ": " +:+ json_dumps x0) items)
              +:+ "}").
  apply occurs_in_app_r, occurs_in_app_l, occurs_in_concat.
  change (json_string k +:+ ": " +:+ json_dumps x)
    with ((fun kv : string * value =>
             let '(k0, x0) := kv in json_string k0 +:+ ": " +:+ json_dumps x0) (k, x)).
  now apply in_map.
Qed.

Lemma plain_code_points (s : string) :
  plain s = true ->
  String.concat "" (map escape_code_point (code_points s)) = s.
Proof.
  induction s as [|c s IH]; [reflexivity |].
  simpl plain. rewrite andb_true_iff. intros [Hc Hs].
  unfold plain_char in Hc. cbv zeta in Hc.
  rewrite !andb_true_iff, !negb_true_iff in Hc.
  destruct Hc as [[[Hlo Hhi] Hq] Hb].
  apply N.leb_le in Hlo, Hhi. apply N.eqb_neq in Hq, Hb.
  assert (Hcp : code_points (String c s) = N_of_ascii c :: code_points s).
  { simpl. destruct (N.ltb_spec (N_of_ascii c) 192) as [_|Hge]; [reflexivity | lia]. }
  rewrite Hcp. simpl map.
  assert (Hesc : escape_code_point (N_of_ascii c) = String c EmptyString).
  { unfold escape_code_point.
    repeat match goal with
           | |- context [(?a =? ?b)%N] =>
               destruct (N.eqb_spec a b) as [E|_]; [exfalso; lia |]
           end.
    destruct (N.leb_spec 32 (N_of_ascii c)); [|lia].
    destruct (N.leb_spec (N_of_ascii c) 126); [|lia].
    simpl. now rewrite ascii_N_embedding. }
  rewrite Hesc. specialize (IH Hs).
  destruct (map escape_code_point (code_points s)) as [|y l] eqn:El.
  - simpl in *. now subst s.
  - change (String.concat "" (String c "" :: y :: l))
      with (String c "" +:+ "" +:+ String.concat "" (y :: l)).
    rewrite IH. reflexivity.
Qed.

(** [json.dumps] leaves a plain string as it is, between double quotes. *)
Lemma json_string_plain (s : string) : plain s = true -> json_string s = quoted s.
Proof. intros Hs. unfold json_string, quoted. now rewrite plain_code_points. Qed.

Lemma occurs_in_quoted (s : string) : occurs_in s (quoted s).
Proof. now exists (String dquote EmptyString), (String dquote EmptyString). Qed.

Lemma suites_of_values_In (l : list value) (suites : list Viewer.suite) (s : Viewer.suite) :
  suites_of_values l = Some suites -> In s suites ->
  exists v, In v l /\ suite_of_value v = Some s.
Proof.
  revert suites. induction l as [|v l IH]; intros suites; simpl.
  - intros [= <-] [].
  - destruct (suite_of_value v) as [s0|] eqn:Ev; [|discriminate].
    destruct (suites_of_values l) as [ss|]; [|discriminate].
    intros [= <-] [<- | Hin].
    + exists v. auto.
    + destruct (IH ss eq_refl Hin) as (v' & Hv' & E). exists v'. auto.
Qed.

Lemma suite_of_value_fields (v : value) (s : Viewer.suite) :
  suite_of_value v = Some s ->
  exists items, v = VDict items /\
    assoc "name" items = Some (VStr (Viewer.name s)) /\
    assoc "category" items = Some (VStr (Viewer.category s)) /\
    assoc "tests" items = Some (VInt (Viewer.tests s)) /\
    assoc "passed" items = Some (VInt (Viewer.passed s)) /\
    assoc "failed" items = Some (VInt (Viewer.failed s)).
Proof.
  destruct v as [| | | | |l|items]; try discriminate.
  intros E. simpl in E.
  repeat match type of E with
         | context [match ?x with _ => _ end] =>
             destruct x eqn:?; try discriminate
         end.
  injection E as <-. subst. exists items. simpl. auto 10.
Qed.

Lemma Ok_inj {A} (a b : A) : Ok a = Ok b -> a = b.
Proof. congruence. Qed.


Section Fields.
Context `{PyLib}.

(** The suites stand in the script as the array literal [testSuites]. *)
Lemma suites_embedded (data x : value) (html : string) :
  html_content data = Ok html ->
  get_path data ["testSuiteResults"] = Ok x ->
  occurs_in ("const testSuites = " +:+ json_dumps x +:+ ";") html.
Proof.
  intros Hs Hx.
  assert (Hsplit : template =
            (firstn 46 template ++
             [Lit (piece_text 46); Dumps ["testSuiteResults"]; Lit (piece_text 48)]
             ++ [])%list) by (vm_compute; reflexivity).
  unfold html_content in Hs. rewrite Hsplit in Hs.
  apply format_pieces_segment in Hs as (t & Ht & Hocc).
  assert (Hmid : forall a b,
            format_pieces data [Lit a; Dumps ["testSuiteResults"]; Lit b] =
            Ok (a +:+ json_dumps x +:+ b +:+ EmptyString)).
  { intros a b. unfold format_pieces, eval_piece. rewrite Hx. reflexivity. }
  rewrite Hmid in Ht. apply Ok_inj in Ht. subst t.
  eapply occurs_in_trans; [|exact Hocc].
  assert (Ha : exists a, piece_text 46 = a +:+ "const testSuites = ").
  { exists (String.substring 0 (String.length (piece_text 46) - 19) (piece_text 46)).
    vm_compute. reflexivity. }
  assert (Hb : exists b, piece_text 48 = ";" +:+ b).
  { apply starts_with_iff. vm_compute. reflexivity. }
  destruct Ha as [a ->], Hb as [b ->].
  exists a, b. now rewrite !append_assoc, append_nil_r.
Qed.

(** C2: For a report that follows the schema, the page holds every integer
    field as its decimal numeral and the success rate string as it is.
    Each suite stands in the page inside the [testSuites] literal that
    [json.dumps] writes: its [tests], [passed] and [failed] as decimal
    numerals after their keys, its [name] and [category] in the quoted
    and escaped form of [json.dumps], which is the string itself between
    double quotes when the string is plain. *)
Theorem fields_in_page (data : value) (suites : list Viewer.suite) (html : string) :
  valid_report data suites ->
  html_content data = Ok html ->
  (forall p, In p integer_fields ->
     exists z, get_path data p = Ok (VInt z) /\ occurs_in (str_int z) html) /\
  (exists s, get_path data success_rate_field = Ok (VStr s) /\ occurs_in s html) /\
  (forall s, In s suites ->
     occurs_in (quoted "name" +:+ ": " +:+ json_string (Viewer.name s)) html /\
     occurs_in (quoted "category" +:+ ": " +:+ json_string (Viewer.category s)) html /\
     occurs_in (quoted "tests" +:+ ": " +:+ str_int (Viewer.tests s)) html /\
     occurs_in (quoted "passed" +:+ ": " +:+ str_int (Viewer.passed s)) html /\
     occurs_in (quoted "failed" +:+ ": " +:+ str_int (Viewer.failed s)) html /\
     (plain (Viewer.name s) = true -> occurs_in (Viewer.name s) html) /\
     (plain (Viewer.category s) = true -> occurs_in (Viewer.category s) html)).
Proof.
  intros [Hint [rate Hrate] (l & Hl & Hsuites)] Hs. split; [|split].
  - intros p Hp. destruct (Hint p Hp) as [z Hz]. exists z. split; [exact Hz |].
    apply (hole_occurs data (VInt z) html p Hs); [|exact Hz].
    clear Hz. revert p Hp. apply List.Forall_forall.
    repeat (constructor; [vm_compute; tauto |]). constructor.
  - exists rate. split; [exact Hrate |].
    apply (hole_occurs data (VStr rate) html success_rate_field Hs);
      [vm_compute; tauto | exact Hrate].
  - intros s Hin.
    destruct (suites_of_values_In _ _ _ Hsuites Hin) as (v & Hv & Es).
    destruct (suite_of_value_fields _ _ Es) as (items & -> & Hn & Hc & Ht & Hp & Hf).
    assert (Hdict : occurs_in (json_dumps (VDict items)) html).
    { eapply occurs_in_trans; [apply (json_dumps_list_occurs l), Hv |].
      eapply occurs_in_trans; [|apply (suites_embedded data (VList l) html Hs Hl)].
      auto with occurs. }
    assert (Hfield : forall k x, assoc k items = Some x -> plain k = true ->
               occurs_in (quoted k +:+ ": " +:+ json_dumps x) html).
    { intros k x Hk Hplain. rewrite <- (json_string_plain k Hplain).
      eapply occurs_in_trans; [apply json_dumps_dict_occurs, Hk | exact Hdict]. }
    pose proof (Hfield _ _ Hn eq_refl) as On.
    pose proof (Hfield _ _ Hc eq_refl) as Oc.
    split; [exact On |]. split; [exact Oc |].
    split; [exact (Hfield _ _ Ht eq_refl) |].
    split; [exact (Hfield _ _ Hp eq_refl) |].
    split; [exact (Hfield _ _ Hf eq_refl) |].
    split.
    + intros Hplain. eapply occurs_in_trans; [|exact On].
      simpl json_dumps. rewrite (json_string_plain _ Hplain).
      apply occurs_in_app_r, occurs_in_app_r, occurs_in_quoted.
    + intros Hplain. eapply occurs_in_trans; [|exact Oc].
      simpl json_dumps. rewrite (json_string_plain _ Hplain).
      apply occurs_in_app_r, occurs_in_app_r, occurs_in_quoted.
Qed.
End Fields.

(** ** Runs of the program *)

Lemma append_inj_r (a x y : string) : a +:+ x = a +:+ y -> x = y.
Proof.
  induction a as [|c a IH]; simpl; [trivial |]. intros [= E]. auto.
Qed.

Lemma resolve_input_output (w : world) :
  resolve w input_name <> resolve w output_name.
Proof.
  unfold resolve, posix_join, input_name, output_name. simpl isabs.
  cbv iota. destruct (_ || _); intros E; apply append_inj_r in E;
    try apply append_inj_r in E; discriminate.
Qed.

Lemma starts_with_app (p a b : string) :
  starts_with p a = true -> starts_with p (a +:+ b) = true.
Proof.
  rewrite !starts_with_iff. intros [post ->]. exists (post +:+ b).
  now rewrite append_assoc.
Qed.

Lemma abspath_isabs (w : world) (name : string) :
  isabs (cwd w) = true -> isabs (abspath w name) = true.
Proof.
  intros Hcwd. unfold abspath, posix_join.
  destruct (isabs name) eqn:E; [exact E |].
  destruct (_ || _); now apply starts_with_app.
Qed.

Section Runs.
Context `{PyLib}.

Lemma create_html_dashboard_outcome (w : world) :
  create_html_dashboard w = dashboard_outcome w.
Proof.
  unfold create_html_dashboard, dashboard_outcome, bindM, read_text, lift,
    write_text, print, retM.
  destruct (files w !! resolve w input_name) as [text|]; [|reflexivity].
  destruct (json_load text) as [data|e]; [|reflexivity].
  destruct (html_content data) as [html|e]; [|reflexivity].
  unfold resolve at 1 2. simpl cwd. simpl unwritable. fold (resolve w output_name).
  case_bool_decide; [reflexivity |]. destruct (encodable html); reflexivity.
Qed.

(** A failing [create_html_dashboard] has changed nothing, unless it
    failed in encoding the page. *)
Lemma failure_changes_nothing (w w' : world) (e : exn) :
  create_html_dashboard w = (Raise e, w') -> e <> UnicodeEncodeError -> w' = w.
Proof.
  rewrite create_html_dashboard_outcome. unfold dashboard_outcome.
  repeat match goal with
         | |- context [match ?x with _ => _ end] => destruct x
         end; congruence.
Qed.

Lemma main_is_main_outcome (w : world) : main w = main_outcome w.
Proof.
  unfold main, main_outcome, bindM, print.
  destruct (create_html_dashboard _) as [[f|e] w1]; reflexivity.
Qed.
End Runs.

Section RunProperties.
Context `{PyLib}.

Lemma main_failure (w : world) (e : exn) :
  create_html_dashboard
    (add_stdout "🚀 Creating comprehensive JIRA UAT testing dashboard..." w)
  = (Raise e,
     add_stdout "🚀 Creating comprehensive JIRA UAT testing dashboard..." w) ->
  exists w', main w = (Raise e, w') /\ files w' = files w /\
             browser w' = browser w /\ cwd w' = cwd w.
Proof.
  intros E. rewrite main_is_main_outcome. unfold main_outcome. rewrite E.
  eexists. split; [reflexivity | auto].
Qed.

Lemma dashboard_raises (w : world) (text : string) (e : exn) :
  files w !! resolve w input_name = Some text ->
  bind (json_load text) html_content = Raise e ->
  create_html_dashboard w = (Raise e, w).
Proof.
  intros Hfile Hfail. rewrite create_html_dashboard_outcome.
  unfold dashboard_outcome. rewrite Hfile.
  destruct (json_load text) as [data|e']; simpl in Hfail; [|congruence].
  now rewrite Hfail.
Qed.

(** C3: When the loaded document has no [testExecutionSummary.totalTests]
    (the key, or [testExecutionSummary] itself, is missing),
    [create_html_dashboard] raises [KeyError] for the missing key and
    leaves everything as it was: the lookup is the first field of the
    f-string, evaluated before the output file is opened.  [main] ends
    with the same error, having printed its first line only; no file is
    written and no browser opened. *)
Theorem missing_totalTests_writes_nothing (w : world) (text : string)
    (data : value) (k : string) :
  files w !! resolve w input_name = Some text ->
  json_loads text = Some data ->
  get_path data ["testExecutionSummary"; "totalTests"] = Raise (KeyError k) ->
  create_html_dashboard w = (Raise (KeyError k), w) /\
  exists w', main w = (Raise (KeyError k), w') /\ files w' = files w /\
             browser w' = browser w.
Proof.
  intros Hfile Hload Hkey.
  assert (Hfail : bind (json_load text) html_content = Raise (KeyError k)).
  { unfold json_load. rewrite Hload. simpl.
    apply first_failure with (p := ["testExecutionSummary"; "totalTests"]);
      [vm_compute; tauto | exact Hkey | constructor]. }
  split; [now apply dashboard_raises with (text := text) |].
  destruct (main_failure w (KeyError k)) as (w' & Hmain & Hfiles & Hbrowser & _).
  - now apply dashboard_raises with (text := text).
  - now exists w'.
Qed.

(** C6: When the text of the input file does not parse,
    [create_html_dashboard] raises [JSONDecodeError] and leaves everything
    as it was, whatever the template would have made of any document:
    loading comes first, and its failure ends the run before rendering
    and writing.  [main] ends with the same error; no file is written and
    no browser opened. *)
Theorem malformed_input_fails_before_rendering (w : world) (text : string) :
  files w !! resolve w input_name = Some text ->
  json_loads text = None ->
  create_html_dashboard w = (Raise JSONDecodeError, w) /\
  exists w', main w = (Raise JSONDecodeError, w') /\ files w' = files w /\
             browser w' = browser w.
Proof.
  intros Hfile Hload.
  assert (Hfail : bind (json_load text) html_content = Raise JSONDecodeError).
  { unfold json_load. now rewrite Hload. }
  split; [now apply dashboard_raises with (text := text) |].
  destruct (main_failure w JSONDecodeError) as (w' & Hmain & Hfiles & Hbrowser & _).
  - now apply dashboard_raises with (text := text).
  - now exists w'.
Qed.

Lemma main_success (w w' : world) :
  main w = (Ok tt, w') ->
  exists text data html,
    files w !! resolve w input_name = Some text /\
    json_loads text = Some data /\
    html_content data = Ok html /\
    (resolve w output_name ∉ unwritable w) /\
    cwd w' = cwd w /\ unwritable w' = unwritable w /\
    files w' = <[resolve w output_name := html]> (files w) /\
    In ("🌐 Opening dashboard: " +:+ abspath w output_name) (stdout w') /\
    browser w' = (browser w ++ ["file://" +:+ abspath w output_name])%list.
Proof.
  rewrite main_is_main_outcome. unfold main_outcome.
  rewrite create_html_dashboard_outcome. unfold dashboard_outcome.
  set (w0 := add_stdout _ w).
  change (files w0) with (files w). change (unwritable w0) with (unwritable w).
  change (resolve w0) with (resolve w).
  destruct (files w !! resolve w input_name) as [text|]; [|discriminate].
  unfold json_load. destruct (json_loads text) as [data|] eqn:Hload; [|discriminate].
  destruct (html_content data) as [html|e] eqn:Hhtml; [|discriminate].
  case_bool_decide as Hw; [discriminate |].
  destruct (encodable html); [|discriminate].
  intros [= <-]. exists text, data, html.
  repeat split; try reflexivity; try assumption.
  unfold after_dashboard. simpl. rewrite !in_app_iff. simpl. tauto.
Qed.

(** The page that a successful run has written could be encoded. *)
Lemma main_success_encodable (w w' : world) (html : string) :
  main w = (Ok tt, w') ->
  files w' !! resolve w output_name = Some html -> encodable html = true.
Proof.
  rewrite main_is_main_outcome. unfold main_outcome.
  rewrite create_html_dashboard_outcome. unfold dashboard_outcome.
  set (w0 := add_stdout _ w).
  change (files w0) with (files w). change (unwritable w0) with (unwritable w).
  change (resolve w0) with (resolve w).
  destruct (files w !! resolve w input_name) as [text|]; [|discriminate].
  destruct (json_load text) as [data|]; [|discriminate].
  destruct (html_content data) as [page|e]; [|discriminate].
  case_bool_decide as Hw; [discriminate |].
  destruct (encodable page) eqn:Henc; [|discriminate].
  intros [= <-]. cbn [after_dashboard]. unfold after_dashboard.
  simpl. rewrite lookup_insert_eq. now intros [= <-].
Qed.

(** What [create_html_dashboard] returns is the name of the output file. *)
Lemma dashboard_returns_output_name (w w' : world) (f : string) :
  create_html_dashboard w = (Ok f, w') -> f = output_name.
Proof.
  rewrite create_html_dashboard_outcome. unfold dashboard_outcome.
  repeat match goal with
         | |- context [match ?x with _ => _ end] => destruct x
         end; congruence.
Qed.

(** C7: On a successful run [create_html_dashboard] returns the relative
    file name [jira-test-dashboard.html] to [main]; [main] makes it
    absolute against the working directory, and that absolute path, which
    is where the page has been written, is what [main] prints and hands
    to the browser. *)
Theorem main_reports_absolute_location (w w' : world) :
  isabs (cwd w) = true ->
  main w = (Ok tt, w') ->
  let location := abspath w output_name in
  (exists w1,
     create_html_dashboard
       (add_stdout "🚀 Creating comprehensive JIRA UAT testing dashboard..." w)
     = (Ok output_name, w1)) /\
  isabs output_name = false /\
  isabs location = true /\
  (exists data html, html_content data = Ok html /\
                     files w' !! location = Some html) /\
  In ("🌐 Opening dashboard: " +:+ location) (stdout w') /\
  In ("file://" +:+ location) (browser w').
Proof.
  intros Hcwd Hmain location.
  split.
  { rewrite main_is_main_outcome in Hmain. unfold main_outcome in Hmain.
    destruct (create_html_dashboard _) as [[f|e] w1] eqn:E; [|discriminate].
    apply dashboard_returns_output_name in E as Hf. subst f. now exists w1. }
  split; [reflexivity |].
  apply main_success in Hmain
    as (text & data & html & _ & _ & Hhtml & _ & _ & _ & Hfiles & Hout & Hbrowser).
  split; [now apply abspath_isabs |]. split; [|split].
  - exists data, html. split; [exact Hhtml |].
    rewrite Hfiles. apply lookup_insert_eq.
  - exact Hout.
  - rewrite Hbrowser, in_app_iff. simpl. tauto.
Qed.

(** C5: The page written by a successful run is determined by the text of the
    input file: two runs on the same text, in whatever directory and
    with whatever other files, write the same bytes; and a second run
    right after a first succeeds and leaves the files as the first put
    them. *)
Theorem rendering_is_repeatable (w1 w2 w1' w2' : world) (text : string) :
  files w1 !! resolve w1 input_name = Some text ->
  files w2 !! resolve w2 input_name = Some text ->
  main w1 = (Ok tt, w1') ->
  main w2 = (Ok tt, w2') ->
  files w1' !! resolve w1 output_name = files w2' !! resolve w2 output_name /\
  is_Some (files w1' !! resolve w1 output_name) /\
  exists w1'', main w1' = (Ok tt, w1'') /\ files w1'' = files w1'.
Proof.
  intros Hin1 Hin2 Hmain1 Hmain2.
  pose proof (fun page => main_success_encodable w1 w1' page Hmain1) as Henc.
  apply main_success in Hmain1
    as (t1 & d1 & h1 & Ht1 & Hd1 & Hh1 & Hw1 & Hcwd1 & Hun1 & Hf1 & _ & _).
  apply main_success in Hmain2
    as (t2 & d2 & h2 & Ht2 & Hd2 & Hh2 & _ & _ & _ & Hf2 & _ & _).
  assert (t1 = text) as -> by congruence.
  assert (t2 = text) as -> by congruence.
  assert (d2 = d1) as -> by congruence.
  assert (h2 = h1) as -> by congruence.
  split; [|split].
  - rewrite Hf1, Hf2, !lookup_insert_eq. reflexivity.
  - rewrite Hf1, lookup_insert_eq. now eexists.
  - specialize (Henc h1). rewrite Hf1, lookup_insert_eq in Henc.
    specialize (Henc eq_refl).
    assert (Hres : forall name, resolve w1' name = resolve w1 name).
    { intros name. unfold resolve. now rewrite Hcwd1. }
    destruct (main w1') as [r w1''] eqn:Hmain.
    rewrite main_is_main_outcome in Hmain. unfold main_outcome in Hmain.
    rewrite create_html_dashboard_outcome in Hmain. unfold dashboard_outcome in Hmain.
    revert Hmain. set (w0 := add_stdout _ w1').
    change (files w0) with (files w1'). change (unwritable w0) with (unwritable w1').
    change (resolve w0) with (resolve w1').
    rewrite !Hres, Hun1, Hf1.
    rewrite lookup_insert_ne by (apply not_eq_sym, resolve_input_output).
    rewrite Ht1. unfold json_load. rewrite Hd1, Hh1.
    case_bool_decide; [contradiction |].
    rewrite Henc.
    intros [= <- <-]. eexists. split; [reflexivity |].
    simpl. apply insert_insert_eq.
Qed.
End RunProperties.

(** ** The script's aggregation *)

Section Aggregation.
Import Viewer.


Lemma seen_in_In (c : string) (cs : list string) :
  seen_in c cs = true <-> In c cs.
Proof.
  unfold seen_in. rewrite existsb_exists. split.
  - intros (x & Hx & E). apply String.eqb_eq in E. now subst.
  - intros Hc. exists c. split; [assumption | apply String.eqb_refl].
Qed.

Lemma seen_in_app (c : string) (l1 l2 : list string) :
  seen_in c (l1 ++ l2) = seen_in c l1 || seen_in c l2.
Proof. apply existsb_app. Qed.

Lemma first_seen_snoc (seen cs : list string) (c : string) :
  first_seen seen (cs ++ [c]) =
  (first_seen seen cs ++
   (if seen_in c seen || seen_in c cs then [] else [c]))%list.
Proof.
  revert seen. induction cs as [|d cs IH]; intros seen; simpl.
  - fold (seen_in c seen). rewrite orb_false_r.
    now destruct (seen_in c seen).
  - fold (seen_in d seen). destruct (seen_in d seen) eqn:Ed.
    + rewrite IH. destruct (String.eqb c d) eqn:Ecd; [|reflexivity].
      apply String.eqb_eq in Ecd as ->. rewrite Ed. reflexivity.
    + simpl. rewrite IH. f_equal. f_equal. simpl.
      fold (seen_in c seen). destruct (String.eqb c d); simpl;
        [now rewrite orb_true_r | reflexivity].
Qed.

Lemma first_seen_subset (seen cs : list string) (c : string) :
  In c (first_seen seen cs) -> In c cs.
Proof.
  revert seen. induction cs as [|d cs IH]; intros seen; simpl; [trivial |].
  destruct (existsb _ seen).
  - intros Hc. right. eauto.
  - intros [-> | Hc]; [now left | right; eauto].
Qed.

Lemma own_app (k : string) (o o' : object) :
  own k (o ++ o')%list = match own k o with Some t => Some t | None => own k o' end.
Proof.
  induction o as [|[k' t] o IH]; simpl; [reflexivity |].
  now destruct (String.eqb k k').
Qed.

Lemma own_None_keys (k : string) (o : object) :
  own k o = None <-> seen_in k (map fst o) = false.
Proof.
  induction o as [|[k' t] o IH]; simpl; [tauto |].
  destruct (String.eqb k k'); simpl; [split; discriminate | exact IH].
Qed.

Lemma accumulate_keys (k : string) (x y : number) (o : object) :
  map fst (accumulate k x y o) = map fst o.
Proof.
  induction o as [|[k' t] o IH]; simpl; [reflexivity |].
  destruct (String.eqb k k'); simpl; [reflexivity | now rewrite IH].
Qed.

Lemma own_accumulate (k c : string) (x y : number) (o : object) :
  own c (accumulate k x y o) =
  if String.eqb c k
  then match own k o with
       | Some t => Some (Totals (add (total t) x) (add (passed_sum t) y))
       | None => None
       end
  else own c o.
Proof.
  induction o as [|[k' t] o IH].
  - simpl. now destruct (String.eqb c k).
  - cbn [accumulate own]. destruct (String.eqb_spec k k') as [<-|Hk].
    + cbn [own]. now destruct (String.eqb c k).
    + cbn [own]. rewrite IH.
      destruct (String.eqb_spec c k') as [->|Hc].
      * destruct (String.eqb_spec k' k) as [->|_]; [contradiction | reflexivity].
      * reflexivity.
Qed.

Lemma sum_of_snoc (f : suite -> Z) (l : list suite) (s : suite) :
  sum_of f (l ++ [s]) = add (sum_of f l) (of_Z (f s)).
Proof. unfold sum_of. now rewrite fold_left_app. Qed.

Lemma in_category_snoc (c : string) (l : list suite) (s : suite) :
  in_category c (l ++ [s]) =
  (in_category c l ++ if String.eqb (category s) c then [s] else [])%list.
Proof.
  unfold in_category. rewrite List.filter_app. simpl.
  now destruct (String.eqb (category s) c).
Qed.

Lemma in_category_unseen (c : string) (l : list suite) :
  seen_in c (map category l) = false -> in_category c l = [].
Proof.
  induction l as [|s l IH]; simpl; [reflexivity |].
  rewrite orb_false_iff, (String.eqb_sym c). intros [-> Hl]. auto.
Qed.

Lemma categories_snoc (l : list suite) (s : suite) :
  categories (l ++ [s]) = visit (categories l) s.
Proof. unfold categories. now rewrite fold_left_app. Qed.

(** What [categories] holds after the loop, when no category bears a
    name inherited from [Object.prototype]: one entry per category, in
    the order of first appearance, with the running sums of its suites. *)
Lemma categories_spec (l : list suite) :
  Forall (fun s => inherited (category s) = false) l ->
  map fst (categories l) = first_seen [] (map category l) /\
  forall c,
    own c (categories l) =
    if seen_in c (map category l)
    then Some (Totals (sum_of tests (in_category c l))
                      (sum_of passed (in_category c l)))
    else None.
Proof.
  induction l as [|s l IH] using rev_ind; intros Hall.
  - split; [reflexivity | intros c; reflexivity].
  - apply Forall_app in Hall as [Hl Hs]. apply Forall_cons in Hs as [Hs _].
    destruct (IH Hl) as [Hkeys Hown]. clear IH.
    rewrite categories_snoc, map_app. simpl map.
    unfold visit. unfold absent. rewrite Hs. simpl negb.
    rewrite first_seen_snoc. simpl seen_in at 1. simpl orb.
    split.
    + rewrite accumulate_keys.
      rewrite (Hown (category s)).
      destruct (seen_in (category s) (map category l)) eqn:Eseen.
      * rewrite Hkeys. now rewrite app_nil_r.
      * unfold define. rewrite map_app, Hkeys. reflexivity.
    + intros c. rewrite own_accumulate, seen_in_app. simpl seen_in at 2.
      rewrite orb_false_r, !in_category_snoc.
      rewrite (String.eqb_sym (category s) c).
      destruct (String.eqb c (category s)) eqn:Ec.
      * apply String.eqb_eq in Ec as ->. rewrite orb_true_r, !sum_of_snoc.
        rewrite (Hown (category s)).
        destruct (seen_in (category s) (map category l)) eqn:Eseen.
        -- rewrite Hown, Eseen. reflexivity.
        -- unfold define. rewrite own_app, Hown, Eseen. simpl.
           rewrite String.eqb_refl.
           rewrite (in_category_unseen _ _ Eseen). reflexivity.
      * rewrite orb_false_r, !app_nil_r.
        destruct (own (category s) (categories l)); [apply Hown |].
        unfold define. rewrite own_app, Hown.
        destruct (seen_in c (map category l)); [reflexivity |].
        simpl. rewrite Ec. reflexivity.
Qed.
End Aggregation.

(** ** Binary64 arithmetic on counts *)

Section Binary64.
Import Viewer.


Lemma digits_pos_bounds (p : positive) :
  2 ^ (Z.pos (digits2_pos p) - 1) <= Z.pos p < 2 ^ Z.pos (digits2_pos p).
Proof.
  induction p as [p IH|p IH|]; simpl digits2_pos.
  - rewrite Pos2Z.inj_succ.
    replace (Z.succ (Z.pos (digits2_pos p)) - 1) with (Z.succ (Z.pos (digits2_pos p) - 1)) by lia.
    rewrite !Z.pow_succ_r by lia. lia.
  - rewrite Pos2Z.inj_succ.
    replace (Z.succ (Z.pos (digits2_pos p)) - 1) with (Z.succ (Z.pos (digits2_pos p) - 1)) by lia.
    rewrite !Z.pow_succ_r by lia. lia.
  - simpl. lia.
Qed.

Lemma digits_bounds (m : Z) :
  0 < m -> 2 ^ (digits m - 1) <= m < 2 ^ digits m.
Proof.
  destruct m as [|p|p]; try lia. intros _. apply digits_pos_bounds.
Qed.

Lemma digits_positive (m : Z) : 0 < m -> 0 < digits m.
Proof. destruct m; simpl; lia. Qed.

Lemma digits_unique (m d : Z) :
  2 ^ (d - 1) <= m < 2 ^ d -> 0 < d -> digits m = d.
Proof.
  intros Hm Hd.
  assert (0 < m) by (pose proof (Z.pow_pos_nonneg 2 (d - 1)); lia).
  pose proof (digits_bounds m H) as Hb. pose proof (digits_positive m H) as Hp.
  destruct (Z.lt_trichotomy (digits m) d) as [Hlt | [Heq | Hgt]]; [|assumption|].
  - assert (2 ^ digits m <= 2 ^ (d - 1)) by (apply Z.pow_le_mono_r; lia). lia.
  - assert (2 ^ d <= 2 ^ (digits m - 1)) by (apply Z.pow_le_mono_r; lia). lia.
Qed.

Lemma digits_shift (m k : Z) :
  0 < m -> 0 <= k -> digits (m * 2 ^ k) = digits m + k.
Proof.
  intros Hm Hk. pose proof (digits_bounds m Hm). pose proof (digits_positive m Hm).
  apply digits_unique; [|lia].
  replace (digits m + k - 1) with (digits m - 1 + k) by lia.
  rewrite !Z.pow_add_r by lia.
  assert (0 < 2 ^ k) by (apply Z.pow_pos_nonneg; lia). nia.
Qed.

Lemma fexp_normal (e : Z) : -1021 <= e -> fexp prec emax e = e - 53.
Proof. unfold fexp, emin, prec, emax. lia. Qed.

(** *** Shifting a mantissa to the right *)

Lemma iter_pos_nat {A} (f : A -> A) (p : positive) (x : A) :
  SpecFloat.iter_pos f p x = Nat.iter (Pos.to_nat p) f x.
Proof.
  revert x. induction p as [p IH|p IH|]; intros x; simpl SpecFloat.iter_pos.
  - rewrite !IH, Pos2Nat.inj_xI.
    replace (S (2 * Pos.to_nat p)) with (S (Pos.to_nat p + Pos.to_nat p)) by lia.
    rewrite Nat.iter_succ_r, Nat.iter_add. reflexivity.
  - rewrite !IH, Pos2Nat.inj_xO.
    replace (2 * Pos.to_nat p)%nat with (Pos.to_nat p + Pos.to_nat p)%nat by lia.
    rewrite Nat.iter_add. reflexivity.
  - reflexivity.
Qed.

Lemma shr_1_m (mrs : shr_record) :
  0 <= shr_m mrs -> shr_m (shr_1 mrs) = shr_m mrs / 2.
Proof.
  destruct mrs as [m r s]. cbn [shr_m]. intros Hm.
  destruct m as [|[p|p|]|p]; cbn [shr_1 shr_m]; try lia; try reflexivity.
  - apply Z.div_unique with (r := 1); lia.
  - apply Z.div_unique with (r := 0); lia.
Qed.

Lemma shr_iter_m (n : nat) (mrs : shr_record) :
  0 <= shr_m mrs ->
  shr_m (Nat.iter n shr_1 mrs) = shr_m mrs / 2 ^ Z.of_nat n.
Proof.
  intros Hm. induction n as [|n IH].
  - simpl. now rewrite Z.div_1_r.
  - simpl Nat.iter. rewrite shr_1_m.
    + rewrite IH, Nat2Z.inj_succ, Z.pow_succ_r by lia.
      rewrite Z.div_div by (try apply Z.pow_pos_nonneg; lia).
      f_equal. lia.
    + rewrite IH. apply Z.div_pos; [lia | apply Z.pow_pos_nonneg; lia].
Qed.

Lemma shr_1_exact (m : Z) :
  0 < m ->
  shr_1 (Build_shr_record (2 * m) false false) = Build_shr_record m false false.
Proof. destruct m; simpl; try lia. reflexivity. Qed.

Lemma shr_iter_exact (n : nat) (m : Z) :
  0 < m ->
  Nat.iter n shr_1 (Build_shr_record (m * 2 ^ Z.of_nat n) false false) =
  Build_shr_record m false false.
Proof.
  intros Hm. revert m Hm. induction n as [|n IH]; intros m Hm.
  - simpl. now rewrite Z.mul_1_r.
  - rewrite Nat.iter_succ_r.
    rewrite Nat2Z.inj_succ, Z.pow_succ_r by lia.
    replace (m * (2 * 2 ^ Z.of_nat n)) with (2 * (m * 2 ^ Z.of_nat n)) by lia.
    rewrite shr_1_exact; [now apply IH |].
    assert (0 < 2 ^ Z.of_nat n) by (apply Z.pow_pos_nonneg; lia). nia.
Qed.

Lemma shr_exact (m e n : Z) :
  0 < m -> 0 <= n ->
  shr (Build_shr_record (m * 2 ^ n) false false) e n =
  (Build_shr_record m false false, e + n).
Proof.
  intros Hm Hn. destruct n as [|p|p]; [| |lia].
  - simpl. now rewrite Z.mul_1_r, Z.add_0_r.
  - unfold shr. rewrite iter_pos_nat.
    rewrite <- (positive_nat_Z p) at 1. now rewrite shr_iter_exact.
Qed.

Lemma shr_floor (mrs : shr_record) (e n : Z) :
  0 <= shr_m mrs -> 0 <= n ->
  shr_m (fst (shr mrs e n)) = shr_m mrs / 2 ^ n /\ snd (shr mrs e n) = e + n.
Proof.
  intros Hm Hn. destruct n as [|p|p]; [| |lia].
  - simpl. rewrite Z.div_1_r. lia.
  - unfold shr. cbn [fst snd]. rewrite iter_pos_nat, shr_iter_m by assumption.
    now rewrite positive_nat_Z.
Qed.

Lemma shr_record_of_loc_m (m : Z) (l : location) :
  shr_m (shr_record_of_loc m l) = m.
Proof. destruct l as [|[ | | ]]; reflexivity. Qed.

Lemma div_pow2_bounds (m d n : Z) :
  0 <= n < d -> 2 ^ (d - 1) <= m < 2 ^ d ->
  2 ^ (d - n - 1) <= m / 2 ^ n < 2 ^ (d - n).
Proof.
  intros Hn Hm.
  assert (Hp : 0 < 2 ^ n) by (apply Z.pow_pos_nonneg; lia).
  replace (d - 1) with (d - n - 1 + n) in Hm by lia.
  replace d with (d - n + n) in Hm at 2 by lia.
  rewrite !Z.pow_add_r in Hm by lia. split.
  - apply Z.div_le_lower_bound; lia.
  - apply Z.div_lt_upper_bound; lia.
Qed.

Lemma round_nearest_even_bounds (m : Z) (l : location) :
  m <= round_nearest_even m l <= m + 1.
Proof.
  destruct l as [|[ | | ]]; simpl; try lia. destruct (Z.even m); lia.
Qed.

(** Rounding a mantissa of at least 53 digits, away from the subnormal
    range and from overflow, gives a finite number whose mantissa has 53
    digits; its exponent is the one that drops the extra digits, or the
    next when rounding carries. *)
Lemma binary_round_aux_normal (sx : bool) (mx ex : Z) (lx : location) :
  0 < mx -> 53 <= digits mx ->
  -1021 <= digits mx + ex -> digits mx + ex <= 1023 ->
  exists m e,
    binary_round_aux prec emax sx mx ex lx = S754_finite sx m e /\
    2 ^ 52 <= Z.pos m < 2 ^ 53 /\
    ex + (digits mx - 53) <= e <= ex + (digits mx - 53) + 1.
Proof.
  intros Hmx Hd Hlo Hhi. unfold binary_round_aux.
  set (n := digits mx - 53).
  assert (Hshift : shr_fexp prec emax mx ex lx =
                   shr (shr_record_of_loc mx lx) ex n).
  { unfold shr_fexp. fold (digits mx). rewrite fexp_normal by lia.
    f_equal. unfold n. lia. }
  rewrite Hshift.
  destruct (shr_floor (shr_record_of_loc mx lx) ex n) as [Hm1 He1];
    [rewrite shr_record_of_loc_m; lia | unfold n; lia |].
  destruct (shr (shr_record_of_loc mx lx) ex n) as [mrs1 e1].
  cbn [fst snd] in Hm1, He1. rewrite shr_record_of_loc_m in Hm1.
  pose proof (digits_bounds mx Hmx) as Hb.
  pose proof (div_pow2_bounds mx (digits mx) n ltac:(unfold n; lia) Hb) as Hm1b.
  replace (digits mx - n - 1) with 52 in Hm1b by (unfold n; lia).
  replace (digits mx - n) with 53 in Hm1b by (unfold n; lia).
  rewrite <- Hm1 in Hm1b.
  pose proof (round_nearest_even_bounds (shr_m mrs1) (loc_of_shr_record mrs1)) as Hr.
  set (m2 := round_nearest_even (shr_m mrs1) (loc_of_shr_record mrs1)) in *.
  assert (Hm2 : 2 ^ 52 <= m2 <= 2 ^ 53) by lia.
  destruct (Z.eq_dec m2 (2 ^ 53)) as [E|NE].
  - rewrite E. unfold shr_fexp.
    replace (Zdigits2 (2 ^ 53)) with 54 by reflexivity.
    rewrite fexp_normal by lia.
    replace (54 + e1 - 53 - e1) with 1 by lia.
    cbn -[Z.pow]. exists (2 ^ 52)%positive, (e1 + 1).
    replace (e1 + 1 <=? emax - prec) with true
      by (symmetry; apply Z.leb_le; unfold emax, prec; lia).
    split; [reflexivity |]. split; [simpl; lia | lia].
  - assert (Hd2 : digits m2 = 53) by (apply digits_unique; lia).
    unfold shr_fexp. fold (digits m2). rewrite Hd2, fexp_normal by lia.
    replace (53 + e1 - 53 - e1) with 0 by lia.
    cbn [shr shr_record_of_loc shr_m].
    destruct m2 as [|p2|p2]; try lia.
    exists p2, e1.
    replace (e1 <=? emax - prec) with true
      by (symmetry; apply Z.leb_le; unfold emax, prec; lia).
    split; [reflexivity |]. split; lia.
Qed.

(** A 53-digit mantissa followed by zeros rounds to itself. *)
Lemma binary_round_aux_exact (sx : bool) (c : positive) (k e : Z) :
  2 ^ 52 <= Z.pos c < 2 ^ 53 -> 0 <= k ->
  -1021 <= 53 + k + e -> e + k <= 971 ->
  binary_round_aux prec emax sx (Z.pos c * 2 ^ k) e loc_Exact =
  S754_finite sx c (e + k).
Proof.
  intros Hc Hk Hlo Hhi. unfold binary_round_aux.
  assert (Hdc : digits (Z.pos c) = 53) by (apply digits_unique; lia).
  assert (Hd : Zdigits2 (Z.pos c * 2 ^ k) = 53 + k).
  { change (digits (Z.pos c * 2 ^ k) = 53 + k).
    rewrite digits_shift by lia. lia. }
  unfold shr_fexp at 1. rewrite Hd, fexp_normal by lia.
  replace (53 + k + e - 53 - e) with k by lia.
  cbn [shr_record_of_loc]. rewrite shr_exact by lia.
  cbn [shr_m loc_of_shr_record round_nearest_even].
  unfold shr_fexp. fold (digits (Z.pos c)). rewrite Hdc, fexp_normal by lia.
  replace (53 + (e + k) - 53 - (e + k)) with 0 by lia.
  cbn [shr shr_record_of_loc shr_m].
  replace (e + k <=? emax - prec) with true
    by (symmetry; apply Z.leb_le; unfold emax, prec; lia).
  reflexivity.
Qed.

Lemma pos_iter_xO (p d : positive) :
  Z.pos (Pos.iter xO p d) = Z.pos p * 2 ^ Z.pos d.
Proof.
  induction d as [|d IH] using Pos.peano_ind.
  - simpl. lia.
  - rewrite Pos.iter_succ, Pos2Z.inj_xO, IH, Pos2Z.inj_succ, Z.pow_succ_r by lia.
    lia.
Qed.

(** [binary_round] on a mantissa and exponent that denote the number of
    a 53-digit mantissa [c] at exponent [ec]. *)
Lemma binary_round_exact (sx : bool) (mx c : positive) (ex ec : Z) :
  2 ^ 52 <= Z.pos c < 2 ^ 53 -> -1000 <= ec <= 971 ->
  (ex <= ec /\ Z.pos mx = Z.pos c * 2 ^ (ec - ex)) \/
  (ec < ex /\ Z.pos c = Z.pos mx * 2 ^ (ex - ec)) ->
  binary_round prec emax sx mx ex = S754_finite sx c ec.
Proof.
  intros Hc Hec Hrepr. unfold binary_round.
  assert (Hdc : digits (Z.pos c) = 53) by (apply digits_unique; lia).
  assert (Hd : Z.pos (digits2_pos mx) + ex = 53 + ec).
  { change (digits (Z.pos mx) + ex = 53 + ec).
    destruct Hrepr as [[Hle E] | [Hlt E]].
    - rewrite E, digits_shift by lia. lia.
    - rewrite E, digits_shift in Hdc by lia. lia. }
  rewrite Hd, fexp_normal by lia. replace (53 + ec - 53) with ec by lia.
  unfold shl_align. destruct Hrepr as [[Hle E] | [Hlt E]].
  - destruct (ec - ex) as [|d|d] eqn:Ed; try lia.
    + rewrite <- (Z.mul_1_r (Z.pos mx)). change 1 with (2 ^ 0) at 1.
      assert (mx = c) as -> by (simpl in E; lia).
      rewrite binary_round_aux_exact by lia. f_equal. lia.
    + rewrite E, binary_round_aux_exact by lia. f_equal. lia.
  - destruct (ec - ex) as [|d|d] eqn:Ed; try lia.
    rewrite pos_iter_xO. replace (Z.pos d) with (ex - ec) by lia.
    rewrite <- E. rewrite <- (Z.mul_1_r (Z.pos c)). change 1 with (2 ^ 0) at 1.
    rewrite binary_round_aux_exact by lia. f_equal. lia.
Qed.

(** The 53-digit mantissa and the exponent of a positive integer below
    [2^53]. *)

Lemma mantissa_bounds (c : Z) :
  0 < c < 2 ^ 53 ->
  Z.pos (mantissa c) = c * 2 ^ (53 - digits c) /\
  2 ^ 52 <= Z.pos (mantissa c) < 2 ^ 53 /\ 1 <= digits c <= 53.
Proof.
  intros Hc. pose proof (digits_bounds c ltac:(lia)) as Hb.
  pose proof (digits_positive c ltac:(lia)) as Hp.
  assert (Hd : digits c <= 53).
  { destruct (Z.le_gt_cases (digits c) 53) as [|Hgt]; [assumption |].
    assert (2 ^ 53 <= 2 ^ (digits c - 1)) by (apply Z.pow_le_mono_r; lia). lia. }
  assert (Hpow : 0 < 2 ^ (53 - digits c)) by (apply Z.pow_pos_nonneg; lia).
  assert (Hm : Z.pos (mantissa c) = c * 2 ^ (53 - digits c)).
  { unfold mantissa. rewrite Z2Pos.id; [reflexivity | nia]. }
  split; [exact Hm |]. split; [|lia]. rewrite Hm.
  assert (E52 : 2 ^ 52 = 2 ^ (digits c - 1) * 2 ^ (53 - digits c)).
  { rewrite <- Z.pow_add_r by lia. f_equal. lia. }
  assert (E53 : 2 ^ 53 = 2 ^ digits c * 2 ^ (53 - digits c)).
  { rewrite <- Z.pow_add_r by lia. f_equal. lia. }
  rewrite E52, E53. split.
  - apply Z.mul_le_mono_nonneg_r; lia.
  - apply Z.mul_lt_mono_pos_r; lia.
Qed.

Lemma of_Z_positive (c : Z) :
  0 < c < 2 ^ 53 -> of_Z c = S754_finite false (mantissa c) (exponent c).
Proof.
  intros Hc. destruct (mantissa_bounds c Hc) as (Hm & Hmb & Hd).
  destruct c as [|p|p]; try lia. unfold of_Z, binary_normalize.
  apply binary_round_exact; [assumption | unfold exponent; lia |].
  unfold exponent. destruct (Z.eq_dec (digits (Z.pos p)) 53) as [E|NE].
  - left. split; [lia |]. rewrite Hm, E. simpl. lia.
  - right. split; [lia |]. rewrite Hm. f_equal. f_equal. lia.
Qed.

Lemma digits_monotone (a b : Z) : 0 < a <= b -> digits a <= digits b.
Proof.
  intros Hab. pose proof (digits_bounds a ltac:(lia)).
  pose proof (digits_bounds b ltac:(lia)).
  destruct (Z.le_gt_cases (digits a) (digits b)) as [|Hgt]; [assumption |].
  assert (2 ^ digits b <= 2 ^ (digits a - 1)).
  { apply Z.pow_le_mono_r; [lia |]. lia. }
  lia.
Qed.

Lemma shl_align_fst (m : positive) (e e' : Z) :
  e' <= e -> Z.pos (fst (shl_align m e e')) = Z.pos m * 2 ^ (e - e').
Proof.
  intros He. unfold shl_align. destruct (e' - e) as [|d|d] eqn:Ed; cbn [fst]; try lia.
  - replace (e - e') with 0 by lia. simpl. lia.
  - rewrite pos_iter_xO. f_equal. f_equal. lia.
Qed.

(** Counts add exactly while the sum stays below [2^53]. *)
Lemma add_of_Z (a b : Z) :
  0 <= a -> 0 <= b -> a + b < 2 ^ 53 ->
  add (of_Z a) (of_Z b) = of_Z (a + b).
Proof.
  intros Ha Hb Hab.
  destruct (Z.eq_dec a 0) as [->|Na].
  { rewrite Z.add_0_l. change (of_Z 0) with (S754_zero false).
    destruct (Z.eq_dec b 0) as [->|Nb]; [reflexivity |].
    rewrite of_Z_positive by lia. reflexivity. }
  destruct (Z.eq_dec b 0) as [->|Nb].
  { rewrite Z.add_0_r. change (of_Z 0) with (S754_zero false).
    rewrite of_Z_positive by lia. reflexivity. }
  rewrite (of_Z_positive a), (of_Z_positive b), (of_Z_positive (a + b)) by lia.
  destruct (mantissa_bounds a ltac:(lia)) as (Hma & Hmab & Hda).
  destruct (mantissa_bounds b ltac:(lia)) as (Hmb & Hmbb & Hdb).
  destruct (mantissa_bounds (a + b) ltac:(lia)) as (Hmc & Hmcb & Hdc).
  pose proof (digits_monotone a (a + b) ltac:(lia)) as Hac.
  pose proof (digits_monotone b (a + b) ltac:(lia)) as Hbc.
  unfold add, SFadd. cbn [cond_Zopp].
  set (ez := Z.min (exponent a) (exponent b)).
  assert (Hez : ez <= exponent a /\ ez <= exponent b /\ ez <= exponent (a + b)
                /\ -52 <= ez <= 0).
  { unfold ez, exponent. lia. }
  rewrite !shl_align_fst by lia. rewrite Hma, Hmb.
  assert (Hsum : a * 2 ^ (53 - digits a) * 2 ^ (exponent a - ez) +
                 b * 2 ^ (53 - digits b) * 2 ^ (exponent b - ez) =
                 (a + b) * 2 ^ (- ez)).
  { rewrite <- !Z.mul_assoc, <- !Z.pow_add_r by (unfold exponent in *; lia).
    replace (53 - digits a + (exponent a - ez)) with (- ez) by (unfold exponent; lia).
    replace (53 - digits b + (exponent b - ez)) with (- ez) by (unfold exponent; lia).
    lia. }
  rewrite Hsum.
  assert (Hpow : 0 < 2 ^ (- ez)) by (apply Z.pow_pos_nonneg; lia).
  assert (Hprod : 0 < (a + b) * 2 ^ (- ez)) by (apply Z.mul_pos_pos; lia).
  destruct ((a + b) * 2 ^ (- ez)) as [|s|s] eqn:Es; try lia.
  unfold binary_normalize. apply binary_round_exact;
    [assumption | unfold exponent; lia |].
  left. split; [lia |]. rewrite Hmc, <- Z.mul_assoc, <- Z.pow_add_r
    by (unfold exponent in *; lia).
  rewrite <- Es. f_equal. f_equal. unfold exponent. lia.
Qed.

Lemma div_eucl_pair (a b : Z) : Z.div_eucl a b = (a / b, a mod b).
Proof. unfold Z.div, Z.modulo. now destruct (Z.div_eucl a b). Qed.

(** The quotient of two positive counts is a finite number with a
    53-digit mantissa. *)
Lemma div_of_Z (p t : Z) :
  0 < p < 2 ^ 53 -> 0 < t < 2 ^ 53 ->
  exists m e, div (of_Z p) (of_Z t) = S754_finite false m e /\
              2 ^ 52 <= Z.pos m < 2 ^ 53 /\ -105 <= e <= 1.
Proof.
  intros Hp Ht. rewrite !of_Z_positive by assumption.
  destruct (mantissa_bounds p Hp) as (_ & Hmp & Hdp).
  destruct (mantissa_bounds t Ht) as (_ & Hmt & Hdt).
  set (mp := mantissa p) in *. set (mt := mantissa t) in *.
  assert (Hep : -52 <= exponent p <= 0) by (unfold exponent; lia).
  assert (Het : -52 <= exponent t <= 0) by (unfold exponent; lia).
  set (ep := exponent p) in *. set (et := exponent t) in *.
  assert (Hcore : SFdiv_core_binary prec emax (Z.pos mp) ep (Z.pos mt) et =
                  (Z.pos mp * 2 ^ 53 / Z.pos mt, ep - et - 53,
                   new_location (Z.pos mt) ((Z.pos mp * 2 ^ 53) mod Z.pos mt))).
  { unfold SFdiv_core_binary.
    change (Zdigits2 (Z.pos mp)) with (digits (Z.pos mp)).
    change (Zdigits2 (Z.pos mt)) with (digits (Z.pos mt)).
    rewrite (digits_unique (Z.pos mp) 53), (digits_unique (Z.pos mt) 53) by lia.
    rewrite fexp_normal by lia.
    replace (Z.min (53 + ep - (53 + et) - 53) (ep - et)) with (ep - et - 53) by lia.
    replace (ep - et - (ep - et - 53)) with 53 by lia.
    cbv zeta. rewrite Z.shiftl_mul_pow2 by lia. rewrite div_eucl_pair. reflexivity. }
  unfold div, SFdiv. rewrite Hcore. cbn [xorb].
  set (qt := Z.pos mp * 2 ^ 53 / Z.pos mt).
  assert (Hq : 2 ^ 52 <= qt < 2 ^ 54).
  { unfold qt. split.
    - apply Z.div_le_lower_bound; lia.
    - apply Z.div_lt_upper_bound; lia. }
  assert (Hdq : 53 <= digits qt <= 54).
  { split.
    - change 53 with (digits (2 ^ 52)). apply digits_monotone. lia.
    - pose proof (digits_bounds qt ltac:(lia)) as Hb.
      destruct (Z.le_gt_cases (digits qt) 54) as [|Hgt]; [assumption |].
      assert (2 ^ 54 <= 2 ^ (digits qt - 1)) by (apply Z.pow_le_mono_r; lia). lia. }
  destruct (binary_round_aux_normal false qt (ep - et - 53)
              (new_location (Z.pos mt) ((Z.pos mp * 2 ^ 53) mod Z.pos mt)))
    as (m & e & Hr & Hm & He); try lia.
  exists m, e. split; [exact Hr |]. split; [exact Hm | lia].
Qed.

(** Such a quotient times [100] is a finite number below [2^62]. *)
Lemma mul_100 (m : positive) (e : Z) :
  2 ^ 52 <= Z.pos m < 2 ^ 53 -> -200 <= e <= 1 ->
  exists m' e', mul (S754_finite false m e) (of_Z 100) = S754_finite false m' e' /\
                Z.pos m' < 2 ^ 53 /\ e' <= e + 8.
Proof.
  intros Hm He.
  change (of_Z 100) with (S754_finite false 7036874417766400 (-46)).
  unfold mul, SFmul. cbn [xorb]. rewrite Pos2Z.inj_mul.
  set (pr := Z.pos m * 7036874417766400).
  assert (Hpr : 2 ^ 104 <= pr < 2 ^ 106) by (unfold pr; lia).
  assert (Hd : 105 <= digits pr <= 106).
  { split.
    - change 105 with (digits (2 ^ 104)). apply digits_monotone. lia.
    - pose proof (digits_bounds pr ltac:(lia)) as Hb.
      destruct (Z.le_gt_cases (digits pr) 106) as [|Hgt]; [assumption |].
      assert (2 ^ 106 <= 2 ^ (digits pr - 1)) by (apply Z.pow_le_mono_r; lia). lia. }
  destruct (binary_round_aux_normal false pr (e + -46) loc_Exact)
    as (m' & e' & Hr & Hm' & He'); try lia.
  exists m', e'. split; [exact Hr |]. split; lia.
Qed.
End Binary64.

(** ** The numeral that [toFixed(1)] prints *)

Section Numerals.
Import Viewer.

Lemma string_of_uint_digits (d : Decimal.uint) :
  all_digits (NilEmpty.string_of_uint d) = true.
Proof. induction d; simpl; auto. Qed.

Lemma str_int_digits (n : Z) :
  0 <= n -> all_digits (str_int n) = true /\ str_int n <> EmptyString.
Proof.
  intros Hn. unfold str_int. destruct n as [|p|p]; [| |lia].
  - split; [reflexivity | discriminate].
  - cbn [Z.to_int NilZero.string_of_int].
    destruct (Pos.to_uint p) eqn:E; cbn [NilZero.string_of_uint];
      try (split; [rewrite <- E; apply string_of_uint_digits | discriminate]).
    split; [reflexivity | discriminate].
Qed.

(** A non-empty string splits into its last character and what precedes. *)
Lemma split_last (s : string) :
  s <> EmptyString ->
  exists a d,
    s = a +:+ String d EmptyString /\
    String.substring 0 (String.length s - 1) s = a /\
    String.substring (String.length s - 1) 1 s = String d EmptyString.
Proof.
  induction s as [|c s IH]; [congruence |]. intros _.
  destruct s as [|c' s'].
  - exists EmptyString, c. repeat split.
  - destruct IH as (a & d & Es & Ea & Ed); [discriminate |].
    exists (String c a), d.
    replace (String.length (String c (String c' s')) - 1)%nat
      with (S (String.length (String c' s') - 1))%nat
      by (cbn [String.length]; lia).
    change (String.substring 0 (S ?n) (String c ?t))
      with (String c (String.substring 0 n t)).
    change (String.substring (S ?n) 1 (String c ?t))
      with (String.substring n 1 t).
    rewrite Ea, Ed. cbn [String.append].
    now rewrite <- Es.
Qed.

Lemma all_digits_app (a b : string) :
  all_digits (a +:+ b) = all_digits a && all_digits b.
Proof.
  induction a as [|c a IH]; cbn [String.append all_digits]; [reflexivity |].
  now rewrite IH, andb_assoc.
Qed.

Lemma digits_point_digit_app (a : string) (d : ascii) :
  a <> EmptyString -> all_digits a = true -> is_digit d = true ->
  digits_point_digit (a +:+ "." +:+ String d EmptyString) = true.
Proof.
  induction a as [|c a IH]; [congruence |]. intros _ Ha Hd.
  cbn [all_digits] in Ha. apply andb_true_iff in Ha as [Hc Ha].
  change (String c a +:+ ?x) with (String c (a +:+ x)).
  cbn [digits_point_digit]. rewrite Hc. cbn [andb].
  destruct a as [|c' a'].
  - cbn [String.append point_digit]. now rewrite Hd.
  - rewrite IH by (assumption || discriminate). apply orb_true_r.
Qed.

Lemma fixed_digits_format (n : Z) :
  0 <= n -> digits_point_digit (fixed_digits n) = true.
Proof.
  intros Hn. destruct (str_int_digits n Hn) as [Hd Hne].
  unfold fixed_digits.
  set (m := if (String.length (str_int n) <=? 1)%nat
            then "0" +:+ str_int n else str_int n).
  assert (Hm : all_digits m = true /\ (2 <= String.length m)%nat).
  { unfold m. destruct (Nat.leb_spec (String.length (str_int n)) 1) as [Hle|Hgt].
    - split; [cbn [String.append all_digits]; now rewrite Hd |].
      destruct (str_int n); [congruence | simpl; lia].
    - split; [assumption | lia]. }
  destruct Hm as [Hmd Hml].
  destruct (split_last m) as (a & d & Em & Ea & Ed).
  { intros E. rewrite E in Hml. simpl in Hml. lia. }
  rewrite Ea, Ed.
  rewrite Em, all_digits_app in Hmd. apply andb_true_iff in Hmd as [Had Hdd].
  cbn [all_digits] in Hdd. rewrite andb_true_r in Hdd.
  apply digits_point_digit_app; try assumption.
  intros ->. rewrite Em in Hml. simpl in Hml. lia.
Qed.

Lemma digit_is_not_minus (c : ascii) :
  is_digit c = true -> Ascii.eqb c "-" = false.
Proof.
  intros Hc. apply Ascii.eqb_neq. intros ->. discriminate.
Qed.

Lemma one_fractional_digit_unsigned (s : string) :
  digits_point_digit s = true -> one_fractional_digit s = true.
Proof.
  destruct s as [|c s]; [discriminate |]. intros Hs.
  unfold one_fractional_digit.
  cbn [digits_point_digit] in Hs. apply andb_true_iff in Hs as [Hc Hs'].
  rewrite (digit_is_not_minus c Hc).
  cbn [digits_point_digit]. now rewrite Hc, Hs'.
Qed.

Lemma nearest_tenths_nonneg (m : positive) (e : Z) : 0 <= nearest_tenths m e.
Proof.
  unfold nearest_tenths. destruct (Z.leb_spec 0 e).
  - assert (0 <= 2 ^ e) by (apply Z.pow_nonneg; lia). nia.
  - apply Z.div_pos; [|apply Z.pow_pos_nonneg; lia].
    assert (0 <= 2 ^ (- e)) by (apply Z.pow_nonneg; lia). lia.
Qed.

(** The rate of a category whose counts are in range prints with one
    fractional digit. *)
Lemma rate_format (p t : Z) :
  0 <= p < 2 ^ 53 -> 0 < t < 2 ^ 53 ->
  exists s, toFixed1 (mul (div (of_Z p) (of_Z t)) (of_Z 100)) = Some s /\
            one_fractional_digit s = true.
Proof.
  intros Hp Ht. destruct (Z.eq_dec p 0) as [->|Np].
  - rewrite (of_Z_positive t) by lia.
    exists (fixed_digits 0). split; reflexivity.
  - destruct (div_of_Z p t) as (m & e & -> & Hm & He); [lia | lia |].
    destruct (mul_100 m e) as (m' & e' & -> & Hm' & He'); [lia | lia |].
    cbn [toFixed1].
    assert (Hbelow : below_1e21 m' e' = true).
    { unfold below_1e21. destruct (Z.leb_spec 0 e'); [|reflexivity].
      apply Z.ltb_lt.
      assert (2 ^ e' <= 2 ^ 9) by (apply Z.pow_le_mono_r; lia).
      assert (0 < 2 ^ e') by (apply Z.pow_pos_nonneg; lia).
      change (10 ^ 21) with 1000000000000000000000.
      change (2 ^ 9) with 512 in *. change (2 ^ 53) with 9007199254740992 in *.
      nia. }
    rewrite Hbelow. eexists. split; [reflexivity |].
    cbn [String.append]. apply one_fractional_digit_unsigned, fixed_digits_format,
      nearest_tenths_nonneg.
Qed.
End Numerals.

(** ** The script element of the page *)

Lemma contains_lt_cons (c : ascii) (s : string) :
  contains "<" (String c s) = Ascii.eqb "<" c || contains "<" s.
Proof.
  cbn [contains starts_with]. now rewrite andb_true_r.
Qed.

Lemma contains_lt_app (a b : string) :
  contains "<" (a +:+ b) = contains "<" a || contains "<" b.
Proof.
  induction a as [|c a IH].
  - change (EmptyString +:+ b) with b. reflexivity.
  - change (String c a +:+ b) with (String c (a +:+ b)).
    now rewrite !contains_lt_cons, IH, orb_assoc.
Qed.

(** Text without [<] is passed on and leaves the tokenizer in the script
    data state. *)
Lemma script_data_passes (x y : string) :
  contains "<" x = false ->
  Html.script_data Html.Data (x +:+ y) =
  match Html.script_data Html.Data y with
  | Some (text, rest) => Some (Html.emitted x +:+ text, rest)
  | None => None
  end.
Proof.
  induction x as [|c x IH]; intros Hx.
  - change (EmptyString +:+ y) with y.
    now destruct (Html.script_data Html.Data y) as [[text rest]|].
  - rewrite contains_lt_cons in Hx. apply orb_false_iff in Hx as [Hc Hx].
    change (String c x +:+ y) with (String c (x +:+ y)).
    cbn [Html.script_data Html.step]. unfold Html.data_step.
    rewrite Ascii.eqb_sym, Hc, (IH Hx).
    destruct (Html.script_data Html.Data y) as [[text rest]|]; [|reflexivity].
    cbn [Html.emitted]. now rewrite append_assoc.
Qed.

Section ScriptElement.
Context `{PyLib}.

Lemma eval_Lit (data : value) (s t : string) : eval_piece data (Lit s) = Ok t -> t = s.
Proof. cbn [eval_piece]. congruence. Qed.

(** The script element of a page whose script fields hold no [<]. *)
Lemma script_element_of_page (data : value) (html : string) :
  html_content data = Ok html ->
  markup_free data script_fields ->
  exists head script x,
    format_pieces data (firstn 38 template) = Ok head /\
    html = head +:+ "    <script>" +:+ script +:+ "</script>" +:+ page_end /\
    Html.script_element (script +:+ "</script>" +:+ page_end) =
      Some (Html.emitted script, ">" +:+ page_end) /\
    get_path data ["testSuiteResults"] = Ok x /\
    occurs_in ("const testSuites = " +:+ json_dumps x +:+ ";") script /\
    Forall (fun line => occurs_in line script) viewer_script_lines.
Proof.
  intros Hs Hfree.
  assert (Hsplit : template =
            (firstn 38 template ++
             [ Lit (piece_text 38);
               Hole ["testExecutionSummary"; "totalPassed"];
               Lit (piece_text 40);
               Hole ["testExecutionSummary"; "totalFailed"];
               Lit (piece_text 42);
               Hole ["failureAnalysis"; "authenticationFailures"];
               Lit (piece_text 44);
               Hole ["failureAnalysis"; "functionalFailures"];
               Lit (piece_text 46);
               Dumps ["testSuiteResults"];
               Lit (piece_text 48) ])%list) by (vm_compute; reflexivity).
  assert (Hfields : script_fields =
            [ Hole ["testExecutionSummary"; "totalPassed"];
              Hole ["testExecutionSummary"; "totalFailed"];
              Hole ["failureAnalysis"; "authenticationFailures"];
              Hole ["failureAnalysis"; "functionalFailures"];
              Dumps ["testSuiteResults"] ]) by (vm_compute; reflexivity).
  unfold markup_free in Hfree. rewrite Hfields in Hfree.
  apply Forall_cons in Hfree as [F39 Hfree].
  apply Forall_cons in Hfree as [F41 Hfree].
  apply Forall_cons in Hfree as [F43 Hfree].
  apply Forall_cons in Hfree as [F45 Hfree].
  apply Forall_cons in Hfree as [F47 _].
  assert (H38 : exists h, piece_text 38 = "    <script>" +:+ h /\
                          contains "<" h = false).
  { exists (String.substring 12 (String.length (piece_text 38) - 12) (piece_text 38)).
    split; vm_compute; reflexivity. }
  assert (H40 : contains "<" (piece_text 40) = false) by (vm_compute; reflexivity).
  assert (H42 : contains "<" (piece_text 42) = false) by (vm_compute; reflexivity).
  assert (H44 : contains "<" (piece_text 44) = false) by (vm_compute; reflexivity).
  assert (H46 : exists a, piece_text 46 = a +:+ "const testSuites = " /\
                          contains "<" a = false).
  { exists (String.substring 0 (String.length (piece_text 46) - 19) (piece_text 46)).
    split; vm_compute; reflexivity. }
  assert (H48 : exists b, piece_text 48 = ";" +:+ b +:+ "</script>" +:+ page_end /\
                          contains "<" b = false /\
                          forallb (fun line => contains line b) viewer_script_lines
                          = true).
  { exists (String.substring 1 (String.length (piece_text 48) - 26) (piece_text 48)).
    repeat split; vm_compute; reflexivity. }
  remember (piece_text 40) as l40 eqn:E40. remember (piece_text 42) as l42 eqn:E42.
  remember (piece_text 44) as l44 eqn:E44.
  destruct H38 as (h & E38 & Hh), H46 as (a & E46 & Ha), H48 as (b & E48 & Hb & Hlines).
  rewrite E38, E46, E48 in Hsplit. clear E38 E40 E42 E44 E46 E48.
  unfold html_content in Hs. rewrite Hsplit in Hs. clear Hsplit Hfields.
  apply format_pieces_app in Hs as (head & tl & Hhead & Htl & ->).
  apply format_pieces_cons in Htl as (t38 & r38 & T38 & Htl & ->).
  apply format_pieces_cons in Htl as (t39 & r39 & T39 & Htl & ->).
  apply format_pieces_cons in Htl as (t40 & r40 & T40 & Htl & ->).
  apply format_pieces_cons in Htl as (t41 & r41 & T41 & Htl & ->).
  apply format_pieces_cons in Htl as (t42 & r42 & T42 & Htl & ->).
  apply format_pieces_cons in Htl as (t43 & r43 & T43 & Htl & ->).
  apply format_pieces_cons in Htl as (t44 & r44 & T44 & Htl & ->).
  apply format_pieces_cons in Htl as (t45 & r45 & T45 & Htl & ->).
  apply format_pieces_cons in Htl as (t46 & r46 & T46 & Htl & ->).
  apply format_pieces_cons in Htl as (t47 & r47 & T47 & Htl & ->).
  apply format_pieces_cons in Htl as (t48 & r48 & T48 & Htl & ->).
  cbn [format_pieces] in Htl. apply Ok_inj in Htl. subst r48.
  apply eval_Lit in T38, T40, T42, T44, T46, T48. subst t38 t40 t42 t44 t46 t48.
  pose proof (F39 _ T39) as H39. pose proof (F41 _ T41) as H41.
  pose proof (F43 _ T43) as H43. pose proof (F45 _ T45) as H45.
  pose proof (F47 _ T47) as H47.
  assert (Hx : exists x, get_path data ["testSuiteResults"] = Ok x /\
                         t47 = json_dumps x).
  { cbn [eval_piece] in T47.
    destruct (get_path data ["testSuiteResults"]) as [x|e]; [|discriminate T47].
    exists x. split; [reflexivity |]. cbn in T47. congruence. }
  destruct Hx as (x & Hx & ->).
  clear T39 T41 T43 T45 T47 F39 F41 F43 F45 F47.
  exists head,
    (h +:+ t39 +:+ l40 +:+ t41 +:+ l42 +:+ t43 +:+ l44 +:+ t45 +:+
     a +:+ "const testSuites = " +:+ json_dumps x +:+ ";" +:+ b), x.
  split; [exact Hhead |]. split.
  { rewrite !append_assoc, append_nil_r. reflexivity. }
  split.
  { unfold Html.script_element. rewrite script_data_passes.
    - assert (Hend : Html.script_data Html.Data ("</script>" +:+ page_end) =
                     Some (EmptyString, ">" +:+ page_end))
        by (vm_compute; reflexivity).
      rewrite Hend. now rewrite append_nil_r.
    - rewrite !contains_lt_app, Hh, H39, H40, H41, H42, H43, H44, H45, Ha, H47, Hb.
      reflexivity. }
  split; [exact Hx |]. split.
  { exists (h +:+ t39 +:+ l40 +:+ t41 +:+ l42 +:+ t43 +:+ l44 +:+ t45 +:+ a), b.
    rewrite !append_assoc. reflexivity. }
  rewrite forallb_forall in Hlines. apply List.Forall_forall. intros line Hin.
  pose proof (Hlines line Hin) as Hline. apply contains_iff in Hline.
  clear -Hline. repeat apply occurs_in_app_r. exact Hline.
Qed.

Lemma script_fields_markup_free (data : value) :
  markup_free data (fields template) -> markup_free data script_fields.
Proof.
  unfold markup_free.
  assert (E : fields template =
              (fields (firstn 38 template) ++ script_fields)%list)
    by (vm_compute; reflexivity).
  rewrite E. intros Hall. now apply Forall_app in Hall as [_ Hall].
Qed.

(** The page of a report that is received runs the script on its
    suites. *)
Lemma received_script_in_page (data : value) (html : string)
    (testSuites : list Viewer.suite) :
  html_content data = Ok html -> received data testSuites ->
  script_in_page data html testSuites.
Proof.
  intros Hs [[_ _ (l & Hl & Hsuites)] Hfree].
  destruct (script_element_of_page data html Hs
              (script_fields_markup_free data Hfree))
    as (head & script & x & Hhead & Hhtml & Hend & Hx & Hlit & Hlines).
  assert (x = VList l) as -> by congruence.
  now exists l, head, script.
Qed.
End ScriptElement.


(** ** The category success rates *)

Section CategoryRates.
Import Viewer.

Lemma count_snoc (f : suite -> Z) (l : list suite) (s : suite) :
  count f (l ++ [s]) = count f l + f s.
Proof.
  unfold count. induction l as [|x l IH]; simpl; [lia | rewrite IH; lia].
Qed.

Lemma count_nonneg (f : suite -> Z) (l : list suite) :
  Forall (fun s => 0 <= f s) l -> 0 <= count f l.
Proof.
  unfold count. induction 1 as [|x l Hx _ IH]; simpl; lia.
Qed.

(** While it stays below [2^53], the running sum of non-negative counts
    is their exact sum. *)
Lemma sum_of_exact (f : suite -> Z) (l : list suite) :
  Forall (fun s => 0 <= f s) l -> count f l < 2 ^ 53 ->
  sum_of f l = of_Z (count f l).
Proof.
  induction l as [|s l IH] using rev_ind; intros Hall Hlt; [reflexivity |].
  apply Forall_app in Hall as [Hl Hs]. apply Forall_cons in Hs as [Hs _].
  pose proof (count_nonneg f l Hl) as Hnn.
  rewrite count_snoc in *. rewrite sum_of_snoc, IH by (assumption || lia).
  apply add_of_Z; lia.
Qed.

Lemma keys_without_index (ks : list string) :
  Forall (fun k => array_index k = None) ks ->
  index_keys ks = [] /\ name_keys ks = ks.
Proof.
  induction 1 as [|k ks Hk _ [Hi Hn]]; simpl; [auto |].
  rewrite Hk, Hi, Hn. auto.
Qed.

Lemma Object_keys_names (o : object) :
  Forall (fun k => array_index k = None) (map fst o) ->
  Object_keys o = map fst o.
Proof.
  intros Hks. unfold Object_keys.
  destruct (keys_without_index _ Hks) as [-> ->]. reflexivity.
Qed.

Lemma in_category_Forall (P : suite -> Prop) (c : string) (l : list suite) :
  Forall P l -> Forall P (in_category c l).
Proof.
  rewrite !List.Forall_forall. intros Hl s Hs.
  apply List.filter_In in Hs as [Hs _]. auto.
Qed.

Lemma categoryData_is_category_rates (testSuites : list suite) :
  Forall ordinary testSuites -> in_range testSuites ->
  categoryData testSuites = category_rates testSuites.
Proof.
  intros Hord Hrange.
  destruct (categories_spec testSuites) as [Hkeys Hown].
  { eapply Forall_impl; [exact Hord |]. now intros s (_ & _ & _ & Hs). }
  assert (Hsub : forall c, In c (first_seen [] (map category testSuites)) ->
                           In c (map category testSuites))
    by (intros c; apply first_seen_subset).
  unfold categoryData, category_rates. rewrite Object_keys_names.
  - rewrite Hkeys. apply map_ext_in. intros c Hc. f_equal.
    apply Hsub in Hc. rewrite Hown.
    rewrite (proj2 (seen_in_In c _) Hc).
    destruct (Hrange c Hc) as [Ht Hp].
    unfold rate, success_rate. cbn [total passed_sum].
    assert (Hfp : Forall (fun s => 0 <= passed s) (in_category c testSuites)).
    { apply in_category_Forall. eapply Forall_impl; [exact Hord |].
      now intros s (_ & Hs & _). }
    assert (Hft : Forall (fun s => 0 <= tests s) (in_category c testSuites)).
    { apply in_category_Forall. eapply Forall_impl; [exact Hord |].
      now intros s (Hs & _). }
    rewrite (sum_of_exact passed), (sum_of_exact tests) by (assumption || lia).
    reflexivity.
  - rewrite Hkeys. apply List.Forall_forall. intros c Hc. apply Hsub in Hc.
    apply in_map_iff in Hc as (s & <- & Hs).
    rewrite List.Forall_forall in Hord. now destruct (Hord s Hs) as (_ & _ & Hi & _).
Qed.

End CategoryRates.

Section RatesInPage.
Context `{PyLib}.
Import Viewer.

(** C1: The page itself holds no rate: it holds the suites and the
    script that computes the rates from them.  For a report that
    follows the schema and none of whose fields puts a [<] into the page
    (so that no text in it ends the script element or hides it), the
    script element of the page, as the browser's tokenizer delimits it,
    holds the suites as the [testSuites] literal and the lines that
    compute the rates.  When moreover the suites have [tests] and
    [passed] that are not negative and categories that are ordinary
    names, and the sums of [tests] and of [passed] per category are
    below [2^53] with at least one test in each category, the script
    computes one entry per category in the order in which the
    categories are first seen; the rate of a category is [toFixed(1)] of
    [passed / tests * 100], taken in binary64 arithmetic on the sums of
    [passed] and of [tests] over the suites of the category, and it is a
    numeral with exactly one fractional digit.  In particular two suites
    of [A] with 5 of 10 passed each and a suite of [B] with 4 of 4
    passed give [50.0] for [A] and [100.0] for [B]. *)
Theorem category_rates_computed (data : value) (testSuites : list suite)
    (html : string) :
  html_content data = Ok html ->
  received data testSuites ->
  Forall ordinary testSuites -> in_range testSuites ->
  script_in_page data html testSuites /\
  categoryData testSuites = category_rates testSuites /\
  Forall (fun entry => exists s, snd entry = Some s /\
                                 one_fractional_digit s = true)
         (categoryData testSuites) /\
  (map (fun s => (category s, tests s, passed s)) testSuites =
     [("A", 10, 5); ("A", 10, 5); ("B", 4, 4)] ->
   categoryData testSuites = [("A", Some "50.0"); ("B", Some "100.0")]).
Proof.
  intros Hs Hrec Hord Hrange.
  pose proof (categoryData_is_category_rates testSuites Hord Hrange) as Heq.
  split; [exact (received_script_in_page data html testSuites Hs Hrec) |].
  split; [exact Heq |]. split.
  - rewrite Heq. unfold category_rates. apply List.Forall_forall.
    intros entry Hin. apply in_map_iff in Hin as (c & <- & Hc).
    apply first_seen_subset in Hc. destruct (Hrange c Hc) as [Ht Hp].
    cbn [snd]. unfold success_rate. apply rate_format; [|lia].
    split; [|lia]. apply count_nonneg, in_category_Forall.
    eapply Forall_impl; [exact Hord |]. now intros s (_ & Hs' & _).
  - clear. intros E.
    destruct testSuites as [|[n1 c1 t1 p1 f1] [|[n2 c2 t2 p2 f2]
                              [|[n3 c3 t3 p3 f3] [|s4 rest]]]];
      try discriminate E.
    cbn [map category tests passed] in E.
    injection E as -> -> -> -> -> -> -> -> ->. reflexivity.
Qed.
End RatesInPage.

(** ** The scenario of the specification *)

Section Scenario.
Context `{PyLib}.

(** C4: For a report with [totalTests] 243, [totalPassed] 200,
    [totalFailed] 43, [totalSuites] 12, [successRate] [82.3%] and the two
    suites of the scenario, the page holds [243], [200], [43], [12] and
    [82.3%], and it holds the two suites as the array literal
    [testSuites] together with the script lines that derive the bar
    chart's labels and the categories' rates from that array.  The labels
    and the rates themselves are not text of the page: evaluated over the
    two suites, the script yields the labels [Login...] and [Cart...] and
    the rates [80.0] for [Auth] and [100.0] for [Commerce]. *)
Theorem scenario_page (data : value) (html : string) :
  get_path data ["testExecutionSummary"; "totalTests"] = Ok (VInt 243) ->
  get_path data ["testExecutionSummary"; "totalPassed"] = Ok (VInt 200) ->
  get_path data ["testExecutionSummary"; "totalFailed"] = Ok (VInt 43) ->
  get_path data ["testExecutionSummary"; "totalSuites"] = Ok (VInt 12) ->
  get_path data ["testExecutionSummary"; "successRate"] = Ok (VStr "82.3%") ->
  get_path data ["testSuiteResults"] = Ok (VList scenario_suites) ->
  html_content data = Ok html ->
  occurs_in "243" html /\ occurs_in "200" html /\ occurs_in "43" html /\
  occurs_in "12" html /\ occurs_in "82.3%" html /\
  json_dumps (VList scenario_suites) =
    q "[{`name`: `Login Suite`, `category`: `Auth`, `tests`: 10, `passed`: 8, `failed`: 2}, {`name`: `Cart Suite`, `category`: `Commerce`, `tests`: 5, `passed`: 5, `failed`: 0}]" /\
  occurs_in ("const testSuites = " +:+ json_dumps (VList scenario_suites) +:+ ";")
            html /\
  occurs_in "labels: testSuites.map(s => s.name.split(' ')[0] + '...')" html /\
  occurs_in "rate: (categories[cat].passed / categories[cat].total * 100).toFixed(1)"
            html /\
  exists suites,
    suites_of_values scenario_suites = Some suites /\
    Viewer.labels suites = ["Login..."; "Cart..."] /\
    Viewer.categoryData suites =
      [("Auth", Some "80.0"); ("Commerce", Some "100.0")].
Proof.
  intros Htotal Hpassed Hfailed Hsuites Hrate Hresults Hs.
  assert (Hfield : forall p x, In (Hole p) template -> get_path data p = Ok x ->
                               occurs_in (py_str x) html)
    by (intros p x Hin Hp; exact (hole_occurs data x html p Hs Hin Hp)).
  repeat match goal with
         | Hp : get_path data ?p = Ok ?x |- occurs_in _ html /\ _ =>
             split; [apply (Hfield p x); [vm_compute; tauto | exact Hp] |];
             clear Hp
         end.
  split; [vm_compute; reflexivity |].
  split; [exact (suites_embedded data _ html Hs Hresults) |].
  split; [eapply literal_occurs; [vm_compute; reflexivity | exact Hs] |].
  split; [eapply literal_occurs; [vm_compute; reflexivity | exact Hs] |].
  eexists. split; [reflexivity |]. split; vm_compute; reflexivity.
Qed.
End Scenario.

(** ** Examples *)

(** The theorems above at the sample report, and the inputs on which the
    page or the script departs from the specification's wording. *)

(** A concrete report is received: it follows the schema and none of
    its fields holds a [<]. *)
Ltac show_received :=
  split;
  [ constructor;
    [ intros p Hp;
      repeat (destruct Hp as [<- | Hp]; [eexists; vm_compute; reflexivity |]);
      destruct Hp
    | eexists; vm_compute; reflexivity
    | eexists; split; vm_compute; reflexivity ]
  | unfold markup_free;
    let l := eval vm_compute in (fields template) in
    change (fields template) with l;
    repeat (constructor;
            [ let t := fresh "t" in
              let Ht := fresh "Ht" in
              intros t Ht; vm_compute in Ht; injection Ht as <-;
              vm_compute; reflexivity |]);
    constructor ].

(** C1, instance: the suite set of the specification's aggregation
    property, in a report. *)
Lemma category_rates_computed_example :
  exists testSuites html,
    @html_content sample_lib aggregation_report = Ok html /\
    @received sample_lib aggregation_report testSuites /\
    Forall ordinary testSuites /\ in_range testSuites /\
    @script_in_page sample_lib aggregation_report html testSuites /\
    Viewer.categoryData testSuites = Viewer.category_rates testSuites /\
    Viewer.categoryData testSuites = [("A", Some "50.0"); ("B", Some "100.0")].
Proof.
  exists [ Viewer.Suite "Login" "A" 10 5 5; Viewer.Suite "Logout" "A" 10 5 5;
           Viewer.Suite "Cart" "B" 4 4 0 ].
  destruct (@html_content sample_lib aggregation_report) as [html|e] eqn:E;
    [|vm_compute in E; discriminate E].
  exists html.
  assert (Hrec : @received sample_lib aggregation_report
            [ Viewer.Suite "Login" "A" 10 5 5; Viewer.Suite "Logout" "A" 10 5 5;
              Viewer.Suite "Cart" "B" 4 4 0 ])
    by show_received.
  assert (Hord : Forall ordinary
            [ Viewer.Suite "Login" "A" 10 5 5; Viewer.Suite "Logout" "A" 10 5 5;
              Viewer.Suite "Cart" "B" 4 4 0 ]).
  { repeat constructor; simpl; lia. }
  assert (Hrange : in_range
            [ Viewer.Suite "Login" "A" 10 5 5; Viewer.Suite "Logout" "A" 10 5 5;
              Viewer.Suite "Cart" "B" 4 4 0 ]).
  { intros c Hc. simpl in Hc.
    destruct Hc as [<- | [<- | [<- | []]]]; vm_compute; repeat split; reflexivity. }
  destruct (@category_rates_computed sample_lib aggregation_report
              _ html E Hrec Hord Hrange)
    as (Hpage & Heq & _ & Hinst).
  split; [reflexivity |]. split; [exact Hrec |]. split; [exact Hord |].
  split; [exact Hrange |]. split; [exact Hpage |]. split; [exact Heq |].
  apply Hinst. reflexivity.
Defined.

(** C1, departure: the category of a single suite without a test gets
    the rate [NaN], which is not a numeral; and the categories [10] and
    [9], first seen in this order, are listed as [9], [10]. *)
Lemma category_rates_departure :
  Viewer.categoryData [Viewer.Suite "Smoke" "A" 0 0 0] = [("A", Some "NaN")] /\
  one_fractional_digit "NaN" = false /\
  Viewer.categoryData [ Viewer.Suite "Nightly" "10" 4 4 0;
                        Viewer.Suite "Weekly" "9" 4 2 2 ]
  = [("9", Some "50.0"); ("10", Some "100.0")] /\
  Viewer.category_rates [ Viewer.Suite "Nightly" "10" 4 4 0;
                          Viewer.Suite "Weekly" "9" 4 2 2 ]
  = [("10", Some "100.0"); ("9", Some "50.0")].
Proof. repeat split; vm_compute; reflexivity. Qed.

(** C2, instance: the scenario's report and its page. *)
Lemma fields_in_page_example :
  exists suites html,
    valid_report scenario suites /\
    @html_content sample_lib scenario = Ok html /\
    occurs_in "243" html /\ occurs_in "82.3%" html /\
    Forall (fun s => occurs_in (Viewer.name s) html /\
                     occurs_in (Viewer.category s) html /\
                     occurs_in (quoted "tests" +:+ ": " +:+ str_int (Viewer.tests s))
                               html)
           suites.
Proof.
  exists [ Viewer.Suite "Login Suite" "Auth" 10 8 2;
           Viewer.Suite "Cart Suite" "Commerce" 5 5 0 ].
  destruct (@html_content sample_lib scenario) as [html|e] eqn:E;
    [|vm_compute in E; discriminate E].
  exists html.
  assert (Hvalid : valid_report scenario
            [ Viewer.Suite "Login Suite" "Auth" 10 8 2;
              Viewer.Suite "Cart Suite" "Commerce" 5 5 0 ]).
  { constructor.
    - apply List.Forall_forall.
      repeat (constructor; [eexists; reflexivity |]). constructor.
    - eexists; reflexivity.
    - eexists. split; reflexivity. }
  destruct (@fields_in_page sample_lib scenario _ html Hvalid E)
    as (Hint & (rate & Hrate & Orate) & Hsuites).
  split; [exact Hvalid |]. split; [reflexivity |].
  split.
  { destruct (Hint ["testExecutionSummary"; "totalTests"] ltac:(simpl; tauto))
      as (z & Hz & Oz).
    vm_compute in Hz. injection Hz as <-. exact Oz. }
  split.
  { vm_compute in Hrate. injection Hrate as <-. exact Orate. }
  apply List.Forall_forall. intros s Hin.
  destruct (Hsuites s Hin) as (_ & _ & Ot & _ & _ & On & Oc).
  simpl in Hin. destruct Hin as [<- | [<- | []]];
    (split; [apply On; reflexivity | split; [apply Oc; reflexivity | exact Ot]]).
Defined.

(** C2, departure: a suite name with a double quote in it is not in the
    page as it is; [json.dumps] writes the quote with a backslash before
    it. *)
Lemma quoted_name_not_verbatim :
  valid_report quoted_report [Viewer.Suite quote_name "Auth" 1 1 0] /\
  exists html,
    @html_content sample_lib quoted_report = Ok html /\
    contains quote_name html = false /\
    contains (json_string quote_name) html = true.
Proof.
  split.
  - constructor.
    + apply List.Forall_forall.
      repeat (constructor; [eexists; reflexivity |]). constructor.
    + eexists; reflexivity.
    + eexists. split; reflexivity.
  - destruct (@html_content sample_lib quoted_report) as [html|e] eqn:E;
      [|vm_compute in E; discriminate E].
    exists html. split; [reflexivity |].
    vm_compute in E. injection E as <-. split; vm_compute; reflexivity.
Qed.

(** C3, instance: the input file holds the empty object. *)
Lemma missing_totalTests_example :
  let w := sample_world "{}" in
  @create_html_dashboard sample_lib w = (Raise (KeyError "testExecutionSummary"), w) /\
  exists w', @main sample_lib w = (Raise (KeyError "testExecutionSummary"), w') /\
             files w' = files w /\ browser w' = browser w.
Proof.
  cbv zeta.
  apply (@missing_totalTests_writes_nothing sample_lib (sample_world "{}") "{}"
           (VDict []) "testExecutionSummary");
    vm_compute; reflexivity.
Defined.

(** C4, instance: the scenario's report. *)
Lemma scenario_page_example :
  exists html,
    @html_content sample_lib scenario = Ok html /\
    occurs_in "243" html /\ occurs_in "200" html /\ occurs_in "43" html /\
    occurs_in "82.3%" html /\
    occurs_in ("const testSuites = " +:+ json_dumps (VList scenario_suites) +:+ ";")
              html.
Proof.
  destruct (@html_content sample_lib scenario) as [html|e] eqn:E;
    [|vm_compute in E; discriminate E].
  exists html. split; [reflexivity |].
  destruct (@scenario_page sample_lib scenario html)
    as (H1 & H2 & H3 & _ & H5 & _ & H7 & _); try reflexivity; [exact E |].
  repeat split; assumption.
Defined.

(** C4, departure: the page of the scenario holds neither the labels
    [Login...] and [Cart...] nor the rate [80.0]; the browser computes
    them when it runs the script. *)
Lemma scenario_labels_not_in_page :
  exists html,
    @html_content sample_lib scenario = Ok html /\
    contains "Login..." html = false /\
    contains "Cart..." html = false /\
    contains "80.0" html = false.
Proof.
  destruct (@html_content sample_lib scenario) as [html|e] eqn:E;
    [|vm_compute in E; discriminate E].
  exists html. split; [reflexivity |].
  vm_compute in E. injection E as <-. repeat split; vm_compute; reflexivity.
Qed.

(** C5, instance: the scenario's report in two directories. *)
Lemma rendering_is_repeatable_example :
  let text := sample_text scenario in
  let w1 := sample_world text in
  let w2 := other_world text in
  exists w1' w2',
    @main sample_lib w1 = (Ok tt, w1') /\
    @main sample_lib w2 = (Ok tt, w2') /\
    files w1' !! resolve w1 output_name = files w2' !! resolve w2 output_name /\
    is_Some (files w1' !! resolve w1 output_name) /\
    exists w1'', @main sample_lib w1' = (Ok tt, w1'') /\ files w1'' = files w1'.
Proof.
  cbv zeta.
  destruct (@main sample_lib (sample_world (sample_text scenario)))
    as [r1 w1'] eqn:E1.
  destruct (@main sample_lib (other_world (sample_text scenario)))
    as [r2 w2'] eqn:E2.
  assert (Hr1 : r1 = Ok tt)
    by (apply (f_equal fst) in E1; vm_compute in E1; symmetry; exact E1).
  assert (Hr2 : r2 = Ok tt)
    by (apply (f_equal fst) in E2; vm_compute in E2; symmetry; exact E2).
  subst r1 r2. exists w1', w2'.
  split; [reflexivity |]. split; [reflexivity |].
  apply (@rendering_is_repeatable sample_lib
           (sample_world (sample_text scenario))
           (other_world (sample_text scenario)) w1' w2' (sample_text scenario));
    [vm_compute; reflexivity | vm_compute; reflexivity | exact E1 | exact E2].
Defined.

(** C6, instance: the input file holds text that is not JSON. *)
Lemma malformed_input_example :
  let w := sample_world "{ totalTests: " in
  @create_html_dashboard sample_lib w = (Raise JSONDecodeError, w) /\
  exists w', @main sample_lib w = (Raise JSONDecodeError, w') /\
             files w' = files w /\ browser w' = browser w.
Proof.
  cbv zeta.
  apply (@malformed_input_fails_before_rendering sample_lib
           (sample_world "{ totalTests: ") "{ totalTests: ");
    vm_compute; reflexivity.
Defined.

(** C7, instance: a run in [/home/qa/reports]. *)
Lemma main_reports_absolute_location_example :
  exists w',
    @main sample_lib (sample_world (sample_text scenario)) = (Ok tt, w') /\
    In "🌐 Opening dashboard: /home/qa/reports/jira-test-dashboard.html"
       (stdout w') /\
    In "file:///home/qa/reports/jira-test-dashboard.html" (browser w').
Proof.
  destruct (@main sample_lib (sample_world (sample_text scenario)))
    as [r w'] eqn:E.
  assert (Hr : r = Ok tt)
    by (apply (f_equal fst) in E; vm_compute in E; symmetry; exact E).
  subst r. exists w'. split; [reflexivity |].
  destruct (@main_reports_absolute_location sample_lib
              (sample_world (sample_text scenario)) w' eq_refl E)
    as (_ & _ & _ & _ & Hout & Hbrowser).
  split; [exact Hout | exact Hbrowser].
Defined.

(** C8, instance: the sample findings resolve, and a report without
    [clsScore] raises [KeyError] for it. *)
Lemma major_findings_keys_required_example :
  Forall (resolves scenario) findings_paths /\
  @html_content sample_lib report_without_clsScore = Raise (KeyError "clsScore").
Proof.
  split.
  - destruct (@html_content sample_lib scenario) as [html|e] eqn:E;
      [|vm_compute in E; discriminate E].
    destruct (@major_findings_keys_required sample_lib scenario) as (_ & Hall & _).
    exact (Hall html E).
  - destruct (@major_findings_keys_required sample_lib report_without_clsScore)
      as (_ & _ & Hmissing).
    apply (Hmissing (major_findings ++ ["performanceIssues"; "clsScore"])%list).
    + vm_compute. tauto.
    + reflexivity.
    + vm_compute. repeat (constructor; [eexists; reflexivity |]). constructor.
Defined.

(** C9, instance: a report with a further top-level key, put first. *)
Lemma page_depends_on_four_keys_example :
  @html_content sample_lib
     (VDict (("generatedAt", VStr "2024-12-19") :: dict_items scenario))
  = @html_content sample_lib (VDict (dict_items scenario)).
Proof.
  apply (@page_depends_on_four_keys sample_lib).
  intros k Hk. simpl in Hk.
  destruct Hk as [<- | [<- | [<- | [<- | []]]]]; reflexivity.
Defined.

(** C10, instance: the page of the report with the quoted name. *)
Lemma fixed_values_example :
  exists html,
    @html_content sample_lib quoted_report = Ok html /\
    occurs_in "1,769%" html /\ occurs_in "Missing" html /\
    occurs_in "Failed" html /\ occurs_in "None" html.
Proof.
  destruct (@html_content sample_lib quoted_report) as [html|e] eqn:E;
    [|vm_compute in E; discriminate E].
  exists html. split; [reflexivity |].
  destruct (@fixed_values_in_every_page sample_lib quoted_report html E)
    as (_ & _ & _ & _ & _ & _ & H1 & H2 & H3 & H4).
  repeat split; assumption.
Defined.

(** ** Outcomes of a run *)

Section RunOutcomes.
Context `{PyLib}.


Lemma lookups_resolve_pieces (data : value) (ps : list piece) :
  Forall (resolves data) (lookups ps) ->
  Forall (fun pc => exists t, eval_piece data pc = Ok t) ps.
Proof.
  induction ps as [|pc ps IH]; intros Hall; [constructor |].
  cbn [lookups] in Hall. constructor.
  - apply eval_piece_ok_iff. intros p Hp. rewrite Hp in Hall.
    now apply Forall_cons in Hall as [Hp' _].
  - apply IH. destruct (piece_path pc); [|exact Hall].
    now apply Forall_cons in Hall as [_ Hrest].
Qed.

(** X1: When the input file does not exist, [create_html_dashboard]
    raises [FileNotFoundError] for [comprehensive-final-report.json]
    and changes nothing; [main] ends with that error after its first
    line, with no file written and no browser opened. *)
Theorem missing_input_raises_FileNotFoundError (w : world) :
  files w !! resolve w input_name = None ->
  create_html_dashboard w = (Raise (FileNotFoundError input_name), w) /\
  main w = (Raise (FileNotFoundError input_name), add_stdout banner w).
Proof.
  intros Hfile. split.
  - rewrite create_html_dashboard_outcome. unfold dashboard_outcome.
    now rewrite Hfile.
  - rewrite main_is_main_outcome. unfold main_outcome. cbv zeta.
    rewrite create_html_dashboard_outcome. unfold dashboard_outcome.
    change (files (add_stdout _ w)) with (files w).
    change (resolve (add_stdout _ w)) with (resolve w).
    now rewrite Hfile.
Qed.

(** X2: When the page renders but the output file cannot be opened for
    writing, [create_html_dashboard] ends with the [OSError] that [open]
    raises for [jira-test-dashboard.html] ([PermissionError],
    [IsADirectoryError] or another, as the reason is) and changes
    nothing: the line that announces the dashboard is not printed.
    [main] ends with that error after its first line and opens no
    browser. *)
Theorem unwritable_output_raises_OSError (w : world) (text : string)
    (data : value) (html : string) :
  files w !! resolve w input_name = Some text ->
  json_loads text = Some data ->
  html_content data = Ok html ->
  resolve w output_name ∈ unwritable w ->
  create_html_dashboard w = (Raise (OSError output_name), w) /\
  main w = (Raise (OSError output_name), add_stdout banner w).
Proof.
  intros Hfile Hload Hhtml Hw.
  assert (Hd : forall w0, files w0 = files w -> cwd w0 = cwd w ->
                          unwritable w0 = unwritable w ->
                          create_html_dashboard w0 =
                          (Raise (OSError output_name), w0)).
  { intros w0 Hf Hc Hu. rewrite create_html_dashboard_outcome.
    unfold dashboard_outcome, resolve. rewrite Hf, Hc, Hu.
    fold (resolve w input_name). fold (resolve w output_name).
    rewrite Hfile. unfold json_load. rewrite Hload, Hhtml.
    now rewrite bool_decide_eq_true_2. }
  split; [now apply Hd |].
  rewrite main_is_main_outcome. unfold main_outcome. cbv zeta.
  now rewrite Hd.
Qed.


(** X4: A successful run leaves the working directory and the
    permissions as they were, stores the rendered page under the output
    path, prints its thirteen lines in order, the second after the file
    is written and the third with the absolute path of the page, and
    hands exactly one URL to the browser: [file://] followed by that
    path. *)
Theorem successful_run_effects (w w' : world) :
  main w = (Ok tt, w') ->
  exists text data html,
    files w !! resolve w input_name = Some text /\
    json_loads text = Some data /\
    html_content data = Ok html /\
    w' = World (cwd w)
               (<[resolve w output_name := html]> (files w))
               (unwritable w)
               (stdout w ++ success_lines (abspath w output_name))
               (browser w ++ ["file://" +:+ abspath w output_name]).
Proof.
  rewrite main_is_main_outcome. unfold main_outcome. cbv zeta.
  rewrite create_html_dashboard_outcome. unfold dashboard_outcome.
  change (files (add_stdout _ w)) with (files w).
  change (unwritable (add_stdout _ w)) with (unwritable w).
  change (resolve (add_stdout _ w)) with (resolve w).
  destruct (files w !! resolve w input_name) as [text|]; [|discriminate].
  unfold json_load. destruct (json_loads text) as [data|] eqn:Hload; [|discriminate].
  destruct (html_content data) as [html|e] eqn:Hhtml; [|discriminate].
  case_bool_decide as Hw; [discriminate |].
  destruct (encodable html); [|discriminate].
  intros [= <-]. exists text, data, html.
  split; [reflexivity |]. split; [exact Hload |]. split; [exact Hhtml |].
  unfold after_dashboard, add_stdout, add_browser, set_files, abspath.
  cbn [fold_left cwd files unwritable stdout browser].
  f_equal. rewrite <- !app_assoc. reflexivity.
Qed.

(** X5: A successful run changes no file but the output file, the input
    file included, and what the output file held before does not matter:
    the same run over any earlier content of the output file ends in the
    same state. *)
Theorem successful_run_replaces_output_only (w w' : world) :
  main w = (Ok tt, w') ->
  (forall path, path <> resolve w output_name ->
                files w' !! path = files w !! path) /\
  files w' !! resolve w input_name = files w !! resolve w input_name /\
  forall old,
    main (set_files (<[resolve w output_name := old]> (files w)) w) = (Ok tt, w').
Proof.
  intros Hmain.
  assert (Hfiles : exists html,
            files w' = <[resolve w output_name := html]> (files w)).
  { apply main_success in Hmain
      as (text & data & html & _ & _ & _ & _ & _ & _ & Hf & _). now exists html. }
  destruct Hfiles as [html Hfiles].
  split; [|split].
  - intros path Hpath. rewrite Hfiles. now apply lookup_insert_ne.
  - rewrite Hfiles. apply lookup_insert_ne, not_eq_sym, resolve_input_output.
  - intros old. revert Hmain.
    set (w0 := set_files _ w).
    rewrite (main_is_main_outcome w), (main_is_main_outcome w0).
    unfold main_outcome. cbv zeta.
    rewrite (create_html_dashboard_outcome (add_stdout _ w)),
      (create_html_dashboard_outcome (add_stdout _ w0)).
    unfold dashboard_outcome.
    change (files (add_stdout _ w)) with (files w).
    change (unwritable (add_stdout _ w)) with (unwritable w).
    change (resolve (add_stdout _ w)) with (resolve w).
    change (files (add_stdout _ w0)) with (<[resolve w output_name := old]> (files w)).
    change (unwritable (add_stdout _ w0)) with (unwritable w).
    change (resolve (add_stdout _ w0)) with (resolve w).
    rewrite lookup_insert_ne by (apply not_eq_sym, resolve_input_output).
    destruct (files w !! resolve w input_name) as [text|]; [|discriminate].
    destruct (json_load text) as [data|]; [|discriminate].
    destruct (html_content data) as [page|]; [|discriminate].
    case_bool_decide; [discriminate |].
    destruct (encodable page); [|discriminate].
    intros [= <-]. f_equal.
    unfold after_dashboard, add_stdout, add_browser, set_files, abspath, w0.
    cbn [fold_left cwd files unwritable stdout browser].
    now rewrite insert_insert_eq.
Qed.


Lemma format_pieces_first_failure (data : value) (ps : list piece) (e : exn) :
  format_pieces data ps = Raise e ->
  exists p, In p (lookups ps) /\ get_path data p = Raise e /\
            Forall (resolves data) (lookups_before p (lookups ps)).
Proof.
  induction ps as [|pc ps IH]; [discriminate |].
  cbn [format_pieces lookups].
  assert (Hstep : forall p0 x,
            piece_path pc = Some p0 -> get_path data p0 = Ok x ->
            format_pieces data ps = Raise e ->
            exists p, In p (p0 :: lookups ps) /\ get_path data p = Raise e /\
                      Forall (resolves data) (lookups_before p (p0 :: lookups ps))).
  { intros p0 x _ Hp0 Hrest. destruct (IH Hrest) as (p & Hin & Hp & Hbefore).
    exists p. split; [now right |]. split; [exact Hp |].
    cbn [lookups_before]. unfold path_eqb. case_bool_decide as Heq.
    - subst p0. congruence.
    - constructor; [now exists x | exact Hbefore]. }
  destruct pc as [s|p0|p0]; cbn [eval_piece piece_path bind].
  - destruct (format_pieces data ps) as [rest|e'] eqn:Hrest; [discriminate |].
    cbn [bind]. intros [= ->]. auto.
  - destruct (get_path data p0) as [x|e'] eqn:Hp0; cbn [bind].
    + destruct (format_pieces data ps) as [rest|e''] eqn:Hrest; [discriminate |].
      cbn [bind]. intros [= ->]. now apply (Hstep p0 x).
    + intros [= ->]. exists p0. split; [now left |]. split; [exact Hp0 |].
      cbn [lookups_before]. unfold path_eqb.
      rewrite bool_decide_eq_true_2 by reflexivity. constructor.
  - destruct (get_path data p0) as [x|e'] eqn:Hp0; cbn [bind].
    + destruct (format_pieces data ps) as [rest|e''] eqn:Hrest; [discriminate |].
      cbn [bind]. intros [= ->]. now apply (Hstep p0 x).
    + intros [= ->]. exists p0. split; [now left |]. split; [exact Hp0 |].
      cbn [lookups_before]. unfold path_eqb.
      rewrite bool_decide_eq_true_2 by reflexivity. constructor.
Qed.

(** X7: Rendering fails with an error exactly when that error is the
    one of the first lookup of the template, in the order of the
    f-string's fields, that fails on the document: every lookup before
    it has resolved.  A document that lacks several keys is reported by
    the first of them that the template reads. *)
Theorem rendering_error_is_the_first_failure (data : value) (e : exn) :
  html_content data = Raise e <->
  exists p, In p (lookups template) /\ get_path data p = Raise e /\
            Forall (resolves data) (lookups_before p (lookups template)).
Proof.
  split.
  - apply format_pieces_first_failure.
  - intros (p & Hin & Hp & Hbefore). now apply first_failure with (p := p).
Qed.
End RunOutcomes.

(** ** When rendering succeeds, and where the fields stand *)

Lemma occurs_between (pre sa t sb post : string) :
  occurs_in (sa +:+ t +:+ sb) ((pre +:+ sa) +:+ t +:+ (sb +:+ post)).
Proof.
  exists pre, post. now rewrite !append_assoc.
Qed.

Lemma ends_with_split (sa a : string) :
  String.substring 0 (String.length a - String.length sa) a +:+ sa = a ->
  exists pre, a = pre +:+ sa.
Proof. intros E. eexists. symmetry. exact E. Qed.

Section Placement.
Context `{PyLib}.

(** A run of consecutive pieces of the template, formatted, is part of
    the page. *)
Lemma template_segment (data : value) (html : string) (n : nat)
    (seg : list piece) (t : string) :
  html_content data = Ok html ->
  firstn (length seg) (skipn n template) = seg ->
  format_pieces data seg = Ok t ->
  occurs_in t html.
Proof.
  intros Hs Hseg Ht. unfold html_content in Hs.
  assert (Hsplit : template =
            (firstn n template ++ seg ++
             skipn (length seg) (skipn n template))%list).
  { rewrite <- Hseg at 1. now rewrite !firstn_skipn. }
  rewrite Hsplit in Hs.
  apply format_pieces_segment in Hs as (t' & Ht' & Hocc).
  congruence.
Qed.

(** One field between two literal pieces. *)
Lemma field_between (data x : value) (html : string) (n : nat)
    (p : list string) (sa sb : string) :
  html_content data = Ok html ->
  firstn 3 (skipn n template) =
    [Lit (piece_text n); Hole p; Lit (piece_text (n + 2))] ->
  (exists pre, piece_text n = pre +:+ sa) ->
  starts_with sb (piece_text (n + 2)) = true ->
  get_path data p = Ok x ->
  occurs_in (sa +:+ py_str x +:+ sb) html.
Proof.
  intros Hs Hseg [pre Ha] Hb Hp.
  apply starts_with_iff in Hb as [post Hb].
  eapply occurs_in_trans;
    [| apply (template_segment data html n
                [Lit (piece_text n); Hole p; Lit (piece_text (n + 2))] _ Hs Hseg);
       cbn [format_pieces eval_piece bind]; rewrite Hp; reflexivity].
  cbn [bind]. rewrite Ha, Hb, append_nil_r. apply occurs_between.
Qed.

(** Two fields with a literal piece between them. *)
Lemma fields_between (data x y : value) (html : string) (n : nat)
    (p p' : list string) (sa sm sb : string) :
  html_content data = Ok html ->
  firstn 5 (skipn n template) =
    [Lit (piece_text n); Hole p; Lit sm; Hole p'; Lit (piece_text (n + 4))] ->
  (exists pre, piece_text n = pre +:+ sa) ->
  starts_with sb (piece_text (n + 4)) = true ->
  get_path data p = Ok x ->
  get_path data p' = Ok y ->
  occurs_in (sa +:+ py_str x +:+ sm +:+ py_str y +:+ sb) html.
Proof.
  intros Hs Hseg [pre Ha] Hb Hp Hp'.
  apply starts_with_iff in Hb as [post Hb].
  eapply occurs_in_trans;
    [| apply (template_segment data html n
                [Lit (piece_text n); Hole p; Lit sm; Hole p';
                 Lit (piece_text (n + 4))] _ Hs Hseg);
       cbn [format_pieces eval_piece bind]; rewrite Hp, Hp'; reflexivity].
  cbn [bind]. rewrite Ha, Hb, append_nil_r.
  exists pre, post. now rewrite !append_assoc.
Qed.

Lemma required_fields_are_lookups (p : list string) :
  In p (lookups template) <-> In p required_fields.
Proof.
  split.
  - revert p. apply List.Forall_forall. vm_compute.
    repeat (constructor; [tauto |]). constructor.
  - revert p. apply List.Forall_forall. vm_compute.
    repeat (constructor; [tauto |]). constructor.
Qed.

(** X8: Rendering succeeds exactly when each of the eighteen paths that
    the template looks up resolves in the document: the eight integer
    fields, [successRate], the eight findings and [testSuiteResults].
    Nothing is asked of the values found there. *)
Theorem rendering_succeeds_iff_fields_resolve (data : value) :
  (exists html, html_content data = Ok html) <->
  Forall (resolves data) required_fields.
Proof.
  split.
  - intros [html Hs]. apply List.Forall_forall. intros p Hp.
    apply required_fields_are_lookups in Hp.
    now apply (html_content_lookups data html p).
  - intros Hall. apply format_pieces_ok, lookups_resolve_pieces.
    apply List.Forall_forall. intros p Hp.
    apply required_fields_are_lookups in Hp.
    rewrite List.Forall_forall in Hall. auto.
Qed.

(** X9: A document that is not an object (an array, a string, a number,
    [true], [false] or [null]) makes rendering raise [TypeError], and so
    does an object whose [testExecutionSummary] is not an object. *)
Theorem non_object_raises_TypeError (data : value) :
  ((forall items, data <> VDict items) ->
   html_content data = Raise TypeError) /\
  (forall x, get_path data ["testExecutionSummary"] = Ok x ->
             (forall items, x <> VDict items) ->
             html_content data = Raise TypeError).
Proof.
  split.
  - intros Hdata.
    apply first_failure with (p := ["testExecutionSummary"; "totalTests"]);
      [vm_compute; tauto | | constructor].
    destruct data; try reflexivity. now destruct (Hdata items).
  - intros x Hx Hnot.
    apply first_failure with (p := ["testExecutionSummary"; "totalTests"]);
      [vm_compute; tauto | | constructor].
    cbn [get_path] in *. destruct (subscript data "testExecutionSummary") as [y|e];
      cbn [bind] in *; [|discriminate].
    injection Hx as ->. destruct x; try reflexivity. now destruct (Hnot items).
Qed.

(** X10: The suites reach the page through the [testSuites] literal
    alone: two documents that agree on every other path the template
    looks up give pages that are the same before and after the literal
    that [json.dumps] writes for their suites. *)
Theorem suites_only_in_literal (data data' x x' : value) (html html' : string) :
  (forall p, In p required_fields -> p <> ["testSuiteResults"] ->
             get_path data p = get_path data' p) ->
  get_path data ["testSuiteResults"] = Ok x ->
  get_path data' ["testSuiteResults"] = Ok x' ->
  html_content data = Ok html ->
  html_content data' = Ok html' ->
  exists before after,
    html = before +:+ json_dumps x +:+ after /\
    html' = before +:+ json_dumps x' +:+ after.
Proof.
  intros Hsame Hx Hx' Hs Hs'.
  assert (Hsplit : template =
            (firstn 47 template ++ [Dumps ["testSuiteResults"]] ++
             skipn 48 template)%list) by (vm_compute; reflexivity).
  assert (Hext : forall ps,
            Forall (fun pc => match piece_path pc with
                              | Some p => In p (lookups template) /\
                                          p <> ["testSuiteResults"]
                              | None => True
                              end) ps ->
            format_pieces data ps = format_pieces data' ps).
  { intros ps Hps. apply format_pieces_ext.
    eapply Forall_impl; [exact Hps |]. intros pc Hpc.
    destruct pc as [s|p|p]; cbn [piece_path eval_piece] in *; [reflexivity | |];
      destruct Hpc as [Hin Hne]; apply required_fields_are_lookups in Hin;
      now rewrite (Hsame p Hin Hne). }
  assert (Hside : forall ps, ps = firstn 47 template \/ ps = skipn 48 template ->
            Forall (fun pc => match piece_path pc with
                              | Some p => In p (lookups template) /\
                                          p <> ["testSuiteResults"]
                              | None => True
                              end) ps).
  { intros ps [-> | ->]; vm_compute;
      repeat (constructor;
              [first [exact I | split; [tauto | discriminate]] |]);
      constructor. }
  unfold html_content in Hs, Hs'. rewrite Hsplit in Hs, Hs'.
  apply format_pieces_app in Hs as (a & r & Ha & Hr & ->).
  apply format_pieces_app in Hr as (m & b & Hm & Hb & ->).
  apply format_pieces_app in Hs' as (a' & r' & Ha' & Hr' & ->).
  apply format_pieces_app in Hr' as (m' & b' & Hm' & Hb' & ->).
  rewrite (Hext _ (Hside _ (or_introl eq_refl))) in Ha.
  rewrite (Hext _ (Hside _ (or_intror eq_refl))) in Hb.
  assert (a' = a) as -> by congruence.
  assert (b' = b) as -> by congruence.
  cbn [format_pieces eval_piece bind] in Hm, Hm'.
  rewrite Hx in Hm. rewrite Hx' in Hm'. cbn [bind] in Hm, Hm'.
  apply Ok_inj in Hm, Hm'. subst m m'. rewrite !append_nil_r.
  now exists a, b.
Qed.
End Placement.

(** ** Where each field stands in the page *)

Lemma stat_card_split (class val label : string) :
  stat_card class val label =
  (q "<div class=`stat-number " +:+ class +:+ q "`>") +:+ val +:+
  (q "</div>
                <div class=`stat-label`>" +:+ label +:+ "</div>").
Proof. unfold stat_card. now rewrite !append_assoc. Qed.

Lemma finding_item_split (label val suffix : string) :
  finding_item label (val +:+ suffix) =
  (q "<span class=`finding-label`>" +:+ label +:+ q "</span>
                        <span class=`finding-value`>") +:+ val +:+
  (suffix +:+ "</span>").
Proof. unfold finding_item. now rewrite !append_assoc. Qed.

Lemma substring_prefix (u v : string) :
  String.substring 0 (String.length (u +:+ v) - String.length v) (u +:+ v) = u.
Proof.
  induction u as [|c u IH].
  - cbn [String.append]. rewrite Nat.sub_diag. now destruct v.
  - cbn [String.append String.length].
    replace (S (String.length (u +:+ v)) - String.length v)%nat
      with (S (String.length (u +:+ v) - String.length v))%nat.
    + change (String.substring 0 (S ?n) (String c ?t))
        with (String c (String.substring 0 n t)).
      now rewrite IH.
    + assert (String.length v <= String.length (u +:+ v))%nat; [|lia].
      clear. induction u; cbn [String.append String.length]; lia.
Qed.

Section Places.
Context `{PyLib}.

Ltac field_at data html x p n :=
  apply (field_between data x html n p);
  [ assumption
  | vm_compute; reflexivity
  | apply ends_with_split; vm_compute; reflexivity
  | vm_compute; reflexivity
  | assumption ].

Ltac fields_at data html x y p p' n :=
  apply (fields_between data x y html n p p');
  [ assumption
  | vm_compute; reflexivity
  | apply ends_with_split; vm_compute; reflexivity
  | vm_compute; reflexivity
  | assumption
  | assumption ].

Ltac resolved data html Hs p x Hx :=
  destruct (html_content_lookups data html p Hs ltac:(vm_compute; tauto))
    as [x Hx].

(** X11: Each of the five statistics cards that show a field shows the
    field of [summary_cards] in the row: [totalTests] over Total Tests,
    [totalPassed] over Tests Passed, [totalFailed] over Tests Failed,
    [successRate] over Success Rate and [totalSuites] over Test Suites,
    each formatted by [str]. *)
Theorem summary_cards_show_their_fields (data : value) (html : string) :
  html_content data = Ok html ->
  Forall (fun card =>
            let '(class, p, label) := card in
            exists x, get_path data p = Ok x /\
                      occurs_in (stat_card class (py_str x) label) html)
         summary_cards.
Proof.
  intros Hs. unfold summary_cards.
  repeat (constructor;
          [ match goal with
            | |- exists _, get_path _ ?p = _ /\ _ =>
                let x := fresh "x" in let Hx := fresh "Hx" in
                resolved data html Hs p x Hx; exists x; split; [exact Hx |];
                rewrite stat_card_split;
                first [ field_at data html x p 5%nat
                      | field_at data html x p 7%nat
                      | field_at data html x p 9%nat
                      | field_at data html x p 11%nat
                      | field_at data html x p 13%nat ]
            end |]).
  constructor.
Qed.

(** X12: Each row of the findings panels that shows a field shows the
    key of [finding_rows] in the row; the row labelled Concurrent User
    Success shows [concurrentUserFailures], and the count of SQL
    injection vulnerabilities is followed by the word Found. *)
Theorem finding_rows_show_their_fields (data : value) (html : string) :
  html_content data = Ok html ->
  Forall (fun row =>
            let '(label, key, suffix) := row in
            exists x, get_path data (major_findings ++ key) = Ok x /\
                      occurs_in (finding_item label (py_str x +:+ suffix)) html)
         finding_rows.
Proof.
  intros Hs. unfold finding_rows.
  repeat (constructor;
          [ match goal with
            | |- exists _, get_path _ ?p = _ /\ _ =>
                let x := fresh "x" in let Hx := fresh "Hx" in
                resolved data html Hs p x Hx; exists x; split; [exact Hx |];
                rewrite finding_item_split;
                first [ field_at data html x p 16%nat
                      | field_at data html x p 18%nat
                      | field_at data html x p 20%nat
                      | field_at data html x p 22%nat
                      | field_at data html x p 24%nat
                      | field_at data html x p 26%nat
                      | field_at data html x p 28%nat
                      | field_at data html x p 30%nat ]
            end |]).
  constructor.
Qed.
(** X13: The subtitle shows [totalTests] and [totalSuites], the banner
    under the findings [previousTestCount] and [newTestCount]; the
    doughnut chart's data are [totalPassed] and [totalFailed] in this
    order after the labels Passed and Failed, and the pie chart's data
    are [authenticationFailures] and [functionalFailures] after their
    labels. *)
Theorem paired_fields_in_place (data : value) (html : string) :
  html_content data = Ok html ->
  Forall (fun place =>
            let '(p, p', text) := place in
            exists x y, get_path data p = Ok x /\ get_path data p' = Ok y /\
                        occurs_in (text (py_str x) (py_str y)) html)
         paired_places.
Proof.
  intros Hs. unfold paired_places.
  assert (Hchart : forall labels a b,
            chart_data labels a b =
            String.substring 0 (String.length (chart_data labels "" "") - 4)
                             (chart_data labels "" "")
            +:+ a +:+ ", " +:+ b +:+ "],").
  { intros labels a b.
    assert (Hsplit : forall a' b', exists u,
              u = chart_data labels "" "" /\
              chart_data labels a' b' =
              ("labels: [" +:+ labels +:+ "],
                datasets: [{
                    data: [") +:+ a' +:+ ", " +:+ b' +:+ "],").
    { intros a' b'. eexists. split; [reflexivity |].
      unfold chart_data. now rewrite !append_assoc. }
    destruct (Hsplit "" "") as (u & -> & E0).
    destruct (Hsplit a b) as (u & _ & E1).
    rewrite E1. f_equal. rewrite E0.
    change 4%nat with (String.length ("" +:+ ", " +:+ "" +:+ "],")).
    symmetry. apply substring_prefix. }
  constructor; [|constructor; [|constructor; [|constructor; [|constructor]]]];
    match goal with
    | |- exists _ _, get_path _ ?p = _ /\ get_path _ ?p' = _ /\ _ =>
        let x := fresh "x" in let Hx := fresh "Hx" in
        let y := fresh "y" in let Hy := fresh "Hy" in
        resolved data html Hs p x Hx; resolved data html Hs p' y Hy;
        exists x, y; split; [exact Hx |]; split; [exact Hy |];
        first [ unfold subtitle; fields_at data html x y p p' 1%nat
              | unfold improvement_badge; fields_at data html x y p p' 32%nat
              | rewrite Hchart; fields_at data html x y p p' 38%nat
              | rewrite Hchart; fields_at data html x y p p' 42%nat ]
    end.
Qed.
End Places.

(** ** The text that [json.dumps] writes *)

Lemma all_printable_app (a b : string) :
  all_printable (a +:+ b) = all_printable a && all_printable b.
Proof.
  induction a as [|c a IH]; cbn [String.append all_printable]; [reflexivity |].
  now rewrite IH, andb_assoc.
Qed.

Lemma all_printable_concat (sep : string) (l : list string) :
  all_printable sep = true ->
  Forall (fun s => all_printable s = true) l ->
  all_printable (String.concat sep l) = true.
Proof.
  intros Hsep. induction 1 as [|s l Hs Hl IH]; [reflexivity |].
  destruct l as [|s' l]; [exact Hs |].
  change (String.concat sep (s :: s' :: l))
    with (s +:+ sep +:+ String.concat sep (s' :: l)).
  now rewrite !all_printable_app, Hs, Hsep, IH.
Qed.

Lemma digits_printable (s : string) :
  all_digits s = true -> all_printable s = true.
Proof.
  induction s as [|c s IH]; [reflexivity |].
  cbn [all_digits all_printable]. rewrite !andb_true_iff.
  intros [Hc Hs]. split; [|auto].
  unfold is_digit, printable in *. cbv zeta in *.
  apply andb_true_iff in Hc as [Hlo Hhi].
  apply N.leb_le in Hlo, Hhi. apply andb_true_iff. split; apply N.leb_le; lia.
Qed.

Lemma str_int_printable (z : Z) : all_printable (str_int z) = true.
Proof.
  unfold str_int. destruct z as [|p|p].
  - reflexivity.
  - apply digits_printable. now apply (str_int_digits (Z.pos p)).
  - cbn [Z.to_int NilZero.string_of_int].
    cbn [all_printable]. apply andb_true_iff. split; [reflexivity |].
    apply digits_printable.
    destruct (str_int_digits (Z.pos p)) as [Hd _]; [lia |]. exact Hd.
Qed.

Lemma hex_digit_printable (n : N) : (n < 16)%N -> printable (hex_digit n) = true.
Proof.
  intros Hn. unfold hex_digit, printable. cbv zeta.
  destruct (N.ltb_spec n 10);
    rewrite N_ascii_embedding by lia;
    apply andb_true_iff; split; apply N.leb_le; lia.
Qed.

Lemma hex4_printable (n : N) : all_printable (hex4 n) = true.
Proof.
  unfold hex4. cbn [all_printable].
  rewrite !hex_digit_printable by (apply N.mod_lt; discriminate).
  reflexivity.
Qed.

Lemma escape_code_point_printable (n : N) :
  all_printable (escape_code_point n) = true.
Proof.
  unfold escape_code_point.
  repeat match goal with
         | |- context [if ?b then _ else _] => destruct b eqn:?
         end;
    try reflexivity.
  - apply andb_true_iff in Heqb6 as [Hlo Hhi]. apply N.leb_le in Hlo, Hhi.
    cbn [all_printable]. unfold printable. cbv zeta.
    rewrite N_ascii_embedding by lia.
    apply andb_true_iff. split; [|reflexivity].
    apply andb_true_iff. split; apply N.leb_le; lia.
  - unfold esc. cbn [String.append all_printable].
    now rewrite hex4_printable.
  - cbv zeta. unfold esc. rewrite !all_printable_app.
    cbn [String.append all_printable]. now rewrite !hex4_printable.
Qed.

Lemma json_string_printable (s : string) : all_printable (json_string s) = true.
Proof.
  unfold json_string.
  change (String dquote ?a +:+ ?b) with (String dquote (a +:+ b)).
  cbn [all_printable]. rewrite all_printable_app.
  rewrite all_printable_concat; [reflexivity | reflexivity |].
  apply List.Forall_forall. intros t Ht.
  apply in_map_iff in Ht as (n & <- & _). apply escape_code_point_printable.
Qed.

(** X14: Whatever characters the strings and keys of a document hold,
    the text that [json.dumps] writes for it consists of printable ASCII
    characters only (given that the numerals of its floats do, as
    [repr] of a [float] does): quotes, backslashes and control
    characters are written as escapes, and characters beyond ASCII as
    [\uXXXX] escapes. *)
Theorem json_dumps_printable :
  forall v, floats_printable v = true -> all_printable (json_dumps v) = true.
Proof.
  fix IH 1. intros [| b | z | f | s | l | items] Hv.
  - reflexivity.
  - now destruct b.
  - apply str_int_printable.
  - destruct f as [| [|] | r]; try reflexivity. exact Hv.
  - apply json_string_printable.
  - cbn [json_dumps]. rewrite !all_printable_app.
    rewrite all_printable_concat; [reflexivity | reflexivity |].
    cbn [floats_printable] in Hv. revert Hv.
    induction l as [|x l IHl]; intros Hv; [constructor |].
    cbn [forallb] in Hv. apply andb_true_iff in Hv as [Hx Hl].
    constructor; [exact (IH x Hx) | exact (IHl Hl)].
  - cbn [json_dumps]. rewrite !all_printable_app.
    rewrite all_printable_concat; [reflexivity | reflexivity |].
    cbn [floats_printable] in Hv. revert Hv.
    induction items as [|[k x] items IHl]; intros Hv; [constructor |].
    cbn [forallb snd] in Hv. apply andb_true_iff in Hv as [Hx Hl].
    constructor; [|exact (IHl Hl)].
    rewrite !all_printable_app, json_string_printable, (IH x Hx). reflexivity.
Qed.

Lemma after_literal_hex_digit (n : N) (rest : string) :
  (n < 16)%N -> after_literal (String (hex_digit n) rest) = after_literal rest.
Proof.
  intros Hn. cbn [after_literal].
  assert (Hq : Ascii.eqb (hex_digit n) dquote = false).
  { apply Ascii.eqb_neq. intros E. apply (f_equal N_of_ascii) in E.
    unfold hex_digit in E. change (N_of_ascii dquote) with 34%N in E.
    destruct (N.ltb_spec n 10); rewrite N_ascii_embedding in E by lia; lia. }
  assert (Hb : Ascii.eqb (hex_digit n) backslash = false).
  { apply Ascii.eqb_neq. intros E. apply (f_equal N_of_ascii) in E.
    unfold hex_digit in E. change (N_of_ascii backslash) with 92%N in E.
    destruct (N.ltb_spec n 10); rewrite N_ascii_embedding in E by lia; lia. }
  now rewrite Hq, Hb.
Qed.

Lemma after_literal_hex4 (n : N) (rest : string) :
  after_literal (hex4 n +:+ rest) = after_literal rest.
Proof.
  unfold hex4.
  change (String ?a (String ?b (String ?c (String ?d EmptyString))) +:+ rest)
    with (String a (String b (String c (String d rest)))).
  now rewrite !after_literal_hex_digit by (apply N.mod_lt; discriminate).
Qed.

Lemma after_literal_escape (n : N) (rest : string) :
  after_literal (escape_code_point n +:+ rest) = after_literal rest.
Proof.
  unfold escape_code_point.
  repeat match goal with
         | |- context [if ?b then _ else _] => destruct b eqn:?
         end;
    try reflexivity.
  - apply andb_true_iff in Heqb6 as [Hlo Hhi]. apply N.leb_le in Hlo, Hhi.
    apply N.eqb_neq in Heqb, Heqb0.
    cbn [String.append after_literal].
    assert (Hq : Ascii.eqb (ascii_of_N n) dquote = false).
    { apply Ascii.eqb_neq. intros E. apply (f_equal N_of_ascii) in E.
      rewrite N_ascii_embedding in E by lia. now apply Heqb0. }
    assert (Hb : Ascii.eqb (ascii_of_N n) backslash = false).
    { apply Ascii.eqb_neq. intros E. apply (f_equal N_of_ascii) in E.
      rewrite N_ascii_embedding in E by lia. now apply Heqb. }
    now rewrite Hq, Hb.
  - unfold esc.
    change (String backslash "u" +:+ hex4 n +:+ rest)
      with (String backslash (String "u" (hex4 n +:+ rest))).
    rewrite append_assoc.
    change (after_literal (String backslash (String "u" ?t)))
      with (after_literal t).
    apply after_literal_hex4.
  - cbv zeta. unfold esc. rewrite !append_assoc.
    change (after_literal (String backslash "u" +:+ ?t))
      with (after_literal t).
    rewrite after_literal_hex4.
    change (after_literal (String backslash "u" +:+ ?t))
      with (after_literal t).
    apply after_literal_hex4.
Qed.

Lemma concat_empty_cons (x : string) (l : list string) :
  String.concat "" (x :: l) = x +:+ String.concat "" l.
Proof.
  destruct l as [|y l]; [symmetry; apply append_nil_r | reflexivity].
Qed.

(** Read as JavaScript from its opening double quote, the string
    literal that [json.dumps] writes for a string ends at the double
    quote that [json.dumps] closed it with: the first double quote that
    is not escaped is its last character. *)
Lemma json_string_ends_at_its_quote (s rest : string) :
  exists body,
    json_string s +:+ rest = String dquote body /\
    after_literal body = Some rest.
Proof.
  unfold json_string.
  exists (String.concat "" (map escape_code_point (code_points s))
          +:+ String dquote rest).
  split.
  - change (String dquote ?a +:+ ?b) with (String dquote (a +:+ b)).
    cbn [String.append]. now rewrite append_assoc.
  - induction (code_points s) as [|n l IH].
    + cbn [map String.concat String.append after_literal].
      now rewrite Ascii.eqb_refl.
    + cbn [map]. rewrite concat_empty_cons, append_assoc.
      now rewrite after_literal_escape.
Qed.

Section ScriptElementOfPage.
Context `{PyLib}.

End ScriptElementOfPage.

(** ** The charts that the script draws *)

Section Charts.
Context `{PyLib}.
Import Viewer.

Lemma first_token_spec (s : string) :
  contains " " (first_token s) = false /\
  (s = first_token s \/ exists rest, s = first_token s +:+ " " +:+ rest).
Proof.
  induction s as [|c s [IHc IHs]].
  - split; [reflexivity | now left].
  - cbn [first_token]. destruct (Ascii.eqb_spec c " ") as [->|Hc].
    + split; [reflexivity |]. right. now exists s.
    + split.
      * cbn [contains starts_with]. rewrite IHc, orb_false_r.
        rewrite andb_true_r. apply Ascii.eqb_neq. congruence.
      * destruct IHs as [E | [rest E]].
        -- left. exact (f_equal (String c) E).
        -- right. exists rest. exact (f_equal (String c) E).
Qed.

(** X16: The page of a report that follows the schema and none of whose
    fields puts a [<] into the page holds, in its script element as the
    browser's tokenizer delimits it, the suites and the line of the
    script that computes the labels of the bar chart.  The chart has
    one label per suite, in the order of the suites: the part of the
    suite's name before its first space (the whole name when it has no
    space, nothing when it starts with one), followed by three dots. *)
Theorem labels_are_first_tokens (data : value) (testSuites : list suite)
    (html : string) :
  html_content data = Ok html ->
  received data testSuites ->
  script_in_page data html testSuites /\
  length (labels testSuites) = length testSuites /\
  Forall2 (fun s label =>
             exists token,
               label = token +:+ "..." /\
               contains " " token = false /\
               (name s = token \/
                exists rest, name s = token +:+ " " +:+ rest))
          testSuites (labels testSuites).
Proof.
  intros Hs Hrec.
  split; [exact (received_script_in_page data html testSuites Hs Hrec) |].
  clear Hs Hrec. unfold labels. split; [apply length_map |].
  induction testSuites as [|s l IH]; cbn [map]; constructor; [|exact IH].
  exists (first_token (name s)). split; [reflexivity |].
  apply first_token_spec.
Qed.

Lemma accumulate_no_key (k : string) (x y : number) (o : object) :
  own k o = None -> accumulate k x y o = o.
Proof.
  induction o as [|[k' t] o IH]; cbn [own accumulate]; [reflexivity |].
  destruct (String.eqb k k'); [discriminate |]. intros Ho. now rewrite IH.
Qed.

Lemma own_not_inherited (k : string) (o : object) :
  Forall (fun k' => inherited k' = false) (map fst o) ->
  inherited k = true -> own k o = None.
Proof.
  induction o as [|[k' t] o IH]; cbn [map fst own]; [reflexivity |].
  intros Hall Hk. apply Forall_cons in Hall as [Hk' Hall].
  destruct (String.eqb_spec k k') as [->|_]; [congruence | auto].
Qed.

Lemma visit_keys (o : object) (s : suite) :
  Forall (fun k => inherited k = false) (map fst o) ->
  Forall (fun k => inherited k = false) (map fst (visit o s)).
Proof.
  intros Hall. unfold visit. rewrite accumulate_keys.
  unfold absent. destruct (own (category s) o); [exact Hall |].
  destruct (inherited (category s)) eqn:E; cbn [negb]; [exact Hall |].
  unfold define. rewrite map_app. apply Forall_app. split; [exact Hall |].
  now repeat constructor.
Qed.

Lemma visit_inherited (o : object) (s : suite) :
  Forall (fun k => inherited k = false) (map fst o) ->
  inherited (category s) = true -> visit o s = o.
Proof.
  intros Hall Hs. unfold visit, absent.
  rewrite (own_not_inherited _ _ Hall Hs), Hs. cbn [negb].
  apply accumulate_no_key, own_not_inherited; assumption.
Qed.

Lemma categories_charted (l : list suite) (o : object) :
  Forall (fun k => inherited k = false) (map fst o) ->
  fold_left visit l o = fold_left visit (List.filter charted l) o.
Proof.
  revert o. induction l as [|s l IH]; intros o Hall; [reflexivity |].
  cbn [fold_left List.filter]. unfold charted at 1.
  destruct (inherited (category s)) eqn:E; cbn [negb].
  - rewrite (visit_inherited o s Hall E). now apply IH.
  - cbn [fold_left]. apply IH, visit_keys, Hall.
Qed.

(** X17: The page of a report that follows the schema and none of whose
    fields puts a [<] into the page holds, in its script element as the
    browser's tokenizer delimits it, the suites and the lines of the
    script that compute the radar chart.  A suite whose category bears
    a name that every object inherits from [Object.prototype]
    ([constructor], [toString], [__proto__] and the like) takes no part
    in that chart: the chart is the one of the other suites. *)
Theorem inherited_categories_are_dropped (data : value)
    (testSuites : list suite) (html : string) :
  html_content data = Ok html ->
  received data testSuites ->
  script_in_page data html testSuites /\
  categoryData testSuites = categoryData (List.filter charted testSuites).
Proof.
  intros Hs Hrec.
  split; [exact (received_script_in_page data html testSuites Hs Hrec) |].
  unfold categoryData, categories.
  now rewrite (categories_charted testSuites []) by constructor.
Qed.

Lemma insert_index_perm (n : N) (k : string) (l : list (N * string)) :
  insert_index n k l ≡ₚ (n, k) :: l.
Proof.
  induction l as [|[n' k'] l IH]; cbn [insert_index]; [reflexivity |].
  destruct (n <=? n')%N; [reflexivity |].
  rewrite IH. apply Permutation_swap.
Qed.

Lemma Object_keys_perm (o : object) : Object_keys o ≡ₚ map fst o.
Proof.
  unfold Object_keys. induction (map fst o) as [|k ks IH]; [reflexivity |].
  cbn [index_keys name_keys]. destruct (array_index k) as [n|].
  - rewrite insert_index_perm. cbn [map snd app]. now rewrite IH.
  - rewrite <- Permutation_middle. now rewrite IH.
Qed.

Lemma first_seen_fresh (seen cs : list string) (c : string) :
  In c (first_seen seen cs) -> ~ In c seen.
Proof.
  revert seen. induction cs as [|d cs IH]; intros seen; cbn [first_seen];
    [intros [] |].
  destruct (existsb (String.eqb d) seen) eqn:E.
  - apply IH.
  - intros [<- | Hc].
    + intros Hin. apply (seen_in_In d seen) in Hin.
      unfold seen_in in Hin. congruence.
    + intros Hin. apply (IH _ Hc). now right.
Qed.

Lemma first_seen_NoDup (seen cs : list string) : List.NoDup (first_seen seen cs).
Proof.
  revert seen. induction cs as [|d cs IH]; intros seen; cbn [first_seen];
    [constructor |].
  destruct (existsb (String.eqb d) seen); [apply IH |].
  constructor; [|apply IH].
  intros Hin. apply first_seen_fresh in Hin. apply Hin. now left.
Qed.

Lemma charted_Forall (l : list suite) :
  Forall (fun s => inherited (category s) = false) (List.filter charted l).
Proof.
  apply List.Forall_forall. intros s Hs.
  apply List.filter_In in Hs as [_ Hs]. unfold charted in Hs.
  now apply negb_true_iff in Hs.
Qed.

Lemma name_keys_filter (ks : list string) :
  name_keys ks = List.filter (fun k => negb (is_index k)) ks.
Proof.
  induction ks as [|k ks IH]; [reflexivity |].
  cbn [name_keys List.filter]. unfold is_index at 1.
  destruct (array_index k); cbn [negb]; now rewrite IH.
Qed.

Lemma index_keys_perm (ks : list string) :
  map snd (index_keys ks) ≡ₚ List.filter is_index ks.
Proof.
  induction ks as [|k ks IH]; [reflexivity |].
  cbn [index_keys List.filter]. unfold is_index at 1.
  destruct (array_index k) as [n|]; [|exact IH].
  rewrite insert_index_perm. cbn [map snd]. now rewrite IH.
Qed.

Lemma insert_index_Sorted (n : N) (k : string) (l : list (N * string)) :
  Sorted (fun a b => (fst a <= fst b)%N) l ->
  Sorted (fun a b => (fst a <= fst b)%N) (insert_index n k l).
Proof.
  induction 1 as [|[n' k'] l Hl IH Hhd]; cbn [insert_index].
  - repeat constructor.
  - destruct (N.leb_spec n n') as [Hle | Hlt].
    + constructor; [now constructor |]. constructor. exact Hle.
    + constructor; [exact IH |].
      destruct l as [|[n'' k''] l]; cbn [insert_index].
      * constructor. cbn [fst]. lia.
      * destruct (n <=? n'')%N; constructor; cbn [fst]; [lia |].
        now inversion Hhd.
Qed.

Lemma insert_index_Forall (P : N * string -> Prop) (n : N) (k : string)
    (l : list (N * string)) :
  P (n, k) -> Forall P l -> Forall P (insert_index n k l).
Proof.
  intros Hnk. induction 1 as [|[n' k'] l Hx Hl IH]; cbn [insert_index].
  - now repeat constructor.
  - destruct (n <=? n')%N; repeat constructor; assumption.
Qed.

Lemma index_keys_Sorted (ks : list string) :
  Sorted (fun a b => (fst a <= fst b)%N) (index_keys ks) /\
  Forall (fun nk => array_index (snd nk) = Some (fst nk)) (index_keys ks).
Proof.
  induction ks as [|k ks [IHs IHf]]; cbn [index_keys].
  - split; constructor.
  - destruct (array_index k) as [n|] eqn:E; [|now split].
    split; [now apply insert_index_Sorted |].
    now apply insert_index_Forall.
Qed.

Lemma Sorted_index_le (l : list (N * string)) :
  Sorted (fun a b => (fst a <= fst b)%N) l ->
  Forall (fun nk => array_index (snd nk) = Some (fst nk)) l ->
  Sorted index_le (map snd l).
Proof.
  induction 1 as [|[n k] l Hl IH Hhd]; intros Hall; cbn [map]; [constructor |].
  apply Forall_cons in Hall as [Hk Hall]. cbn [fst snd] in Hk.
  constructor; [exact (IH Hall) |].
  destruct Hhd as [|[n' k'] l Hle]; cbn [map]; constructor.
  apply Forall_cons in Hall as [Hk' _]. cbn [fst snd] in *.
  unfold index_le. now rewrite Hk, Hk'.
Qed.

(** X18: The page of a report that follows the schema and none of whose
    fields puts a [<] into the page holds, in its script element as the
    browser's tokenizer delimits it, the suites and the lines of the
    script that compute the radar chart.  Whatever the categories are
    called, that chart has one axis for each distinct category that is
    not a name inherited from [Object.prototype], and no axis twice.
    The axes are those categories in this order: first the categories
    that are array indices, in ascending numeric order, then the other
    categories in the order in which they are first seen. *)
Theorem radar_axes_are_the_categories (data : value) (testSuites : list suite)
    (html : string) :
  html_content data = Ok html ->
  received data testSuites ->
  script_in_page data html testSuites /\
  radar_labels testSuites ≡ₚ
    first_seen [] (map category (List.filter charted testSuites)) /\
  List.NoDup (radar_labels testSuites) /\
  exists indexed,
    radar_labels testSuites =
      (indexed ++
       List.filter (fun k => negb (is_index k))
         (first_seen [] (map category (List.filter charted testSuites))))%list /\
    indexed ≡ₚ
      List.filter is_index
        (first_seen [] (map category (List.filter charted testSuites))) /\
    Sorted index_le indexed.
Proof.
  intros Hs Hrec.
  split; [exact (received_script_in_page data html testSuites Hs Hrec) |].
  assert (Hc : categories testSuites =
               categories (List.filter charted testSuites))
    by (unfold categories; apply categories_charted; constructor).
  destruct (categories_spec (List.filter charted testSuites)
              (charted_Forall testSuites)) as [Hfst _].
  assert (Hlabels : radar_labels testSuites =
                    Object_keys (categories (List.filter charted testSuites))).
  { unfold radar_labels, categoryData. rewrite map_map. cbn [fst].
    now rewrite map_id, Hc. }
  assert (Hkeys : radar_labels testSuites ≡ₚ
            first_seen [] (map category (List.filter charted testSuites))).
  { now rewrite Hlabels, Object_keys_perm, Hfst. }
  split; [exact Hkeys |]. split.
  { eapply Permutation_NoDup; [symmetry; exact Hkeys | apply first_seen_NoDup]. }
  exists (map snd (index_keys
            (first_seen [] (map category (List.filter charted testSuites))))).
  split; [|split].
  - rewrite Hlabels. unfold Object_keys. now rewrite Hfst, name_keys_filter.
  - apply index_keys_perm.
  - destruct (index_keys_Sorted
                (first_seen [] (map category (List.filter charted testSuites))))
      as [Hsorted Hf].
    now apply Sorted_index_le.
Qed.
End Charts.

(** ** Particular rates *)

Section Rates.
Context `{PyLib}.
Import Viewer.

Lemma first_seen_complete (seen cs : list string) (c : string) :
  In c cs -> In c seen \/ In c (first_seen seen cs).
Proof.
  revert seen. induction cs as [|d cs IH]; intros seen; [intros [] |].
  cbn [first_seen]. intros [-> | Hc].
  - destruct (existsb (String.eqb c) seen) eqn:E.
    + left. now apply (seen_in_In c seen).
    + right. now left.
  - destruct (existsb (String.eqb d) seen) eqn:E; [now apply IH |].
    destruct (IH (d :: seen) Hc) as [[-> | Hin] | Hin].
    + right. now left.
    + now left.
    + right. now right.
Qed.

Lemma categoryData_within_range (testSuites : list suite) :
  Forall ordinary testSuites -> within_range testSuites ->
  categoryData testSuites = category_rates testSuites.
Proof.
  intros Hord Hrange.
  destruct (categories_spec testSuites) as [Hkeys Hown].
  { eapply Forall_impl; [exact Hord |]. now intros s (_ & _ & _ & Hs). }
  assert (Hsub : forall c, In c (first_seen [] (map category testSuites)) ->
                           In c (map category testSuites))
    by (intros c; apply first_seen_subset).
  unfold categoryData, category_rates. rewrite Object_keys_names.
  - rewrite Hkeys. apply map_ext_in. intros c Hc. f_equal.
    apply Hsub in Hc. rewrite Hown.
    rewrite (proj2 (seen_in_In c _) Hc).
    destruct (Hrange c Hc) as [Ht Hp].
    unfold rate, success_rate. cbn [total passed_sum].
    assert (Hfp : Forall (fun s => 0 <= passed s) (in_category c testSuites)).
    { apply in_category_Forall. eapply Forall_impl; [exact Hord |].
      now intros s (_ & Hs & _). }
    assert (Hft : Forall (fun s => 0 <= tests s) (in_category c testSuites)).
    { apply in_category_Forall. eapply Forall_impl; [exact Hord |].
      now intros s (Hs & _). }
    rewrite (sum_of_exact passed), (sum_of_exact tests) by (assumption || lia).
    reflexivity.
  - rewrite Hkeys. apply List.Forall_forall. intros c Hc. apply Hsub in Hc.
    apply in_map_iff in Hc as (s & <- & Hs).
    rewrite List.Forall_forall in Hord. now destruct (Hord s Hs) as (_ & _ & Hi & _).
Qed.

Lemma category_rates_In (testSuites : list suite) (c : string) :
  In c (map category testSuites) ->
  In (c, success_rate c testSuites) (category_rates testSuites).
Proof.
  intros Hc. unfold category_rates.
  apply (in_map (fun c => (c, success_rate c testSuites))).
  destruct (first_seen_complete [] _ c Hc) as [[] | Hin]. exact Hin.
Qed.

Lemma passed_nonneg (testSuites : list suite) (c : string) :
  Forall ordinary testSuites -> 0 <= count passed (in_category c testSuites).
Proof.
  intros Hord. apply count_nonneg, in_category_Forall.
  eapply Forall_impl; [exact Hord |]. now intros s (_ & Hs & _).
Qed.

(** X19: The page of a report that follows the schema and none of whose
    fields puts a [<] into the page holds, in its script element as the
    browser's tokenizer delimits it, the suites and the lines of the
    script that compute the rates.  When the counts are not negative,
    the categories are ordinary names and the sums per category are
    below [2^53], a category whose suites hold no test at all has no
    number for a rate: the chart is given [NaN] when none of its suites
    reports a passed test either, and [Infinity] otherwise. *)
Theorem rate_of_a_category_without_tests (data : value)
    (testSuites : list suite) (html : string) (c : string) :
  html_content data = Ok html ->
  received data testSuites ->
  Forall ordinary testSuites -> within_range testSuites ->
  In c (map category testSuites) ->
  count tests (in_category c testSuites) = 0 ->
  script_in_page data html testSuites /\
  In (c, Some (if count passed (in_category c testSuites) =? 0
               then "NaN" else "Infinity"))
     (categoryData testSuites).
Proof.
  intros Hs Hrec Hord Hrange Hc Ht.
  split; [exact (received_script_in_page data html testSuites Hs Hrec) |].
  rewrite (categoryData_within_range _ Hord Hrange).
  replace (Some (if count passed (in_category c testSuites) =? 0
                 then "NaN" else "Infinity"))
    with (success_rate c testSuites); [now apply category_rates_In |].
  unfold success_rate. rewrite Ht.
  pose proof (passed_nonneg testSuites c Hord) as Hp.
  destruct (Hrange c Hc) as [_ Hlt].
  destruct (Z.eqb_spec (count passed (in_category c testSuites)) 0) as [-> | Hne].
  - reflexivity.
  - rewrite of_Z_positive by lia. reflexivity.
Qed.

Lemma div_self (t : Z) :
  0 < t < 2 ^ 53 ->
  div (of_Z t) (of_Z t) = S754_finite false 4503599627370496 (-52).
Proof.
  intros Ht. rewrite !of_Z_positive by assumption.
  destruct (mantissa_bounds t Ht) as (_ & Hm & Hd).
  set (m := mantissa t) in *.
  assert (He : -52 <= exponent t <= 0) by (unfold exponent; lia).
  set (e := exponent t) in *.
  assert (Hcore : SFdiv_core_binary prec emax (Z.pos m) e (Z.pos m) e =
                  (2 ^ 53, -53, loc_Exact)).
  { unfold SFdiv_core_binary.
    change (Zdigits2 (Z.pos m)) with (digits (Z.pos m)).
    rewrite (digits_unique (Z.pos m) 53) by lia.
    rewrite fexp_normal by lia.
    replace (Z.min (53 + e - (53 + e) - 53) (e - e)) with (-53) by lia.
    replace (e - e - -53) with 53 by lia.
    cbv zeta. rewrite Z.shiftl_mul_pow2 by lia. rewrite div_eucl_pair.
    rewrite (Z.mul_comm (Z.pos m)), Z.div_mul, Z.mod_mul by lia.
    unfold new_location, new_location_even, new_location_odd.
    now destruct (Z.even (Z.pos m)). }
  unfold div, SFdiv. rewrite Hcore. reflexivity.
Qed.

(** X20: The page of a report that follows the schema and none of whose
    fields puts a [<] into the page holds, in its script element as the
    browser's tokenizer delimits it, the suites and the lines of the
    script that compute the rates.  When the counts are not negative,
    the categories are ordinary names and each category has at least
    one test and sums below [2^53], a category none of whose tests
    passed has the rate [0.0], and a category all of whose tests passed
    has the rate [100.0], whatever the number of its tests. *)
Theorem rates_of_all_and_nothing (data : value) (testSuites : list suite)
    (html : string) (c : string) :
  html_content data = Ok html ->
  received data testSuites ->
  Forall ordinary testSuites -> in_range testSuites ->
  In c (map category testSuites) ->
  script_in_page data html testSuites /\
  (count passed (in_category c testSuites) = 0 ->
   In (c, Some "0.0") (categoryData testSuites)) /\
  (count passed (in_category c testSuites) =
   count tests (in_category c testSuites) ->
   In (c, Some "100.0") (categoryData testSuites)).
Proof.
  intros Hs Hrec Hord Hrange Hc.
  split; [exact (received_script_in_page data html testSuites Hs Hrec) |].
  destruct (Hrange c Hc) as [Ht Hp].
  rewrite (categoryData_within_range _ Hord)
    by (intros c' Hc'; destruct (Hrange c' Hc'); split; lia).
  pose proof (category_rates_In testSuites c Hc) as Hin.
  unfold success_rate in Hin.
  split; intros E; rewrite E in Hin.
  - rewrite (of_Z_positive (count tests _)) in Hin by lia. exact Hin.
  - rewrite div_self in Hin by lia. exact Hin.
Qed.
End Rates.

(** ** Rates are percentages *)

Section Percentages.
Import Viewer.

(** Rounding a mantissa of at least 53 digits never goes beyond the next
    mantissa above the digits kept. *)
Lemma binary_round_aux_upper (sx : bool) (mx ex : Z) (lx : location) :
  0 < mx -> 53 <= digits mx ->
  -1021 <= digits mx + ex -> digits mx + ex <= 1023 ->
  exists m e,
    binary_round_aux prec emax sx mx ex lx = S754_finite sx m e /\
    2 ^ 52 <= Z.pos m < 2 ^ 53 /\
    ((e = ex + (digits mx - 53) /\
      Z.pos m <= mx / 2 ^ (digits mx - 53) + 1) \/
     (e = ex + (digits mx - 53) + 1 /\ Z.pos m = 2 ^ 52 /\
      2 ^ 53 <= mx / 2 ^ (digits mx - 53) + 1)).
Proof.
  intros Hmx Hd Hlo Hhi. unfold binary_round_aux.
  set (n := digits mx - 53).
  assert (Hshift : shr_fexp prec emax mx ex lx =
                   shr (shr_record_of_loc mx lx) ex n).
  { unfold shr_fexp. fold (digits mx). rewrite fexp_normal by lia.
    f_equal. unfold n. lia. }
  rewrite Hshift.
  destruct (shr_floor (shr_record_of_loc mx lx) ex n) as [Hm1 He1];
    [rewrite shr_record_of_loc_m; lia | unfold n; lia |].
  destruct (shr (shr_record_of_loc mx lx) ex n) as [mrs1 e1].
  cbn [fst snd] in Hm1, He1. rewrite shr_record_of_loc_m in Hm1.
  pose proof (digits_bounds mx Hmx) as Hb.
  pose proof (div_pow2_bounds mx (digits mx) n ltac:(unfold n; lia) Hb) as Hm1b.
  replace (digits mx - n - 1) with 52 in Hm1b by (unfold n; lia).
  replace (digits mx - n) with 53 in Hm1b by (unfold n; lia).
  rewrite <- Hm1 in Hm1b.
  pose proof (round_nearest_even_bounds (shr_m mrs1) (loc_of_shr_record mrs1)) as Hr.
  set (m2 := round_nearest_even (shr_m mrs1) (loc_of_shr_record mrs1)) in *.
  assert (Hm2 : 2 ^ 52 <= m2 <= 2 ^ 53) by lia.
  destruct (Z.eq_dec m2 (2 ^ 53)) as [E|NE].
  - rewrite E. unfold shr_fexp.
    replace (Zdigits2 (2 ^ 53)) with 54 by reflexivity.
    rewrite fexp_normal by lia.
    replace (54 + e1 - 53 - e1) with 1 by lia.
    cbn -[Z.pow]. exists (2 ^ 52)%positive, (e1 + 1).
    replace (e1 + 1 <=? emax - prec) with true
      by (symmetry; apply Z.leb_le; unfold emax, prec; lia).
    split; [reflexivity |]. split; [simpl; lia |].
    right. rewrite <- Hm1. split; [lia |]. split; [reflexivity | lia].
  - assert (Hd2 : digits m2 = 53) by (apply digits_unique; lia).
    unfold shr_fexp. fold (digits m2). rewrite Hd2, fexp_normal by lia.
    replace (53 + e1 - 53 - e1) with 0 by lia.
    cbn [shr shr_record_of_loc shr_m].
    destruct m2 as [|p2|p2]; try lia.
    exists p2, e1.
    replace (e1 <=? emax - prec) with true
      by (symmetry; apply Z.leb_le; unfold emax, prec; lia).
    split; [reflexivity |]. split; [lia |].
    left. rewrite <- Hm1. split; lia.
Qed.

(** The quotient of a count by a count that is not smaller is at most
    one. *)
Lemma div_at_most_one (p t : Z) :
  0 < p -> p <= t -> t < 2 ^ 53 ->
  exists m e, div (of_Z p) (of_Z t) = S754_finite false m e /\
              2 ^ 52 <= Z.pos m < 2 ^ 53 /\ -105 <= e /\
              ((Z.pos m = 2 ^ 52 /\ e = -52) \/ e <= -53).
Proof.
  intros Hp Hle Ht.
  destruct (Z.eq_dec p t) as [->|Hne].
  { rewrite div_self by lia. eexists _, _. split; [reflexivity |].
    split; [simpl; lia |]. split; [lia |]. left. split; reflexivity. }
  assert (Hp' : 0 < p < 2 ^ 53) by lia.
  assert (Ht' : 0 < t < 2 ^ 53) by lia.
  rewrite !of_Z_positive by assumption.
  destruct (mantissa_bounds p Hp') as (Emp & Hmp & Hdp).
  destruct (mantissa_bounds t Ht') as (Emt & Hmt & Hdt).
  pose proof (digits_monotone p t ltac:(lia)) as Hdig.
  assert (Hsame : digits p = digits t -> Z.pos (mantissa p) < Z.pos (mantissa t)).
  { intros E. rewrite Emp, Emt, E.
    apply Z.mul_lt_mono_pos_r; [apply Z.pow_pos_nonneg; lia | lia]. }
  set (mp := mantissa p) in *. set (mt := mantissa t) in *.
  assert (Hep : -52 <= exponent p <= 0) by (unfold exponent; lia).
  assert (Het : -52 <= exponent t <= 0) by (unfold exponent; lia).
  assert (Hee : exponent p <= exponent t) by (unfold exponent; lia).
  assert (Hsame' : exponent p = exponent t -> Z.pos mp < Z.pos mt)
    by (unfold exponent; intros; apply Hsame; lia).
  set (ep := exponent p) in *. set (et := exponent t) in *.
  assert (Hcore : SFdiv_core_binary prec emax (Z.pos mp) ep (Z.pos mt) et =
                  (Z.pos mp * 2 ^ 53 / Z.pos mt, ep - et - 53,
                   new_location (Z.pos mt) ((Z.pos mp * 2 ^ 53) mod Z.pos mt))).
  { unfold SFdiv_core_binary.
    change (Zdigits2 (Z.pos mp)) with (digits (Z.pos mp)).
    change (Zdigits2 (Z.pos mt)) with (digits (Z.pos mt)).
    rewrite (digits_unique (Z.pos mp) 53), (digits_unique (Z.pos mt) 53) by lia.
    rewrite fexp_normal by lia.
    replace (Z.min (53 + ep - (53 + et) - 53) (ep - et)) with (ep - et - 53) by lia.
    replace (ep - et - (ep - et - 53)) with 53 by lia.
    cbv zeta. rewrite Z.shiftl_mul_pow2 by lia. rewrite div_eucl_pair. reflexivity. }
  unfold div, SFdiv. rewrite Hcore. cbn [xorb].
  set (qt := Z.pos mp * 2 ^ 53 / Z.pos mt).
  assert (Hq : 2 ^ 52 <= qt < 2 ^ 54).
  { unfold qt. split.
    - apply Z.div_le_lower_bound; lia.
    - apply Z.div_lt_upper_bound; lia. }
  assert (Hq' : ep = et -> qt < 2 ^ 53).
  { intros E. unfold qt. apply Z.div_lt_upper_bound; [lia |].
    specialize (Hsame' E). lia. }
  assert (Hdq : 53 <= digits qt <= 54).
  { split.
    - change 53 with (digits (2 ^ 52)). apply digits_monotone. lia.
    - pose proof (digits_bounds qt ltac:(lia)) as Hb.
      destruct (Z.le_gt_cases (digits qt) 54) as [|Hgt]; [assumption |].
      assert (2 ^ 54 <= 2 ^ (digits qt - 1)) by (apply Z.pow_le_mono_r; lia). lia. }
  assert (Hdq' : ep = et -> digits qt = 53).
  { intros E. apply digits_unique; [specialize (Hq' E); lia | lia]. }
  destruct (binary_round_aux_upper false qt (ep - et - 53)
              (new_location (Z.pos mt) ((Z.pos mp * 2 ^ 53) mod Z.pos mt)))
    as (m & e & Hr & Hm & Hcase); try lia.
  exists m, e. split; [exact Hr |]. split; [exact Hm |].
  destruct (Z.eq_dec ep et) as [E|NE].
  - specialize (Hdq' E). rewrite Hdq' in Hcase. lia.
  - lia.
Qed.

(** Such a quotient times [100] is at most [100]. *)
Lemma mul_at_most_100 (m : positive) (e : Z) :
  2 ^ 52 <= Z.pos m < 2 ^ 53 -> -200 <= e ->
  (Z.pos m = 2 ^ 52 /\ e = -52) \/ e <= -53 ->
  exists m' e', mul (S754_finite false m e) (of_Z 100) = S754_finite false m' e' /\
                e' < 0 /\ Z.pos m' <= 100 * 2 ^ (- e').
Proof.
  intros Hm He [[Em ->] | Hlow].
  { assert (m = 4503599627370496%positive) as -> by lia.
    exists 7036874417766400%positive, (-46).
    split; [vm_compute; reflexivity |]. split; [lia |].
    vm_compute. discriminate. }
  change (of_Z 100) with (S754_finite false 7036874417766400 (-46)).
  unfold mul, SFmul. cbn [xorb]. rewrite Pos2Z.inj_mul.
  set (pr := Z.pos m * 7036874417766400).
  assert (Hpr : 2 ^ 104 <= pr < 2 ^ 106) by (unfold pr; lia).
  assert (Hd : 105 <= digits pr <= 106).
  { split.
    - change 105 with (digits (2 ^ 104)). apply digits_monotone. lia.
    - pose proof (digits_bounds pr ltac:(lia)) as Hb.
      destruct (Z.le_gt_cases (digits pr) 106) as [|Hgt]; [assumption |].
      assert (2 ^ 106 <= 2 ^ (digits pr - 1)) by (apply Z.pow_le_mono_r; lia). lia. }
  destruct (binary_round_aux_upper false pr (e + -46) loc_Exact)
    as (m' & e' & Hr & Hm' & Hcase); try lia.
  exists m', e'. split; [exact Hr |].
  assert (Hn : digits pr - 53 = 52 \/ digits pr - 53 = 53) by lia.
  assert (Hfloor : digits pr - 53 = 53 ->
                   pr / 2 ^ (digits pr - 53) + 1 <= 7036874417766400).
  { intros ->.
    assert (pr / 2 ^ 53 < 7036874417766400); [|lia].
    apply Z.div_lt_upper_bound; [lia |]. unfold pr. lia. }
  assert (Hpow : forall k, 0 <= k -> 1 <= 2 ^ k).
  { intros k Hk. change 1 with (2 ^ 0). apply Z.pow_le_mono_r; lia. }
  destruct Hcase as [[-> Hle] | (-> & Em' & Hcarry)].
  - split; [lia |].
    destruct Hn as [En | En]; rewrite En in *.
    + (* the product has 105 digits *)
      replace (- (e + -46 + 52)) with (47 + (- e - 53)) by lia.
      rewrite Z.pow_add_r by lia.
      pose proof (Hpow (- e - 53) ltac:(lia)).
      assert (Z.pos m' < 2 ^ 53) by lia.
      change (2 ^ 47) with 140737488355328.
      change (2 ^ 53) with 9007199254740992 in *. nia.
    + (* the product has 106 digits *)
      specialize (Hfloor eq_refl).
      replace (- (e + -46 + 53)) with (46 + (- e - 53)) by lia.
      rewrite Z.pow_add_r by lia.
      pose proof (Hpow (- e - 53) ltac:(lia)).
      change (2 ^ 46) with 70368744177664. nia.
  - destruct Hn as [En | En]; rewrite En in *.
    + split; [lia |]. rewrite Em'.
      replace (- (e + -46 + 52 + 1)) with (46 + (- e - 53)) by lia.
      rewrite Z.pow_add_r by lia.
      pose proof (Hpow (- e - 53) ltac:(lia)).
      change (2 ^ 46) with 70368744177664. change (2 ^ 52) with 4503599627370496.
      nia.
    + specialize (Hfloor eq_refl). change (2 ^ 53) with 9007199254740992 in *. lia.
Qed.

Lemma count_le (l : list suite) :
  Forall (fun s => passed s <= tests s) l -> count passed l <= count tests l.
Proof.
  unfold count. induction 1 as [|s l Hs _ IH]; simpl; lia.
Qed.

(** X21: When no suite reports more passed tests than tests, every rate
    of the radar chart lies between [0.0] and [100.0]: it is the numeral
    of a whole number of tenths from 0 to 1000.  Rounding in the
    division, in the multiplication by 100 and in [toFixed(1)] never
    takes a rate beyond [100.0]. *)
Theorem rates_are_percentages (testSuites : list suite) :
  Forall ordinary testSuites -> in_range testSuites ->
  Forall (fun s => passed s <= tests s) testSuites ->
  Forall (fun entry => exists n, 0 <= n <= 1000 /\
                                 snd entry = Some (fixed_digits n))
         (categoryData testSuites).
Proof.
  intros Hord Hrange Hle.
  rewrite (categoryData_is_category_rates testSuites Hord Hrange).
  unfold category_rates. apply List.Forall_forall.
  intros entry Hin. apply in_map_iff in Hin as (c & <- & Hc).
  apply first_seen_subset in Hc. destruct (Hrange c Hc) as [Ht Hp].
  cbn [snd]. unfold success_rate.
  pose proof (passed_nonneg testSuites c Hord) as Hnn.
  pose proof (count_le _ (in_category_Forall _ c _ Hle)) as Hpt.
  set (p := count passed (in_category c testSuites)) in *.
  set (t := count tests (in_category c testSuites)) in *.
  destruct (Z.eq_dec p 0) as [->|Np].
  - rewrite (of_Z_positive t) by lia. exists 0. split; [lia | reflexivity].
  - destruct (div_at_most_one p t) as (m & e & -> & Hm & He & Hone); try lia.
    destruct (mul_at_most_100 m e) as (m' & e' & -> & He' & Hm'); try lia.
    cbn [toFixed1]. unfold below_1e21.
    destruct (Z.leb_spec 0 e'); [lia |].
    exists (nearest_tenths m' e'). split; [|reflexivity].
    split; [apply nearest_tenths_nonneg |].
    unfold nearest_tenths. destruct (Z.leb_spec 0 e'); [lia |].
    assert (Hpos : 0 < 2 ^ (- e')) by (apply Z.pow_pos_nonneg; lia).
    assert ((20 * Z.pos m' + 2 ^ (- e')) / 2 ^ (1 - e') < 1001); [|lia].
    apply Z.div_lt_upper_bound; [apply Z.pow_pos_nonneg; lia |].
    replace (1 - e') with (1 + - e') by lia.
    rewrite Z.pow_add_r by lia. change (2 ^ 1) with 2. lia.
Qed.
End Percentages.

(** ** Further examples *)

(** X1, instance: a directory without the input file. *)
Lemma missing_input_example :
  @main sample_lib empty_directory =
  (Raise (FileNotFoundError input_name), add_stdout banner empty_directory).
Proof.
  apply (@missing_input_raises_FileNotFoundError sample_lib empty_directory).
  vm_compute. reflexivity.
Defined.

(** X2, instance: the scenario's report beside an output file that
    cannot be written. *)
Lemma unwritable_output_example :
  let w := locked_world (sample_text scenario) in
  @create_html_dashboard sample_lib w = (Raise (OSError output_name), w) /\
  @main sample_lib w = (Raise (OSError output_name), add_stdout banner w).
Proof.
  cbv zeta.
  destruct (@html_content sample_lib scenario) as [html|e] eqn:E;
    [|vm_compute in E; discriminate E].
  apply (@unwritable_output_raises_OSError sample_lib
           (locked_world (sample_text scenario)) (sample_text scenario)
           scenario html);
    [vm_compute; reflexivity | vm_compute; reflexivity | exact E |].
  vm_compute. reflexivity.
Defined.


(** X4, instance: a run on the scenario's report. *)
Lemma successful_run_example :
  exists w' html,
    @main sample_lib (sample_world (sample_text scenario)) = (Ok tt, w') /\
    @html_content sample_lib scenario = Ok html /\
    stdout w' = success_lines "/home/qa/reports/jira-test-dashboard.html" /\
    browser w' = ["file:///home/qa/reports/jira-test-dashboard.html"] /\
    files w' !! "/home/qa/reports/jira-test-dashboard.html" = Some html.
Proof.
  destruct (@main sample_lib (sample_world (sample_text scenario)))
    as [r w'] eqn:E.
  assert (Hr : r = Ok tt)
    by (apply (f_equal fst) in E; vm_compute in E; symmetry; exact E).
  subst r.
  destruct (@successful_run_effects sample_lib _ _ E)
    as (text & data & html & Htext & Hdata & Hhtml & ->).
  assert (text = sample_text scenario) as ->
    by (vm_compute in Htext; injection Htext as <-; vm_compute; reflexivity).
  assert (data = scenario) as ->
    by (vm_compute in Hdata; injection Hdata as <-; reflexivity).
  eexists. exists html. split; [reflexivity |]. split; [exact Hhtml |].
  split; [reflexivity |]. split; [reflexivity |].
  cbn [files]. apply lookup_insert_eq.
Defined.

(** X5, instance: a run on the scenario's report in a directory with
    another file. *)
Lemma replaces_output_only_example :
  exists w',
    @main sample_lib (other_world (sample_text scenario)) = (Ok tt, w') /\
    files w' !! "/srv/ci/notes.txt" = Some "kept" /\
    @main sample_lib
      (set_files (<["/srv/ci/jira-test-dashboard.html" := "old page"]>
                    (files (other_world (sample_text scenario))))
                 (other_world (sample_text scenario)))
    = (Ok tt, w').
Proof.
  destruct (@main sample_lib (other_world (sample_text scenario)))
    as [r w'] eqn:E.
  assert (Hr : r = Ok tt)
    by (apply (f_equal fst) in E; vm_compute in E; symmetry; exact E).
  subst r. exists w'. split; [reflexivity |].
  destruct (@successful_run_replaces_output_only sample_lib _ _ E)
    as (Hframe & _ & Hold).
  split.
  - rewrite Hframe by discriminate. vm_compute. reflexivity.
  - exact (Hold "old page").
Defined.

(** X9, instance: a document that is an empty array. *)
Lemma non_object_example :
  @html_content sample_lib (VList []) = Raise TypeError.
Proof.
  apply (proj1 (@non_object_raises_TypeError sample_lib (VList []))).
  discriminate.
Defined.

(** X10, instance: the scenario's report with and without its suites. *)
Lemma suites_only_in_literal_example :
  exists html html' before after,
    @html_content sample_lib scenario = Ok html /\
    @html_content sample_lib scenario_without_suites = Ok html' /\
    html = before +:+ json_dumps (VList scenario_suites) +:+ after /\
    html' = before +:+ "[]" +:+ after.
Proof.
  destruct (@html_content sample_lib scenario) as [html|e] eqn:E;
    [|vm_compute in E; discriminate E].
  destruct (@html_content sample_lib scenario_without_suites)
    as [html'|e] eqn:E'; [|vm_compute in E'; discriminate E'].
  destruct (@suites_only_in_literal sample_lib scenario scenario_without_suites
              (VList scenario_suites) (VList []) html html')
    as (before & after & Hb & Ha);
    [| reflexivity | reflexivity | exact E | exact E' |].
  - intros p Hp Hne. vm_compute in Hp.
    repeat (destruct Hp as [<- | Hp]; [first [reflexivity | now destruct Hne] |]).
    destruct Hp.
  - exists html, html', before, after.
    split; [reflexivity |]. split; [reflexivity |]. split; [exact Hb | exact Ha].
Defined.

(** X11, instance: the cards of the scenario's page. *)
Lemma summary_cards_example :
  exists html,
    @html_content sample_lib scenario = Ok html /\
    occurs_in (stat_card "success" "243" "Total Tests") html /\
    occurs_in (stat_card "info" "82.3%" "Success Rate") html.
Proof.
  destruct (@html_content sample_lib scenario) as [html|e] eqn:E;
    [|vm_compute in E; discriminate E].
  exists html. split; [reflexivity |].
  pose proof (@summary_cards_show_their_fields sample_lib scenario html E) as Hall.
  rewrite List.Forall_forall in Hall.
  split.
  - destruct (Hall ("success", ["testExecutionSummary"; "totalTests"],
                    "Total Tests") ltac:(vm_compute; tauto)) as (x & Hx & Ox).
    vm_compute in Hx. injection Hx as <-. exact Ox.
  - destruct (Hall ("info", ["testExecutionSummary"; "successRate"],
                    "Success Rate") ltac:(vm_compute; tauto)) as (x & Hx & Ox).
    vm_compute in Hx. injection Hx as <-. exact Ox.
Defined.

(** X12, instance: two rows of the scenario's page. *)
Lemma finding_rows_example :
  exists html,
    @html_content sample_lib scenario = Ok html /\
    occurs_in (finding_item "SQL Injection Vulnerabilities" "3 Found") html /\
    occurs_in (finding_item "Concurrent User Success" "60%") html.
Proof.
  destruct (@html_content sample_lib scenario) as [html|e] eqn:E;
    [|vm_compute in E; discriminate E].
  exists html. split; [reflexivity |].
  pose proof (@finding_rows_show_their_fields sample_lib scenario html E) as Hall.
  rewrite List.Forall_forall in Hall.
  split.
  - destruct (Hall ("SQL Injection Vulnerabilities",
                    ["securityIssues"; "sqlInjectionVulnerabilities"], " Found")
                   ltac:(vm_compute; tauto)) as (x & Hx & Ox).
    vm_compute in Hx. injection Hx as <-. exact Ox.
  - destruct (Hall ("Concurrent User Success",
                    ["performanceIssues"; "concurrentUserFailures"], "")
                   ltac:(vm_compute; tauto)) as (x & Hx & Ox).
    vm_compute in Hx. injection Hx as <-. exact Ox.
Defined.

(** X13, instance: the subtitle and the doughnut chart of the scenario's
    page. *)
Lemma paired_fields_example :
  exists html,
    @html_content sample_lib scenario = Ok html /\
    occurs_in (subtitle "243" "12") html /\
    occurs_in (chart_data "'Passed', 'Failed'" "200" "43") html.
Proof.
  destruct (@html_content sample_lib scenario) as [html|e] eqn:E;
    [|vm_compute in E; discriminate E].
  exists html. split; [reflexivity |].
  pose proof (@paired_fields_in_place sample_lib scenario html E) as Hall.
  rewrite List.Forall_forall in Hall.
  split.
  - destruct (Hall (["testExecutionSummary"; "totalTests"],
                    ["testExecutionSummary"; "totalSuites"], subtitle)
                   ltac:(cbn; tauto)) as (x & y & Hx & Hy & Oxy).
    vm_compute in Hx, Hy. injection Hx as <-. injection Hy as <-. exact Oxy.
  - destruct (Hall (["testExecutionSummary"; "totalPassed"],
                    ["testExecutionSummary"; "totalFailed"],
                    chart_data "'Passed', 'Failed'")
                   ltac:(cbn; tauto)) as (x & y & Hx & Hy & Oxy).
    vm_compute in Hx, Hy. injection Hx as <-. injection Hy as <-. exact Oxy.
Defined.

(** X14, instance: the scenario's report, and a name beyond ASCII. *)
Lemma json_dumps_printable_example :
  all_printable (json_dumps scenario) = true /\
  all_printable (json_dumps (VStr "Café")) = true.
Proof.
  split; apply json_dumps_printable; reflexivity.
Defined.


(** X16, instance: the labels of the scenario's suites. *)
Lemma labels_example :
  exists html,
    @html_content sample_lib scenario = Ok html /\
    @received sample_lib scenario
      [ Viewer.Suite "Login Suite" "Auth" 10 8 2;
        Viewer.Suite "Cart Suite" "Commerce" 5 5 0 ] /\
    @script_in_page sample_lib scenario html
      [ Viewer.Suite "Login Suite" "Auth" 10 8 2;
        Viewer.Suite "Cart Suite" "Commerce" 5 5 0 ] /\
    Viewer.labels [ Viewer.Suite "Login Suite" "Auth" 10 8 2;
                    Viewer.Suite "Cart Suite" "Commerce" 5 5 0 ] =
      ["Login..."; "Cart..."] /\
    length (Viewer.labels [ Viewer.Suite "Login Suite" "Auth" 10 8 2;
                            Viewer.Suite "Cart Suite" "Commerce" 5 5 0 ]) = 2%nat.
Proof.
  destruct (@html_content sample_lib scenario) as [html|e] eqn:E;
    [|vm_compute in E; discriminate E].
  exists html.
  assert (Hrec : @received sample_lib scenario
            [ Viewer.Suite "Login Suite" "Auth" 10 8 2;
              Viewer.Suite "Cart Suite" "Commerce" 5 5 0 ])
    by show_received.
  destruct (@labels_are_first_tokens sample_lib scenario _ html E Hrec)
    as (Hpage & Hlen & _).
  split; [reflexivity |]. split; [exact Hrec |]. split; [exact Hpage |].
  split; [reflexivity | exact Hlen].
Defined.

(** X17, instance: a suite of the category [constructor]. *)
Lemma inherited_category_example :
  exists html,
    @html_content sample_lib inherited_report = Ok html /\
    @received sample_lib inherited_report
      [ Viewer.Suite "Login Suite" "Auth" 4 4 0;
        Viewer.Suite "Build Suite" "constructor" 4 2 2 ] /\
    @script_in_page sample_lib inherited_report html
      [ Viewer.Suite "Login Suite" "Auth" 4 4 0;
        Viewer.Suite "Build Suite" "constructor" 4 2 2 ] /\
    Viewer.categoryData [ Viewer.Suite "Login Suite" "Auth" 4 4 0;
                          Viewer.Suite "Build Suite" "constructor" 4 2 2 ] =
    Viewer.categoryData [ Viewer.Suite "Login Suite" "Auth" 4 4 0 ].
Proof.
  destruct (@html_content sample_lib inherited_report) as [html|e] eqn:E;
    [|vm_compute in E; discriminate E].
  exists html.
  assert (Hrec : @received sample_lib inherited_report
            [ Viewer.Suite "Login Suite" "Auth" 4 4 0;
              Viewer.Suite "Build Suite" "constructor" 4 2 2 ])
    by show_received.
  destruct (@inherited_categories_are_dropped sample_lib inherited_report
              _ html E Hrec) as (Hpage & Hdata).
  split; [reflexivity |]. split; [exact Hrec |]. split; [exact Hpage |].
  exact Hdata.
Defined.

(** X18, instance: two categories that are array indices and one that
    is not. *)
Lemma radar_axes_example :
  exists html,
    @html_content sample_lib indexed_report = Ok html /\
    @received sample_lib indexed_report
      [ Viewer.Suite "Nightly" "10" 4 4 0;
        Viewer.Suite "Login Suite" "Auth" 4 3 1;
        Viewer.Suite "Weekly" "9" 4 2 2 ] /\
    @script_in_page sample_lib indexed_report html
      [ Viewer.Suite "Nightly" "10" 4 4 0;
        Viewer.Suite "Login Suite" "Auth" 4 3 1;
        Viewer.Suite "Weekly" "9" 4 2 2 ] /\
    Viewer.radar_labels [ Viewer.Suite "Nightly" "10" 4 4 0;
                          Viewer.Suite "Login Suite" "Auth" 4 3 1;
                          Viewer.Suite "Weekly" "9" 4 2 2 ] =
      ["9"; "10"; "Auth"] /\
    List.NoDup (Viewer.radar_labels [ Viewer.Suite "Nightly" "10" 4 4 0;
                                      Viewer.Suite "Login Suite" "Auth" 4 3 1;
                                      Viewer.Suite "Weekly" "9" 4 2 2 ]).
Proof.
  destruct (@html_content sample_lib indexed_report) as [html|e] eqn:E;
    [|vm_compute in E; discriminate E].
  exists html.
  assert (Hrec : @received sample_lib indexed_report
            [ Viewer.Suite "Nightly" "10" 4 4 0;
              Viewer.Suite "Login Suite" "Auth" 4 3 1;
              Viewer.Suite "Weekly" "9" 4 2 2 ])
    by show_received.
  destruct (@radar_axes_are_the_categories sample_lib indexed_report
              _ html E Hrec) as (Hpage & _ & Hnodup & _).
  split; [reflexivity |]. split; [exact Hrec |]. split; [exact Hpage |].
  split; [vm_compute; reflexivity | exact Hnodup].
Defined.

(** X19, instance: one suite without a test. *)
Lemma category_without_tests_example :
  exists html,
    @html_content sample_lib idle_report = Ok html /\
    @received sample_lib idle_report [Viewer.Suite "Smoke" "A" 0 0 0] /\
    @script_in_page sample_lib idle_report html
      [Viewer.Suite "Smoke" "A" 0 0 0] /\
    In ("A", Some "NaN") (Viewer.categoryData [Viewer.Suite "Smoke" "A" 0 0 0]).
Proof.
  destruct (@html_content sample_lib idle_report) as [html|e] eqn:E;
    [|vm_compute in E; discriminate E].
  exists html.
  assert (Hrec : @received sample_lib idle_report [Viewer.Suite "Smoke" "A" 0 0 0])
    by show_received.
  split; [reflexivity |]. split; [exact Hrec |].
  apply (@rate_of_a_category_without_tests sample_lib idle_report
           [Viewer.Suite "Smoke" "A" 0 0 0] html "A" E Hrec).
  - repeat constructor; simpl; lia.
  - intros c Hc. simpl in Hc. destruct Hc as [<- | []].
    vm_compute. repeat split; reflexivity.
  - simpl. tauto.
  - reflexivity.
Defined.

(** X20, instance: the suite set of the specification's aggregation
    property, whose category [B] has all its tests passed. *)
Lemma all_passed_example :
  exists html,
    @html_content sample_lib aggregation_report = Ok html /\
    @received sample_lib aggregation_report
      [ Viewer.Suite "Login" "A" 10 5 5; Viewer.Suite "Logout" "A" 10 5 5;
        Viewer.Suite "Cart" "B" 4 4 0 ] /\
    @script_in_page sample_lib aggregation_report html
      [ Viewer.Suite "Login" "A" 10 5 5; Viewer.Suite "Logout" "A" 10 5 5;
        Viewer.Suite "Cart" "B" 4 4 0 ] /\
    In ("B", Some "100.0")
       (Viewer.categoryData [ Viewer.Suite "Login" "A" 10 5 5;
                              Viewer.Suite "Logout" "A" 10 5 5;
                              Viewer.Suite "Cart" "B" 4 4 0 ]).
Proof.
  destruct (@html_content sample_lib aggregation_report) as [html|e] eqn:E;
    [|vm_compute in E; discriminate E].
  exists html.
  assert (Hrec : @received sample_lib aggregation_report
            [ Viewer.Suite "Login" "A" 10 5 5; Viewer.Suite "Logout" "A" 10 5 5;
              Viewer.Suite "Cart" "B" 4 4 0 ])
    by show_received.
  destruct (@rates_of_all_and_nothing sample_lib aggregation_report
              [ Viewer.Suite "Login" "A" 10 5 5; Viewer.Suite "Logout" "A" 10 5 5;
                Viewer.Suite "Cart" "B" 4 4 0 ] html "B" E Hrec)
    as (Hpage & _ & Hall).
  - repeat constructor; simpl; lia.
  - intros c Hc. simpl in Hc.
    destruct Hc as [<- | [<- | [<- | []]]]; vm_compute; repeat split; reflexivity.
  - simpl. tauto.
  - split; [reflexivity |]. split; [exact Hrec |]. split; [exact Hpage |].
    apply Hall. reflexivity.
Defined.

(** X21, instance: the scenario's suites. *)
Lemma rates_are_percentages_example :
  Forall (fun entry => exists n, 0 <= n <= 1000 /\
                                 snd entry = Some (Viewer.fixed_digits n))
         (Viewer.categoryData [ Viewer.Suite "Login Suite" "Auth" 10 8 2;
                                Viewer.Suite "Cart Suite" "Commerce" 5 5 0 ]).
Proof.
  apply rates_are_percentages.
  - repeat constructor; simpl; lia.
  - intros c Hc. simpl in Hc.
    destruct Hc as [<- | [<- | []]]; vm_compute; repeat split; reflexivity.
  - repeat constructor; simpl; lia.
Defined.
